(** * OS/161 virtual memory core: address spaces, two-level page table,
      fault handler.

    A shallow embedding of [kern/vm/vm.c] and [kern/vm/addrspace.c].
    Machine words are [Z] with the 32-bit wrap-around written out, C arrays
    are lists read and updated by index, the linked region list is a list of
    region records, and everything the kernel code reaches through a pointer
    that can be shared (physical frames, the page allocator, the TLB) lives
    in one explicit [kernel] state that every operation threads through. *)

From Stdlib Require Import ZArith Lia List Init.Byte.
From stdpp Require Import base numbers list gmap.

Local Open Scope Z_scope.

(** ** Machine words *)

(** Truncation of an integer to an unsigned 32-bit word ([uint32_t],
    [vaddr_t], [paddr_t], [size_t] on this machine). *)
Definition wrap32 (z : Z) : Z := z mod 2 ^ 32.

Definition is_u32 (z : Z) : Prop := 0 <= z < 2 ^ 32.

(** ** Constants of the headers *)

(** Modelled from the spec: [machine/vm.h] is not among the sources; the
    spec's section 6 gives PAGE_SIZE = 4096. *)
Definition PAGE_SIZE : Z := 4096.

(** Modelled from the spec: [machine/vm.h] is not among the sources; the
    spec's section 6 gives PAGE_FRAME = 0xFFFFF000. *)
Definition PAGE_FRAME : Z := 0xfffff000.

(** Modelled from the spec: [vm.h] is not among the sources; the spec's
    section 6 gives L1_PT_SIZE = 2048. *)
Definition L1_PT_SIZE : nat := 2048.

(** Modelled from the spec: [vm.h] is not among the sources; the spec's
    section 6 gives L2_PT_SIZE = 512. *)
Definition L2_PT_SIZE : nat := 512.

(** Modelled from the spec: [machine/vm.h] is not among the sources; the
    kernel's direct-mapped window starts at MIPS_KSEG0, which is also the
    top of the user address range (the spec's USERSTACK, "top of user VA"). *)
Definition MIPS_KSEG0 : Z := 0x80000000.
Definition USERSTACK : Z := MIPS_KSEG0.

(** Modelled from the spec: [machine/tlb.h] is not among the sources; the
    spec's EntryLo layout is [(PFN << 12) | DIRTY? | VALID] with both flag
    bits below the frame number; these are the two bits of the MIPS R3000
    EntryLo register. *)
Definition TLBLO_DIRTY : Z := 0x400.
Definition TLBLO_VALID : Z := 0x200.

(** Modelled from the spec: [machine/tlb.h] is not among the sources;
    NUM_TLB is the hardware TLB entry count, TLBHI_INVALID gives every slot
    its own tag in the kernel range and TLBLO_INVALID has VALID clear. *)
Definition NUM_TLB : nat := 64.
Definition TLBHI_INVALID (i : Z) : Z := wrap32 (Z.shiftl (0x80000 + i) 12).
Definition TLBLO_INVALID : Z := 0.

(** Modelled from the spec: [elf.h] is not among the sources; the ELF
    segment permission bits R, W, X. *)
Definition PF_R : Z := 4.
Definition PF_W : Z := 2.
Definition PF_X : Z := 1.

(** Modelled from the spec: [kern/errno.h] is not among the sources; the
    three error numbers the two files return (success is 0). *)
Definition ENOMEM : Z := 3.
Definition EFAULT : Z := 6.
Definition EINVAL : Z := 8.

(** Modelled from the spec: [vm.h] is not among the sources; the three
    fault types the trap handler passes to [vm_fault]. *)
Definition VM_FAULT_READ : Z := 0.
Definition VM_FAULT_WRITE : Z := 1.
Definition VM_FAULT_READONLY : Z := 2.

(** Modelled from the spec: [machine/vm.h] is not among the sources; the
    spec's section 3 says the two conversions are pure bit manipulations
    through the fixed direct-mapped window. *)
Definition PADDR_TO_KVADDR (paddr : Z) : Z := wrap32 (paddr + MIPS_KSEG0).
Definition KVADDR_TO_PADDR (kvaddr : Z) : Z := wrap32 (kvaddr - MIPS_KSEG0).

(** ** Page-table indices ([vm_fault], vm.c lines 151-152) *)

(** [uint32_t msb = faultaddress >> 21;] *)
Definition pt_msb (faultaddress : Z) : Z := Z.shiftr faultaddress 21.

(** [uint32_t lsb = (faultaddress << 11) >> 23;] the left shift is a 32-bit
    unsigned shift and drops the bits that leave the word. *)
Definition pt_lsb (faultaddress : Z) : Z :=
  Z.shiftr (wrap32 (Z.shiftl faultaddress 11)) 23.

(** ** Data model *)

(** One physical page of RAM, as bytes. *)
Abbreviation page := (list byte).

(** [struct region] of addrspace.h; the [next] link is the tail of the
    list the record sits in. *)
Record region : Type := mkRegion {
  as_vbase : Z;
  size : Z;
  flags : Z;
  og_flags : Z
}.

(** A second-level table: [L2_PT_SIZE] EntryLo words, 0 meaning "absent". *)
Abbreviation l2_table := (list Z).

(** The first-level table [paddr_t **]: [L1_PT_SIZE] slots, [None] for a
    NULL slot. *)
Abbreviation l1_table := (list (option (list Z))).

(** [struct addrspace]; [pagetable = None] is the NULL pointer, an empty
    [regions] list is the NULL list head. *)
Record addrspace : Type := mkAS {
  pagetable : option l1_table;
  regions : list region;
  stackbase : Z
}.

(** The part of [struct proc] the VM code looks at. *)
Record proc : Type := mkProc {
  p_addrspace : option addrspace
}.

(** A write to the TLB, as the hardware primitive was called. *)
Inductive tlb_event : Type :=
  | TlbRandom (entryhi entrylo : Z)
  | TlbWrite (entryhi entrylo : Z) (index : Z).

(** Everything outside the two files that their code reads or changes.

    - [k_mem]: contents of RAM, one page per page-aligned kernel virtual
      address; a page that was never written reads as zero bytes.
    - [k_used]: the pages [alloc_kpages] has handed out and that were not
      given back.
    - [k_free]: the pages [alloc_kpages] hands out next, in this order; when
      the list is empty the allocator is out of memory.
    - [k_heap]: the outcomes of the coming [kmalloc] calls, in order: [None]
      is a NULL return, [Some junk] a fresh block whose words read [junk i]
      until the code writes them; after the last outcome [kmalloc] fails.
    - [k_live]: number of [kmalloc] blocks not yet given to [kfree].
    - [k_tlb]: the TLB writes so far, latest first.
    - [k_spl]: the interrupt priority level.
    - [k_curproc]: [curproc], [None] when there is no current process. *)
Record kernel : Type := mkKernel {
  k_mem : gmap Z page;
  k_used : gset Z;
  k_free : list Z;
  k_heap : list (option (nat -> Z));
  k_live : Z;
  k_tlb : list tlb_event;
  k_spl : Z;
  k_curproc : option proc
}.

Definition set_mem (m : gmap Z page) (k : kernel) : kernel :=
  mkKernel m (k_used k) (k_free k) (k_heap k) (k_live k) (k_tlb k) (k_spl k)
    (k_curproc k).

Definition set_pages (used : gset Z) (free : list Z) (k : kernel) : kernel :=
  mkKernel (k_mem k) used free (k_heap k) (k_live k) (k_tlb k) (k_spl k)
    (k_curproc k).

Definition set_heap (h : list (option (nat -> Z))) (live : Z) (k : kernel)
  : kernel :=
  mkKernel (k_mem k) (k_used k) (k_free k) h live (k_tlb k) (k_spl k)
    (k_curproc k).

Definition set_tlb (t : list tlb_event) (k : kernel) : kernel :=
  mkKernel (k_mem k) (k_used k) (k_free k) (k_heap k) (k_live k) t (k_spl k)
    (k_curproc k).

Definition set_spl (s : Z) (k : kernel) : kernel :=
  mkKernel (k_mem k) (k_used k) (k_free k) (k_heap k) (k_live k) (k_tlb k) s
    (k_curproc k).

Definition set_curproc (p : option proc) (k : kernel) : kernel :=
  mkKernel (k_mem k) (k_used k) (k_free k) (k_heap k) (k_live k) (k_tlb k)
    (k_spl k) p.

(** ** The collaborators the code calls *)

(** Modelled from the spec: [kmalloc] of the kernel heap is not among the
    sources; it returns a block or NULL, here the next outcome of
    [k_heap]. *)
Definition kmalloc (k : kernel) : option (nat -> Z) * kernel :=
  match k_heap k with
  | [] => (None, k)
  | None :: rest => (None, set_heap rest (k_live k) k)
  | Some junk :: rest => (Some junk, set_heap rest (k_live k + 1) k)
  end.

(** Modelled from the spec: [kfree] of the kernel heap is not among the
    sources; it takes a block back. *)
Definition kfree (k : kernel) : kernel := set_heap (k_heap k) (k_live k - 1) k.

(** Modelled from the spec: [alloc_kpages] of the physical allocator is not
    among the sources (section 6: "kernel virtual allocator, one page
    unit"); both files only ever ask for one page. It returns the kernel
    virtual address of a page nobody else holds, or 0. *)
Definition alloc_kpages (npages : Z) (k : kernel) : Z * kernel :=
  match k_free k with
  | [] => (0, k)
  | v :: rest => (v, set_pages ({[v]} ∪ k_used k) rest k)
  end.

(** Modelled from the spec: [free_kpages] of the physical allocator is not
    among the sources; a page that is held goes back to the allocator, which
    may hand it out again. What the allocator does with an address it never
    handed out is unknown; the model leaves the state as it is. *)
Definition free_kpages (kvaddr : Z) (k : kernel) : kernel :=
  if decide (kvaddr ∈ k_used k)
  then set_pages (k_used k ∖ {[kvaddr]}) (k_free k ++ [kvaddr]) k
  else k.

(** Byte [i] of the page at kernel virtual address [v]. *)
Definition mem_byte (k : kernel) (v : Z) (i : nat) : byte :=
  nth i (default [] (k_mem k !! v)) x00.

(** Modelled from the spec: [bzero] of the kernel library is not among the
    sources; it clears [len] bytes from [v] on. *)
Definition bzero (v : Z) (len : Z) (k : kernel) : kernel :=
  set_mem (<[v := replicate (Z.to_nat len) x00
                  ++ drop (Z.to_nat len) (default [] (k_mem k !! v))]>
             (k_mem k)) k.

(** Modelled from the spec: [memmove] of the kernel library is not among the
    sources; it copies [len] bytes from [src] to [dst] and returns [dst]. *)
Definition memmove (dst src : Z) (len : Z) (k : kernel) : Z * kernel :=
  (dst,
   set_mem (<[dst := map (mem_byte k src) (seq 0 (Z.to_nat len))
                       ++ drop (Z.to_nat len) (default [] (k_mem k !! dst))]>
              (k_mem k)) k).

(** Modelled from the spec: [tlb_random] of [machine/tlb.h] is not among the
    sources; it writes the pair into a slot the hardware picks. *)
Definition tlb_random (entryhi entrylo : Z) (k : kernel) : kernel :=
  set_tlb (TlbRandom entryhi entrylo :: k_tlb k) k.

(** Modelled from the spec: [tlb_write] of [machine/tlb.h] is not among the
    sources; it writes the pair into slot [index]. *)
Definition tlb_write (entryhi entrylo : Z) (index : Z) (k : kernel) : kernel :=
  set_tlb (TlbWrite entryhi entrylo index :: k_tlb k) k.

(** Modelled from the spec: [splhigh] and [splx] of [spl.h] are not among
    the sources; the first masks interrupts and returns the old level, the
    second sets the level back. *)
Definition IPL_HIGH : Z := 1.
Definition splhigh (k : kernel) : Z * kernel := (k_spl k, set_spl IPL_HIGH k).
Definition splx (spl : Z) (k : kernel) : kernel := set_spl spl k.

(** Modelled from the spec: [proc_getas] of proc.c is not among the sources;
    it returns the address space of the current process, or NULL. *)
Definition proc_getas (k : kernel) : option addrspace :=
  match k_curproc k with
  | None => None
  | Some p => p_addrspace p
  end.

(** The store through the pointer [proc_getas] returned. *)
Definition set_curas (a : addrspace) (k : kernel) : kernel :=
  match k_curproc k with
  | None => k
  | Some _ => set_curproc (Some (mkProc (Some a))) k
  end.

(** ** Reading and writing the two-level table *)

(** [pt[msb]]: the slot, NULL when empty. *)
Definition l1_get (pt : l1_table) (msb : nat) : option l2_table :=
  match pt !! msb with
  | Some slot => slot
  | None => None
  end.

(** [pt[msb][lsb]] read through a non-NULL [pt[msb]]. *)
Definition l2_get (l2 : l2_table) (lsb : nat) : Z := default 0 (l2 !! lsb).

(** [pt[msb][lsb]], 0 where the code could not read it. *)
Definition pt_get (pt : l1_table) (msb lsb : nat) : Z :=
  match l1_get pt msb with
  | Some l2 => l2_get l2 lsb
  | None => 0
  end.

(** [pt[msb][lsb] = e;] *)
Definition pt_set (pt : l1_table) (msb lsb : nat) (e : Z) : l1_table :=
  match l1_get pt msb with
  | Some l2 => <[msb := Some (<[lsb := e]> l2)]> pt
  | None => pt
  end.

(** ** vm.c: the page table *)

(** [create_pt_l2]. The [KASSERT(msb < 0xFFFFF800)] holds for every index
    [vm_fault] computes (see [pt_msb_range]). A fresh L2 array has all of its
    [L2_PT_SIZE] words set to 0 by the loop. *)
Definition create_pt_l2 (pt : l1_table) (msb : Z) (k : kernel)
  : Z * l1_table * kernel :=
  match l1_get pt (Z.to_nat msb) with
  | Some _ => (EINVAL, pt, k)
  | None =>
    match kmalloc k with
    | (None, k1) => (ENOMEM, pt, k1)
    | (Some _, k1) =>
      (0, <[Z.to_nat msb := Some (replicate L2_PT_SIZE 0)]> pt, k1)
    end
  end.

(** [create_pte]. *)
Definition create_pte (pt : l1_table) (msb lsb : Z) (dirty : Z) (k : kernel)
  : Z * l1_table * kernel :=
  let '(result, pt, k) :=
    match l1_get pt (Z.to_nat msb) with
    | None => create_pt_l2 pt msb k
    | Some _ => (0, pt, k)
    end in
  if negb (result =? 0) then (result, pt, k)
  else if negb (pt_get pt (Z.to_nat msb) (Z.to_nat lsb) =? 0)
  then (EINVAL, pt, k)
  else
    let '(virtual_base, k) := alloc_kpages 1 k in
    if virtual_base =? 0 then (ENOMEM, pt, k)
    else
      let k := bzero virtual_base PAGE_SIZE k in
      let physical_base := KVADDR_TO_PADDR virtual_base in
      (0,
       pt_set pt (Z.to_nat msb) (Z.to_nat lsb)
         (Z.lor (Z.lor (Z.land physical_base PAGE_FRAME) dirty) TLBLO_VALID),
       k).

(** The inner loop of [destroy_pt] over one L2 array, from slot [lsb] on for
    [n] slots: every non-zero entry has its frame freed and is set to 0. *)
Fixpoint destroy_l2 (n : nat) (lsb : nat) (l2 : l2_table) (k : kernel)
  : l2_table * kernel :=
  match n with
  | O => (l2, k)
  | S n' =>
    if negb (l2_get l2 lsb =? 0)
    then
      let k := free_kpages (PADDR_TO_KVADDR (Z.land (l2_get l2 lsb) PAGE_FRAME)) k in
      destroy_l2 n' (S lsb) (<[lsb := 0]> l2) k
    else destroy_l2 n' (S lsb) l2 k
  end.

(** The outer loop of [destroy_pt], from slot [msb] on for [n] slots. A slot
    keeps pointing at its (freed) L2 array. *)
Fixpoint destroy_l1 (n : nat) (msb : nat) (pt : l1_table) (k : kernel)
  : l1_table * kernel :=
  match n with
  | O => (pt, k)
  | S n' =>
    match l1_get pt msb with
    | Some l2 =>
      let '(l2, k) := destroy_l2 L2_PT_SIZE 0 l2 k in
      destroy_l1 n' (S msb) (<[msb := Some l2]> pt) (kfree k)
    | None => destroy_l1 n' (S msb) pt k
    end
  end.

(** [destroy_pt]. The result also gives the words the freed table is left
    with. *)
Definition destroy_pt (pt : option l1_table) (k : kernel)
  : option l1_table * kernel :=
  match pt with
  | None => (None, k)
  | Some pt =>
    let '(pt, k) := destroy_l1 L1_PT_SIZE 0 pt k in
    (Some pt, kfree k)
  end.

(** The inner loop of [copy_pt] over [pt_copy[msb]], from slot [lsb] on for
    [n] slots. [Some code] is a [return code;] from inside the loop. *)
Fixpoint copy_pt_l2 (n : nat) (lsb : nat) (pt_original pt_copy : l1_table)
    (msb : nat) (k : kernel) : option Z * l1_table * kernel :=
  match n with
  | O => (None, pt_copy, k)
  | S n' =>
    let pt_copy := pt_set pt_copy msb lsb (pt_get pt_original msb lsb) in
    if pt_get pt_copy msb lsb =? 0
    then copy_pt_l2 n' (S lsb) pt_original pt_copy msb k
    else
      let '(newpage, k) := alloc_kpages 1 k in
      if newpage =? 0 then (Some ENOMEM, pt_copy, k)
      else
        let k := bzero newpage PAGE_SIZE k in
        let '(moved, k) :=
          memmove newpage
            (PADDR_TO_KVADDR (Z.land (pt_get pt_original msb lsb) PAGE_FRAME))
            PAGE_SIZE k in
        if moved =? 0
        then
          let '(freed, k) := destroy_pt (Some pt_copy) k in
          (Some ENOMEM, default pt_copy freed, k)
        else
          let dirty := Z.land (pt_get pt_original msb lsb) TLBLO_DIRTY in
          let pt_copy :=
            pt_set pt_copy msb lsb
              (Z.lor (Z.lor (Z.land (KVADDR_TO_PADDR newpage) PAGE_FRAME) dirty)
                 TLBLO_VALID) in
          copy_pt_l2 n' (S lsb) pt_original pt_copy msb k
  end.

(** The outer loop of [copy_pt], from slot [msb] on for [n] slots. The L2
    array [kmalloc] returns is not initialised: its words read as the
    block's junk until the inner loop writes them. *)
Fixpoint copy_pt_l1 (n : nat) (msb : nat) (pt_original pt_copy : l1_table)
    (k : kernel) : option Z * l1_table * kernel :=
  match n with
  | O => (None, pt_copy, k)
  | S n' =>
    match l1_get pt_original msb with
    | Some _ =>
      match kmalloc k with
      | (None, k) => (Some ENOMEM, <[msb := None]> pt_copy, k)
      | (Some junk, k) =>
        let pt_copy := <[msb := Some (map junk (seq 0 L2_PT_SIZE))]> pt_copy in
        match copy_pt_l2 L2_PT_SIZE 0 pt_original pt_copy msb k with
        | (Some code, pt_copy, k) => (Some code, pt_copy, k)
        | (None, pt_copy, k) => copy_pt_l1 n' (S msb) pt_original pt_copy k
        end
      end
    | None => copy_pt_l1 n' (S msb) pt_original pt_copy k
    end
  end.

(** [copy_pt]. The table in the result is what the caller's [pt_copy]
    pointer leads to afterwards. When the caller passes NULL the function
    fills a block of its own that the caller never sees (the parameter is
    passed by value). *)
Definition copy_pt (pt_original pt_copy : option l1_table) (k : kernel)
  : Z * option l1_table * kernel :=
  match pt_original with
  | None => (EINVAL, pt_copy, k)
  | Some pt_original =>
    match pt_copy with
    | Some pt_copy =>
      match copy_pt_l1 L1_PT_SIZE 0 pt_original pt_copy k with
      | (Some code, pt_copy, k) => (code, Some pt_copy, k)
      | (None, pt_copy, k) => (0, Some pt_copy, k)
      end
    | None =>
      match kmalloc k with
      | (None, k) => (ENOMEM, None, k)
      | (Some _, k) =>
        match copy_pt_l1 L1_PT_SIZE 0 pt_original (replicate L1_PT_SIZE None) k with
        | (Some code, _, k) => (code, None, k)
        | (None, _, k) => (0, None, k)
        end
      end
    end
  end.

(** [pte_exists]. *)
Definition pte_exists (pt : option l1_table) (msb lsb : Z) : bool :=
  match pt with
  | None => false
  | Some pt =>
    match l1_get pt (Z.to_nat msb) with
    | None => false
    | Some l2 => negb (l2_get l2 (Z.to_nat lsb) =? 0)
    end
  end.

(** The region scan of [vm_fault] (lines 163-168): the first region whose
    range test succeeds. The sum [as_vbase + size] is a 32-bit sum. *)
Fixpoint find_region (faultaddress : Z) (curr : list region) : option region :=
  match curr with
  | [] => None
  | r :: next =>
    if (faultaddress <? wrap32 (as_vbase r + size r))
       && (as_vbase r <=? faultaddress)
    then Some r
    else find_region faultaddress next
  end.

(** The tail of [vm_fault] (lines 176-183): the entry now present is loaded
    into a TLB slot of the hardware's choice, with interrupts masked. *)
Definition vm_fault_load (faultaddress msb lsb : Z) (pt : l1_table)
    (k : kernel) : Z * kernel :=
  let entry_hi := Z.land faultaddress PAGE_FRAME in
  let entry_lo := pt_get pt (Z.to_nat msb) (Z.to_nat lsb) in
  let '(spl, k) := splhigh k in
  let k := tlb_random entry_hi entry_lo k in
  let k := splx spl k in
  (0, k).

(** [vm_fault]. The page table is changed in place through the pointer
    [proc_getas] returned, also when [create_pte] fails after it created the
    L2 array. *)
Definition vm_fault (faulttype : Z) (faultaddress : Z) (k : kernel)
  : Z * kernel :=
  if faulttype =? VM_FAULT_READONLY then (EFAULT, k)
  else if negb ((faulttype =? VM_FAULT_READ) || (faulttype =? VM_FAULT_WRITE))
  then (EINVAL, k)
  else if faultaddress =? 0 then (EFAULT, k)
  else
    match k_curproc k with
    | None => (EFAULT, k)
    | Some _ =>
      match proc_getas k with
      | None => (EFAULT, k)
      | Some a =>
        let faultaddress := Z.land faultaddress PAGE_FRAME in
        let msb := pt_msb faultaddress in
        let lsb := pt_lsb faultaddress in
        match pagetable a with
        | None => (EFAULT, k)
        | Some pt =>
          match regions a with
          | [] => (EFAULT, k)
          | _ :: _ =>
            if negb (pte_exists (Some pt) msb lsb)
            then
              match find_region faultaddress (regions a) with
              | None => (EFAULT, k)
              | Some curr =>
                let dirty :=
                  if Z.land (flags curr) PF_W =? PF_W then TLBLO_DIRTY else 0 in
                if negb (Z.land (flags curr) PF_W =? PF_W)
                   && (faulttype =? VM_FAULT_WRITE)
                then (EFAULT, k)
                else
                  let '(result, pt, k) := create_pte pt msb lsb dirty k in
                  let k := set_curas (mkAS (Some pt) (regions a) (stackbase a)) k in
                  if negb (result =? 0) then (result, k)
                  else vm_fault_load faultaddress msb lsb pt k
              end
            else vm_fault_load faultaddress msb lsb pt k
          end
        end
      end
    end.

(** ** addrspace.c: address spaces *)

(** A function that takes a [struct addrspace *] takes the record and
    returns the record as the call leaves it; NULL is [None]. A caller that
    passes the current process's address space stores the result back with
    [set_curas]. Frames are never copied with the record: they stay in the
    one kernel state, so two page tables that name the same frame share it. *)

(** [as_create]. The loop on line 74 sets every slot of the fresh L1 array
    to NULL. *)
Definition as_create (k : kernel) : option addrspace * kernel :=
  match kmalloc k with
  | (None, k) => (None, k)
  | (Some _, k) =>
    match kmalloc k with
    | (None, k) => (None, kfree k)
    | (Some _, k) =>
      (Some (mkAS (Some (replicate L1_PT_SIZE None)) [] USERSTACK), k)
    end
  end.

(** The region loop of [as_destroy]: one [kfree] per node. *)
Fixpoint free_regions (current : list region) (k : kernel) : kernel :=
  match current with
  | [] => k
  | _ :: next => free_regions next (kfree k)
  end.

(** [as_destroy]. *)
Definition as_destroy (a : option addrspace) (k : kernel) : kernel :=
  match a with
  | None => k
  | Some a =>
    let k := free_regions (regions a) k in
    let '(_, k) := destroy_pt (pagetable a) k in
    kfree k
  end.

(** The region loop of [as_copy] (lines 97-125): every node of the old list
    is copied into a fresh node linked at the end of the new list. [Some
    code] is a [return code;] from inside the loop, after [as_destroy]. *)
Fixpoint copy_regions (oldr : list region) (newas : addrspace) (k : kernel)
  : option Z * addrspace * kernel :=
  match oldr with
  | [] => (None, newas, k)
  | r :: next =>
    match kmalloc k with
    | (None, k) => (Some ENOMEM, newas, as_destroy (Some newas) k)
    | (Some _, k) =>
      let newr := mkRegion (as_vbase r) (size r) (flags r) (og_flags r) in
      copy_regions next
        (mkAS (pagetable newas) (regions newas ++ [newr]) (stackbase newas)) k
    end
  end.

(** [as_copy]; the address space in the result is what [*ret] holds. *)
Definition as_copy (old : addrspace) (k : kernel)
  : Z * option addrspace * kernel :=
  match as_create k with
  | (None, k) => (ENOMEM, None, k)
  | (Some newas, k) =>
    let newas := mkAS (pagetable newas) (regions newas) (stackbase old) in
    match copy_regions (regions old) newas k with
    | (Some code, _, k) => (code, None, k)
    | (None, newas, k) =>
      let '(res, pt, k) := copy_pt (pagetable old) (pagetable newas) k in
      let newas := mkAS pt (regions newas) (stackbase newas) in
      if negb (res =? 0) then (res, None, as_destroy (Some newas) k)
      else (0, Some newas, k)
    end
  end.

(** The flush loop of [as_activate]: slots [i], [i+1], ... for [n] slots. *)
Fixpoint tlb_flush (n : nat) (i : Z) (k : kernel) : kernel :=
  match n with
  | O => k
  | S n' => tlb_flush n' (i + 1) (tlb_write (TLBHI_INVALID i) TLBLO_INVALID i k)
  end.

(** [as_activate]. *)
Definition as_activate (k : kernel) : kernel :=
  match proc_getas k with
  | None => k
  | Some _ =>
    let '(spl, k) := splhigh k in
    let k := tlb_flush NUM_TLB 0 k in
    splx spl k
  end.

(** [as_deactivate]. *)
Definition as_deactivate (k : kernel) : kernel := as_activate k.

(** [as_define_region]. [memsize] is a [size_t] and [vaddr] a [vaddr_t],
    both 32 bits wide; the three permission arguments are [int]s whose
    bitwise or is stored in a [uint32_t]. *)
Definition as_define_region (a : addrspace) (vaddr memsize : Z)
    (readable writeable executable : Z) (k : kernel)
  : Z * addrspace * kernel :=
  let memsize := wrap32 (memsize + Z.land vaddr (wrap32 (Z.lnot PAGE_FRAME))) in
  let vaddr := Z.land vaddr PAGE_FRAME in
  let memsize := Z.land (wrap32 (wrap32 (memsize + PAGE_SIZE) - 1)) PAGE_FRAME in
  match kmalloc k with
  | (None, k) => (ENOMEM, a, k)
  | (Some _, k) =>
    let flags := wrap32 (Z.lor (Z.lor readable writeable) executable) in
    let new_region := mkRegion vaddr memsize flags flags in
    (0, mkAS (pagetable a) (new_region :: regions a) (stackbase a), k)
  end.

(** The loop of [as_prepare_load]. *)
Fixpoint prepare_regions (current : list region) : list region :=
  match current with
  | [] => []
  | r :: next =>
    mkRegion (as_vbase r) (size r) (Z.lor PF_W PF_R) (flags r)
      :: prepare_regions next
  end.

(** [as_prepare_load]. *)
Definition as_prepare_load (a : option addrspace) : Z * option addrspace :=
  match a with
  | None => (EFAULT, None)
  | Some a =>
    (0, Some (mkAS (pagetable a) (prepare_regions (regions a)) (stackbase a)))
  end.

(** The loop of [as_complete_load]. *)
Fixpoint complete_regions (current : list region) : list region :=
  match current with
  | [] => []
  | r :: next =>
    mkRegion (as_vbase r) (size r) (og_flags r) (og_flags r)
      :: complete_regions next
  end.

(** [as_complete_load]. *)
Definition as_complete_load (a : option addrspace) (k : kernel)
  : Z * option addrspace * kernel :=
  match a with
  | None => (EFAULT, None, k)
  | Some a =>
    let a := mkAS (pagetable a) (complete_regions (regions a)) (stackbase a) in
    (0, Some a, as_deactivate k)
  end.

(** ** Driving the interface from a freshly booted kernel *)

(** A kernel with the given free pages, [heap] successful [kmalloc]s ahead
    (blocks that read as zero), an empty TLB log and a current process that
    has no address space yet. *)
Definition boot (free : list Z) (heap : nat) : kernel :=
  mkKernel ∅ ∅ free (replicate heap (Some (fun _ : nat => 0))) 0 [] 0
    (Some (mkProc None)).

(** [as_create] for the current process, the way [runprogram] installs it. *)
Definition run_create (k : kernel) : kernel :=
  match as_create k with
  | (Some a, k) => set_curproc (Some (mkProc (Some a))) k
  | (None, k) => k
  end.

(** [as_define_region] on the current address space. *)
Definition run_define (vaddr memsize r w x : Z) (k : kernel) : kernel :=
  match proc_getas k with
  | Some a =>
    let '(_, a, k) := as_define_region a vaddr memsize r w x k in
    set_curas a k
  | None => k
  end.

(** [vm_fault], keeping the state only. *)
Definition run_fault (faulttype faultaddress : Z) (k : kernel) : kernel :=
  snd (vm_fault faulttype faultaddress k).

(** [as_copy] of the current address space, the way fork calls it. *)
Definition run_copy (k : kernel) : Z * option addrspace * kernel :=
  match proc_getas k with
  | Some a => as_copy a k
  | None => (EFAULT, None, k)
  end.

(** The region [as_define_region] stores when it is called on an empty
    address space with one [kmalloc] ahead. *)
Definition defined_region (vaddr memsize r w x : Z) : option region :=
  let '(_, a, _) :=
    as_define_region (mkAS None [] USERSTACK) vaddr memsize r w x (boot [] 1) in
  head (regions a).

(** A kernel whose current process has one region, read and execute only,
    at 0x00400000 of one page, and one free page (scenario S1 of the spec). *)
Definition kernel_S1 : kernel :=
  run_define 0x00400000 0x1000 PF_R 0 PF_X (run_create (boot [0x80100000] 8)).

(** The same with a writable region and the page at 0x00400000 resident;
    no free page is left. *)
Definition kernel_resident : kernel :=
  run_fault VM_FAULT_READ 0x00400010
    (run_define 0x00400000 0x1000 PF_R PF_W 0 (run_create (boot [0x80100000] 12))).

(** The same with a second free page, so that a copy can succeed. *)
Definition kernel_resident2 : kernel :=
  run_fault VM_FAULT_READ 0x00400010
    (run_define 0x00400000 0x1000 PF_R PF_W 0
       (run_create (boot [0x80100000; 0x80101000] 8))).

(** A kernel whose current process has a writable region over virtual page
    0 and one free page. *)
Definition kernel_page0 : kernel :=
  run_define 0 0x1000 PF_R PF_W 0 (run_create (boot [0x80100000] 8)).

(** The address space of the current process in [kernel_resident2], and
    what [as_copy] makes of it: the new address space and the kernel state
    afterwards. *)
Definition resident_as : addrspace :=
  default (mkAS None [] 0) (proc_getas kernel_resident2).
Definition copy_new : addrspace :=
  default (mkAS None [] 0) (snd (fst (as_copy resident_as kernel_resident2))).
Definition copy_kernel : kernel := snd (as_copy resident_as kernel_resident2).

(** ** Invariants of the state *)

(** A page address the allocator may hand out: inside the direct-mapped
    window and page aligned. *)
Definition page_ok (v : Z) : Prop :=
  MIPS_KSEG0 <= v < 2 ^ 32 /\ v mod PAGE_SIZE = 0.

(** The contract of the page allocator: the pages it will hand out are
    pairwise different, well formed, and not held by anybody. *)
Definition alloc_ok (k : kernel) : Prop :=
  NoDup (k_free k) /\
  forall v, v ∈ k_free k -> (v ∉ k_used k) /\ page_ok v.

(** The two array sizes. *)
Definition pt_wf (pt : l1_table) : Prop :=
  length pt = L1_PT_SIZE /\
  forall msb l2, l1_get pt msb = Some l2 -> length l2 = L2_PT_SIZE.

(** The kernel virtual address of the frame an entry points to. *)
Definition frame_of (e : Z) : Z := PADDR_TO_KVADDR (Z.land e PAGE_FRAME).

(** Every present entry is a valid EntryLo word whose frame is held. *)
Definition pt_owned (k : kernel) (pt : l1_table) : Prop :=
  forall msb lsb,
    pt_get pt msb lsb <> 0 ->
    Z.land (pt_get pt msb lsb) TLBLO_VALID = TLBLO_VALID /\
    frame_of (pt_get pt msb lsb) ∈ k_used k.

(** An address space whose page table has the two sizes and holds its
    frames. *)
Definition as_wf (k : kernel) (a : addrspace) : Prop :=
  match pagetable a with
  | Some pt => pt_wf pt /\ pt_owned k pt
  | None => True
  end.

(** The invariant of the whole state: the allocator contract holds and the
    address space of the current process, if any, is well formed. *)
Definition kernel_wf (k : kernel) : Prop :=
  alloc_ok k /\
  match proc_getas k with
  | Some a => as_wf k a
  | None => True
  end.

(** [k'] comes from [k] by allocating pages and writing to the new pages
    only: nothing held in [k] was released or overwritten. *)
Definition k_ext (k k' : kernel) : Prop :=
  k_used k ⊆ k_used k' /\
  forall v, v ∈ k_used k -> k_mem k' !! v = k_mem k !! v.

(** Entry [en] is the copy [copy_pt] makes of entry [eo]: absent when [eo]
    is, and otherwise an entry for a page [v] that was free in [k], is held
    in [k'], and holds in [k'] the bytes the frame of [eo] held in [k]. *)
Definition copied (k k' : kernel) (eo en : Z) : Prop :=
  (eo = 0 -> en = 0) /\
  (eo <> 0 ->
   exists v,
     en = Z.lor (Z.lor (Z.land (KVADDR_TO_PADDR v) PAGE_FRAME)
                   (Z.land eo TLBLO_DIRTY)) TLBLO_VALID /\
     page_ok v /\ v ∈ k_used k' /\ (v ∉ k_used k) /\
     forall i, (i < Z.to_nat PAGE_SIZE)%nat ->
       mem_byte k' v i = mem_byte k (frame_of eo) i).

(** What claim C2 says of the stored region. *)
Definition region_claim (vaddr memsize : Z) (reg : region) : Prop :=
  as_vbase reg = vaddr - vaddr mod PAGE_SIZE /\
  as_vbase reg mod PAGE_SIZE = 0 /\
  size reg mod PAGE_SIZE = 0 /\
  memsize <= size reg /\
  0 < size reg /\
  as_vbase reg + size reg < 2 ^ 32 /\
  as_vbase reg + size reg <= USERSTACK.

(** ** The rest of addrspace.c, and measures used in the statements *)

(** [as_define_stack]. USERSTACK_SIZE is a constant of a header that is not
    among the sources and is taken as a parameter. The third component is
    the value stored in [*stackptr], [None] when the function returns
    before the store. *)
Definition as_define_stack (USERSTACK_SIZE : Z) (a : addrspace) (k : kernel)
  : Z * addrspace * option Z * kernel :=
  let '(result, a, k) :=
    as_define_region a (wrap32 (USERSTACK - USERSTACK_SIZE)) USERSTACK_SIZE
      PF_R PF_W PF_X k in
  if negb (result =? 0) then (result, a, None, k)
  else (0, a, Some USERSTACK, k).

(** The number of L2 arrays among the [n] slots of a table from [msb] on. *)
Fixpoint count_slots (n msb : nat) (pt : l1_table) : nat :=
  match n with
  | O => O
  | S n' =>
    match l1_get pt msb with
    | Some _ => S (count_slots n' (S msb) pt)
    | None => count_slots n' (S msb) pt
    end
  end.

(** The number of L2 arrays a page table owns. *)
Definition l2_arrays (pt : l1_table) : nat := count_slots L1_PT_SIZE 0 pt.

(** The TLB writes of one complete flush, latest first: every slot from 0 to
    NUM_TLB-1 receives its invalid pair. *)
Definition flush_log : list tlb_event :=
  reverse (map (fun i => TlbWrite (TLBHI_INVALID i) TLBLO_INVALID i)
         (seqZ 0 (Z.of_nat NUM_TLB))).

(** The first [n] coming [kmalloc] calls succeed and the next one fails. *)
Definition kmalloc_fails_at (n : nat) (k : kernel) : Prop :=
  (n <= length (k_heap k))%nat /\
  Forall (fun o => o <> None) (take n (k_heap k)) /\
  match drop n (k_heap k) with
  | Some _ :: _ => False
  | _ => True
  end.

(** [kernel_S1] after a READ fault made the page of its read-only region
    resident. *)
Definition kernel_ro_resident : kernel :=
  run_fault VM_FAULT_READ 0x00400010 kernel_S1.

(** The address space and the page table of the current process in
    [kernel_ro_resident]. *)
Definition ro_as : addrspace :=
  default (mkAS None [] 0) (proc_getas kernel_ro_resident).
Definition ro_pt : l1_table := default [] (pagetable ro_as).

(** The page table [proc_getas()->pagetable] of the current process, NULL
    when there is no current address space. *)
Definition current_pagetable (k : kernel) : option l1_table :=
  match proc_getas k with
  | Some a => pagetable a
  | None => None
  end.

(** [k'] comes from [k] by giving pages back: no page was taken, no memory
    was written, and the pages that are no longer held are exactly the ones
    appended to the allocator's free list. *)
Definition pages_released (k k' : kernel) : Prop :=
  k_used k' ⊆ k_used k /\
  k_mem k' = k_mem k /\
  exists l, k_free k' = k_free k ++ l /\
            forall u, u ∈ l <-> u ∈ k_used k /\ (u ∉ k_used k').

(** The TLB, the interrupt level and the current process are the same in
    the two states. *)
Definition dev_same (k k' : kernel) : Prop :=
  k_tlb k' = k_tlb k /\ k_spl k' = k_spl k /\ k_curproc k' = k_curproc k.

(** [as_prepare_load] on the current address space, the way the ELF loader
    calls it before it copies the segments in. *)
Definition run_prepare (k : kernel) : kernel :=
  match as_prepare_load (proc_getas k) with
  | (_, Some a) => set_curas a k
  | (_, None) => k
  end.

(** [as_complete_load] on the current address space, the way the ELF loader
    calls it after the segments are in. *)
Definition run_complete (k : kernel) : kernel :=
  match as_complete_load (proc_getas k) k with
  | (_, Some a, k) => set_curas a k
  | (_, None, k) => k
  end.



(** * Theorems *)

#[local] Opaque L1_PT_SIZE L2_PT_SIZE PAGE_SIZE.

(** ** Index arithmetic *)

Lemma pt_msb_div (a : Z) : pt_msb a = a / 2 ^ 21.
Proof. unfold pt_msb. apply Z.shiftr_div_pow2. lia. Qed.

Lemma pt_lsb_div (a : Z) : pt_lsb a = (a * 2 ^ 11) mod 2 ^ 32 / 2 ^ 23.
Proof.
  unfold pt_lsb, wrap32.
  rewrite Z.shiftr_div_pow2 by lia. rewrite Z.shiftl_mul_pow2 by lia.
  reflexivity.
Qed.

Lemma pt_lsb_mid (a : Z) : pt_lsb a = (a / 2 ^ 12) mod 2 ^ 9.
Proof.
  rewrite pt_lsb_div.
  change (2 ^ 32) with (2 ^ 11 * 2 ^ 21).
  rewrite (Z.mul_comm a), Z.mul_mod_distr_l by lia.
  change (2 ^ 23) with (2 ^ 11 * 2 ^ 12).
  rewrite Z.div_mul_cancel_l by lia.
  change (2 ^ 21) with (2 ^ 12 * 2 ^ 9).
  rewrite Z.rem_mul_r by lia.
  rewrite Z.mul_comm, Z.div_add by lia.
  rewrite (Z.div_small (a mod 2 ^ 12)) by (apply Z.mod_pos_bound; lia).
  reflexivity.
Qed.

Lemma pt_msb_range (a : Z) : is_u32 a -> 0 <= pt_msb a < 2048.
Proof.
  intros [Hlo Hhi]. rewrite pt_msb_div. split.
  - apply Z.div_pos; lia.
  - apply Z.div_lt_upper_bound; lia.
Qed.

Lemma pt_lsb_range (a : Z) : 0 <= pt_lsb a < 512.
Proof. rewrite pt_lsb_mid. apply Z.mod_pos_bound. lia. Qed.

(** C8. For every 32-bit address, the shift sequence [(addr << 11) >> 23]
    of [vm_fault] yields [(addr >> 12) & 0x1FF], that is bits 20..12 of the
    address, [addr >> 21] yields bits 31..21, and the two indices lie within
    the two table sizes (2048 and 512). *)
Theorem C8_pt_index_bits (addr : Z) (Haddr : is_u32 addr) :
  pt_lsb addr = Z.land (Z.shiftr addr 12) 0x1FF /\
  (forall i, 0 <= i ->
     Z.testbit (pt_lsb addr) i = (i <? 9) && Z.testbit addr (i + 12)) /\
  (forall i, 0 <= i ->
     Z.testbit (pt_msb addr) i = (i <? 11) && Z.testbit addr (i + 21)) /\
  0 <= pt_msb addr < Z.of_nat L1_PT_SIZE /\
  0 <= pt_lsb addr < Z.of_nat L2_PT_SIZE.
Proof.
  assert (Hland : pt_lsb addr = Z.land (Z.shiftr addr 12) 0x1FF).
  { rewrite pt_lsb_mid, Z.shiftr_div_pow2 by lia.
    change 0x1FF with (Z.ones 9). rewrite Z.land_ones by lia. reflexivity. }
  split; [exact Hland|]. split; [|split; [|split]].
  - intros i Hi. rewrite Hland. change 0x1FF with (Z.ones 9).
    rewrite Z.land_spec, Z.shiftr_spec by lia.
    rewrite andb_comm. f_equal.
    destruct (Z.ltb_spec i 9).
    + apply Z.ones_spec_low. lia.
    + apply Z.ones_spec_high. lia.
  - intros i Hi. unfold pt_msb. rewrite Z.shiftr_spec by lia.
    destruct (Z.ltb_spec i 11); [reflexivity|]. simpl.
    destruct Haddr as [Hlo Hhi].
    destruct (Z.eq_dec addr 0) as [->|Hnz]; [apply Z.testbit_0_l|].
    apply Z.bits_above_log2; [lia|].
    assert (Z.log2 addr < 32) by (apply Z.log2_lt_pow2; lia). lia.
  - change (Z.of_nat L1_PT_SIZE) with 2048. apply pt_msb_range, Haddr.
  - change (Z.of_nat L2_PT_SIZE) with 512. apply pt_lsb_range.
Qed.

Lemma C8_pt_index_bits_witness :
  is_u32 0x00400abc /\
  pt_lsb 0x00400abc = Z.land (Z.shiftr 0x00400abc 12) 0x1FF /\
  0 <= pt_msb 0x00400abc < Z.of_nat L1_PT_SIZE.
Proof.
  assert (H : is_u32 0x00400abc) by (unfold is_u32; lia).
  split; [exact H|].
  destruct (C8_pt_index_bits 0x00400abc H) as (H1 & _ & _ & H4 & _).
  split; [exact H1 | exact H4].
Defined.

(** ** Masks and the direct-mapped window *)

Lemma wrap32_range (z : Z) : is_u32 (wrap32 z).
Proof. unfold is_u32, wrap32. apply Z.mod_pos_bound. lia. Qed.

Lemma wrap32_small (z : Z) : is_u32 z -> wrap32 z = z.
Proof. unfold is_u32, wrap32. intros H. apply Z.mod_small. exact H. Qed.

Lemma wrap32_sub_l (a b : Z) : wrap32 (wrap32 a - b) = wrap32 (a - b).
Proof. unfold wrap32. apply Zminus_mod_idemp_l. Qed.

Lemma wrap32_add_l (a b : Z) : wrap32 (wrap32 a + b) = wrap32 (a + b).
Proof. unfold wrap32. apply Zplus_mod_idemp_l. Qed.

Lemma offset_mask : wrap32 (Z.lnot PAGE_FRAME) = Z.ones 12.
Proof. reflexivity. Qed.

Lemma land_offset (z : Z) : Z.land z (Z.ones 12) = z mod PAGE_SIZE.
Proof. rewrite Z.land_ones by lia. reflexivity. Qed.

(** Masking with PAGE_FRAME keeps bits 31..12. *)
Lemma land_PAGE_FRAME (e : Z) :
  Z.land e PAGE_FRAME = Z.shiftl (Z.land (Z.shiftr e 12) (Z.ones 20)) 12.
Proof.
  change PAGE_FRAME with (Z.shiftl (Z.ones 20) 12).
  apply Z.bits_inj'. intros i Hi.
  rewrite Z.land_spec, !Z.shiftl_spec by lia.
  destruct (Z.ltb_spec i 12) as [Hlt|Hge].
  - rewrite !(Z.testbit_neg_r _ (i - 12)) by lia. apply andb_false_r.
  - rewrite Z.land_spec, Z.shiftr_spec by lia.
    replace (i - 12 + 12) with i by lia. reflexivity.
Qed.

Lemma land_PAGE_FRAME_u32 (x : Z) :
  is_u32 x -> Z.land x PAGE_FRAME = x - x mod PAGE_SIZE.
Proof.
  intros [Hlo Hhi]. rewrite land_PAGE_FRAME.
  rewrite Z.land_ones, Z.shiftl_mul_pow2, Z.shiftr_div_pow2 by lia.
  change (2 ^ 12) with 4096 in *. change PAGE_SIZE with 4096.
  assert (Hq : 0 <= x / 4096 < 2 ^ 20).
  { split; [apply Z.div_pos; lia | apply Z.div_lt_upper_bound; lia]. }
  rewrite (Z.mod_small (x / 4096)) by exact Hq.
  pose proof (Z.div_mod x 4096 ltac:(lia)). lia.
Qed.

Lemma land_PAGE_FRAME_aligned (x : Z) :
  is_u32 x -> x mod PAGE_SIZE = 0 -> Z.land x PAGE_FRAME = x.
Proof. intros Hx Hm. rewrite land_PAGE_FRAME_u32 by exact Hx. lia. Qed.

Lemma land_PAGE_FRAME_mod (x : Z) :
  is_u32 x -> Z.land x PAGE_FRAME mod PAGE_SIZE = 0.
Proof.
  intros Hx. rewrite land_PAGE_FRAME_u32 by exact Hx.
  change PAGE_SIZE with 4096.
  pose proof (Z.div_mod x 4096 ltac:(lia)).
  replace (x - x mod 4096) with (x / 4096 * 4096) by lia.
  apply Z.mod_mul. lia.
Qed.

(** ** as_define_region *)

Lemma as_define_region_region (a : addrspace) (vaddr memsize r w x : Z)
    (k k' : kernel) (a' : addrspace) :
  as_define_region a vaddr memsize r w x k = (0, a', k') ->
  exists reg,
    regions a' = reg :: regions a /\
    as_vbase reg = Z.land vaddr PAGE_FRAME /\
    size reg =
      Z.land (wrap32 (wrap32 (wrap32 (memsize + vaddr mod PAGE_SIZE)
                                + PAGE_SIZE) - 1)) PAGE_FRAME /\
    flags reg = wrap32 (Z.lor (Z.lor r w) x) /\
    og_flags reg = flags reg.
Proof.
  unfold as_define_region. rewrite offset_mask, land_offset.
  destruct (kmalloc k) as [[junk|] k1]; [|discriminate].
  intros H. injection H as <- <-. eexists. simpl.
  repeat split; reflexivity.
Qed.

(** C2 (amended). When [as_define_region] succeeds on 32-bit arguments, the
    stored region is put in front of the list, starts at [vaddr] rounded
    down to a page, and both its start and its size are page multiples.
    If [memsize + vaddr mod PAGE_SIZE + PAGE_SIZE - 1] is below [2^32], the
    size covers the request: [size >= memsize], the region reaches
    [vaddr + memsize], and [size > 0] for a non-empty request. If
    [vaddr + memsize <= USERSTACK], the region ends at or below USERSTACK
    and its end does not overflow 32 bits. The function makes no range
    check, and nothing more is claimed outside these two conditions. *)
Theorem C2_define_region_geometry (a : addrspace) (vaddr memsize r w x : Z)
    (k k' : kernel) (a' : addrspace)
    (Hvaddr : is_u32 vaddr) (Hmemsize : is_u32 memsize)
    (Hok : as_define_region a vaddr memsize r w x k = (0, a', k')) :
  exists reg,
    regions a' = reg :: regions a /\
    as_vbase reg = vaddr - vaddr mod PAGE_SIZE /\
    as_vbase reg mod PAGE_SIZE = 0 /\
    size reg mod PAGE_SIZE = 0 /\
    (memsize + vaddr mod PAGE_SIZE + PAGE_SIZE - 1 < 2 ^ 32 ->
     memsize <= size reg /\
     vaddr + memsize <= as_vbase reg + size reg /\
     (0 < memsize -> 0 < size reg)) /\
    (vaddr + memsize <= USERSTACK ->
     as_vbase reg + size reg <= USERSTACK /\
     as_vbase reg + size reg < 2 ^ 32).
Proof.
  destruct (as_define_region_region _ _ _ _ _ _ _ _ _ Hok)
    as (reg & Hregs & Hbase & Hsize & _ & _).
  exists reg. split; [exact Hregs|].
  pose proof (Z.mod_pos_bound vaddr PAGE_SIZE ltac:(reflexivity)) as Hoff.
  set (off := vaddr mod PAGE_SIZE) in *.
  assert (Hb : as_vbase reg = vaddr - off).
  { rewrite Hbase. apply land_PAGE_FRAME_u32, Hvaddr. }
  assert (Hnowrap : memsize + off + PAGE_SIZE - 1 < 2 ^ 32 ->
            size reg = (memsize + off + PAGE_SIZE - 1)
                       - (memsize + off + PAGE_SIZE - 1) mod PAGE_SIZE).
  { intros Hlt. rewrite Hsize. destruct Hmemsize as [Hm0 Hm1].
    change PAGE_SIZE with 4096 in *.
    rewrite (wrap32_small (memsize + off)) by (unfold is_u32; lia).
    rewrite wrap32_sub_l.
    rewrite wrap32_small by (unfold is_u32; lia).
    rewrite land_PAGE_FRAME_u32 by (unfold is_u32; lia).
    reflexivity. }
  split; [exact Hb|]. split; [|split; [|split]].
  - rewrite Hbase. apply land_PAGE_FRAME_mod, Hvaddr.
  - rewrite Hsize. apply land_PAGE_FRAME_mod, wrap32_range.
  - intros Hlt. specialize (Hnowrap Hlt).
    pose proof (Z.mod_pos_bound (memsize + off + PAGE_SIZE - 1) PAGE_SIZE
                  ltac:(reflexivity)) as Hr.
    change PAGE_SIZE with 4096 in *.
    assert (Hmul : size reg mod 4096 = 0).
    { rewrite Hsize. apply (land_PAGE_FRAME_mod _ (wrap32_range _)). }
    destruct Hmemsize as [Hm0 Hm1].
    split; [lia|]. split; [lia|].
    intros Hpos.
    destruct (Z.eq_dec (size reg) 0) as [Hz|Hnz]; [|lia].
    exfalso. lia.
  - intros Hend. unfold USERSTACK, MIPS_KSEG0 in *.
    destruct Hmemsize as [Hm0 Hm1]. destruct Hvaddr as [Hv0 Hv1].
    change PAGE_SIZE with 4096 in *.
    assert (Hlt : memsize + off + 4096 - 1 < 2 ^ 32) by lia.
    specialize (Hnowrap Hlt).
    assert (Hvm : (vaddr - off) mod 4096 = 0).
    { rewrite <- Hb, Hbase. apply (land_PAGE_FRAME_mod vaddr). unfold is_u32; lia. }
    assert (Hsm : size reg mod 4096 = 0).
    { rewrite Hsize. apply (land_PAGE_FRAME_mod _ (wrap32_range _)). }
    pose proof (Z.mod_pos_bound (memsize + off + 4096 - 1) 4096 ltac:(lia)) as Hr.
    assert (Hsum : (as_vbase reg + size reg) mod 4096 = 0).
    { rewrite Z.add_mod by lia. rewrite Hb, Hvm, Hsm. reflexivity. }
    assert (Hup : as_vbase reg + size reg < vaddr + memsize + 4096) by lia.
    assert (Hgoal : as_vbase reg + size reg <= 0x80000000).
    { pose proof (Z.div_mod (as_vbase reg + size reg) 4096 ltac:(lia)) as Hd.
      rewrite Hsum in Hd.
      assert ((as_vbase reg + size reg) / 4096 < 0x80000000 / 4096 + 1).
      { apply Z.div_lt_upper_bound; [lia|].
        change (4096 * (0x80000000 / 4096 + 1)) with (0x80000000 + 4096). lia. }
      change (0x80000000 / 4096) with 524288 in *. lia. }
    split; [exact Hgoal | lia].
Qed.

Lemma C2_define_region_geometry_witness :
  exists reg,
    regions (mkAS None [mkRegion 0x00400000 0x2000 6 6] USERSTACK)
      = reg :: [] /\
    as_vbase reg = 0x00400010 - 0x00400010 mod PAGE_SIZE /\
    as_vbase reg mod PAGE_SIZE = 0 /\
    size reg mod PAGE_SIZE = 0 /\
    (0x1000 + 0x00400010 mod PAGE_SIZE + PAGE_SIZE - 1 < 2 ^ 32 ->
     0x1000 <= size reg /\
     0x00400010 + 0x1000 <= as_vbase reg + size reg /\
     (0 < 0x1000 -> 0 < size reg)) /\
    (0x00400010 + 0x1000 <= USERSTACK ->
     as_vbase reg + size reg <= USERSTACK /\
     as_vbase reg + size reg < 2 ^ 32).
Proof.
  apply (C2_define_region_geometry (mkAS None [] USERSTACK) 0x00400010 0x1000
           PF_R PF_W 0 (boot [] 1)
           (snd (as_define_region (mkAS None [] USERSTACK) 0x00400010 0x1000
                   PF_R PF_W 0 (boot [] 1)))).
  - unfold is_u32. lia.
  - unfold is_u32. lia.
  - reflexivity.
Defined.

(** C2 as stated fails: the function stores an empty region for an empty
    request, a region shorter than the request when the length wraps, a
    region that runs past the end of the 32-bit address space, and a region
    inside the kernel range, each time returning success. *)
Lemma C2_define_region_counterexample :
  (exists reg, defined_region 0 0 PF_R 0 0 = Some reg /\
     size reg = 0 /\ ~ region_claim 0 0 reg) /\
  (exists reg, defined_region 0x1000 0xFFFFFFFF PF_R 0 0 = Some reg /\
     size reg = 0 /\ ~ region_claim 0x1000 0xFFFFFFFF reg) /\
  (exists reg, defined_region 0xFFFFF000 0x2000 PF_R 0 0 = Some reg /\
     as_vbase reg + size reg = 2 ^ 32 + 0x1000 /\
     ~ region_claim 0xFFFFF000 0x2000 reg) /\
  (exists reg, defined_region 0x80000000 0x1000 PF_R 0 0 = Some reg /\
     as_vbase reg = MIPS_KSEG0 /\
     ~ region_claim 0x80000000 0x1000 reg).
Proof.
  split; [|split; [|split]].
  - exists (mkRegion 0 0 4 4). split; [reflexivity|]. split; [reflexivity|].
    unfold region_claim. cbn [as_vbase size]. lia.
  - exists (mkRegion 0x1000 0 4 4). split; [reflexivity|]. split; [reflexivity|].
    unfold region_claim. cbn [as_vbase size]. lia.
  - exists (mkRegion 0xFFFFF000 0x2000 4 4).
    split; [reflexivity|]. split; [reflexivity|].
    unfold region_claim. cbn [as_vbase size]. lia.
  - exists (mkRegion 0x80000000 0x1000 4 4).
    split; [reflexivity|]. split; [reflexivity|].
    unfold region_claim, USERSTACK, MIPS_KSEG0. cbn [as_vbase size]. lia.
Qed.

(** ** as_prepare_load and as_complete_load *)

Lemma prepare_regions_lookup (l : list region) (i : nat) :
  prepare_regions l !! i =
  (fun r => mkRegion (as_vbase r) (size r) (Z.lor PF_W PF_R) (flags r)) <$> l !! i.
Proof.
  revert i. induction l as [|r l IH]; intros [|i]; simpl; try reflexivity.
  apply IH.
Qed.

Lemma complete_regions_lookup (l : list region) (i : nat) :
  complete_regions l !! i =
  (fun r => mkRegion (as_vbase r) (size r) (og_flags r) (og_flags r)) <$> l !! i.
Proof.
  revert i. induction l as [|r l IH]; intros [|i]; simpl; try reflexivity.
  apply IH.
Qed.

Lemma complete_prepare_flags (l : list region) :
  map flags (complete_regions (prepare_regions l)) = map flags l.
Proof. induction l as [|r l IH]; simpl; [reflexivity|]. f_equal. exact IH. Qed.

Lemma complete_prepare_geometry (l : list region) :
  map as_vbase (complete_regions (prepare_regions l)) = map as_vbase l /\
  map size (complete_regions (prepare_regions l)) = map size l.
Proof.
  induction l as [|r l [IH1 IH2]]; simpl; [split; reflexivity|].
  rewrite IH1, IH2. split; reflexivity.
Qed.

(** C6. On a non-null address space, [as_prepare_load] followed by
    [as_complete_load] both succeed and leave every region, position by
    position, with the flags it had before [as_prepare_load] (and with its
    base and size). *)
Theorem C6_prepare_complete_restores_flags (a : addrspace) (k : kernel) :
  exists a1 a2 k',
    as_prepare_load (Some a) = (0, Some a1) /\
    Forall (fun r => flags r = Z.lor PF_R PF_W) (regions a1) /\
    map og_flags (regions a1) = map flags (regions a) /\
    as_complete_load (Some a1) k = (0, Some a2, k') /\
    map flags (regions a2) = map flags (regions a) /\
    map as_vbase (regions a2) = map as_vbase (regions a) /\
    map size (regions a2) = map size (regions a).
Proof.
  eexists _, _, _. split; [reflexivity|]. simpl.
  split; [|split; [|split; [reflexivity|]]].
  - induction (regions a) as [|r l IH]; simpl; constructor; [reflexivity|exact IH].
  - induction (regions a) as [|r l IH]; simpl; [reflexivity|]. f_equal. exact IH.
  - simpl. split; [apply complete_prepare_flags|apply complete_prepare_geometry].
Qed.

(** C9. [as_prepare_load] is not idempotent. If some region's flags differ
    from R|W, a second [as_prepare_load] in a row replaces that region's
    saved flags (which held the original flags after the first call) by
    R|W, and [as_complete_load] then leaves the region with flags R|W, not
    with its original flags. *)
Theorem C9_prepare_twice_loses_flags (a : addrspace) (k : kernel) (i : nat)
    (r : region)
    (Hr : regions a !! i = Some r)
    (Hflags : flags r <> Z.lor PF_R PF_W) :
  exists a1 a2 a3 k' r1 r2 r3,
    as_prepare_load (Some a) = (0, Some a1) /\
    as_prepare_load (Some a1) = (0, Some a2) /\
    as_complete_load (Some a2) k = (0, Some a3, k') /\
    regions a1 !! i = Some r1 /\ og_flags r1 = flags r /\
    regions a2 !! i = Some r2 /\ og_flags r2 = Z.lor PF_R PF_W /\
    regions a3 !! i = Some r3 /\ flags r3 = Z.lor PF_R PF_W /\
    flags r3 <> flags r /\
    a2 <> a1.
Proof.
  eexists _, _, _, _, _, _, _.
  split; [reflexivity|]. split; [reflexivity|]. split; [reflexivity|]. simpl.
  rewrite complete_regions_lookup, !prepare_regions_lookup, Hr. simpl.
  repeat (split; [reflexivity|]).
  split; [intros E; apply Hflags; rewrite <- E; reflexivity|].
  intros Heq. injection Heq as Heq.
  assert (H1 : prepare_regions (prepare_regions (regions a)) !! i
               = prepare_regions (regions a) !! i) by (rewrite Heq; reflexivity).
  rewrite !prepare_regions_lookup, Hr in H1. simpl in H1.
  injection H1 as H1. apply Hflags. rewrite <- H1. reflexivity.
Qed.

Lemma C9_prepare_twice_loses_flags_witness :
  exists a1 a2 a3 k' r1 r2 r3,
    as_prepare_load (Some (mkAS None [mkRegion 0x00400000 0x1000 5 5] USERSTACK))
      = (0, Some a1) /\
    as_prepare_load (Some a1) = (0, Some a2) /\
    as_complete_load (Some a2) (boot [] 0) = (0, Some a3, k') /\
    regions a1 !! 0%nat = Some r1 /\ og_flags r1 = 5 /\
    regions a2 !! 0%nat = Some r2 /\ og_flags r2 = Z.lor PF_R PF_W /\
    regions a3 !! 0%nat = Some r3 /\ flags r3 = Z.lor PF_R PF_W /\
    flags r3 <> 5 /\
    a2 <> a1.
Proof.
  apply (C9_prepare_twice_loses_flags
           (mkAS None [mkRegion 0x00400000 0x1000 5 5] USERSTACK) (boot [] 0)
           0%nat (mkRegion 0x00400000 0x1000 5 5)).
  - reflexivity.
  - simpl. discriminate.
Defined.

(** ** What the collaborators leave alone *)

Lemma kmalloc_frame (k k' : kernel) (o : option (nat -> Z)) :
  kmalloc k = (o, k') ->
  k_mem k' = k_mem k /\ k_used k' = k_used k /\ k_free k' = k_free k /\
  k_tlb k' = k_tlb k /\ k_spl k' = k_spl k /\ k_curproc k' = k_curproc k.
Proof.
  unfold kmalloc. destruct (k_heap k) as [|[junk|] rest]; intros [= <- <-];
    repeat split; reflexivity.
Qed.

Lemma alloc_kpages_frame (n : Z) (k k' : kernel) (v : Z) :
  alloc_kpages n k = (v, k') ->
  k_mem k' = k_mem k /\ k_heap k' = k_heap k /\
  k_tlb k' = k_tlb k /\ k_spl k' = k_spl k /\ k_curproc k' = k_curproc k.
Proof.
  unfold alloc_kpages. destruct (k_free k) as [|p rest]; intros [= <- <-];
    repeat split; reflexivity.
Qed.

Lemma create_pt_l2_frame (pt pt' : l1_table) (msb res : Z) (k k' : kernel) :
  create_pt_l2 pt msb k = (res, pt', k') ->
  k_mem k' = k_mem k /\ k_used k' = k_used k /\ k_free k' = k_free k /\
  k_tlb k' = k_tlb k /\ k_spl k' = k_spl k /\ k_curproc k' = k_curproc k /\
  (res = 0 \/ res = EINVAL \/ res = ENOMEM).
Proof.
  unfold create_pt_l2. destruct (l1_get pt (Z.to_nat msb)).
  - intros [= <- <- <-]. repeat split; auto.
  - destruct (kmalloc k) as [[junk|] k1] eqn:Hk;
      destruct (kmalloc_frame _ _ _ Hk) as (? & ? & ? & ? & ? & ?);
      intros [= <- <- <-]; repeat split; auto.
Qed.

Lemma create_pte_frame (pt pt' : l1_table) (msb lsb dirty res : Z)
    (k k' : kernel) :
  create_pte pt msb lsb dirty k = (res, pt', k') ->
  k_tlb k' = k_tlb k /\ k_spl k' = k_spl k /\ k_curproc k' = k_curproc k /\
  (res = 0 \/ res = EINVAL \/ res = ENOMEM).
Proof.
  unfold create_pte.
  assert (Hfirst : exists r1 pt1 k1,
            match l1_get pt (Z.to_nat msb) with
            | Some _ => (0, pt, k)
            | None => create_pt_l2 pt msb k
            end = (r1, pt1, k1) /\
            k_tlb k1 = k_tlb k /\ k_spl k1 = k_spl k /\
            k_curproc k1 = k_curproc k /\
            (r1 = 0 \/ r1 = EINVAL \/ r1 = ENOMEM)).
  { destruct (l1_get pt (Z.to_nat msb)).
    - eexists _, _, _. repeat split; auto.
    - destruct (create_pt_l2 pt msb k) as [[r1 pt1] k1] eqn:Hc.
      destruct (create_pt_l2_frame _ _ _ _ _ _ Hc) as (_ & _ & _ & ? & ? & ? & ?).
      eexists _, _, _. repeat split; auto. }
  destruct Hfirst as (r1 & pt1 & k1 & -> & Ht & Hs & Hc & Hr).
  destruct (negb (r1 =? 0)).
  { intros [= <- <- <-]. repeat split; auto. }
  destruct (negb (pt_get pt1 (Z.to_nat msb) (Z.to_nat lsb) =? 0)).
  { intros [= <- <- <-]. repeat split; auto. }
  destruct (alloc_kpages 1 k1) as [v k2] eqn:Ha.
  destruct (alloc_kpages_frame _ _ _ _ Ha) as (_ & _ & Ht2 & Hs2 & Hc2).
  destruct (v =? 0); intros [= <- <- <-]; simpl; repeat split; auto; congruence.
Qed.

Lemma set_curas_regions (a : addrspace) (k : kernel) :
  k_curproc k <> None ->
  proc_getas (set_curas a k) = Some a.
Proof.
  unfold set_curas, proc_getas. destruct (k_curproc k); [reflexivity|congruence].
Qed.

Lemma proc_getas_curproc (k : kernel) (a : addrspace) :
  proc_getas k = Some a -> exists p, k_curproc k = Some p.
Proof.
  unfold proc_getas. destruct (k_curproc k) as [p|]; [eauto|discriminate].
Qed.

Lemma vm_fault_load_eq (fa msb lsb : Z) (pt : l1_table) (k : kernel) :
  vm_fault_load fa msb lsb pt k =
  (0, splx (k_spl k)
        (tlb_random (Z.land fa PAGE_FRAME)
           (pt_get pt (Z.to_nat msb) (Z.to_nat lsb)) (set_spl IPL_HIGH k))).
Proof. reflexivity. Qed.

(** ** vm_fault, path by path *)

Lemma vm_fault_readonly (addr : Z) (k : kernel) :
  vm_fault VM_FAULT_READONLY addr k = (EFAULT, k).
Proof. reflexivity. Qed.

Lemma vm_fault_null (ft : Z) (k : kernel) :
  ft = VM_FAULT_READ \/ ft = VM_FAULT_WRITE ->
  vm_fault ft 0 k = (EFAULT, k).
Proof. intros [-> | ->]; reflexivity. Qed.

(** The tests up to line 156 pass. *)
Lemma vm_fault_enter (ft addr : Z) (k : kernel) (a : addrspace)
    (pt : l1_table) :
  ft = VM_FAULT_READ \/ ft = VM_FAULT_WRITE ->
  addr <> 0 ->
  proc_getas k = Some a ->
  pagetable a = Some pt ->
  regions a <> [] ->
  vm_fault ft addr k =
  let fa := Z.land addr PAGE_FRAME in
  if negb (pte_exists (Some pt) (pt_msb fa) (pt_lsb fa))
  then
    match find_region fa (regions a) with
    | None => (EFAULT, k)
    | Some curr =>
      if negb (Z.land (flags curr) PF_W =? PF_W) && (ft =? VM_FAULT_WRITE)
      then (EFAULT, k)
      else
        let '(result, pt, k) :=
          create_pte pt (pt_msb fa) (pt_lsb fa)
            (if Z.land (flags curr) PF_W =? PF_W then TLBLO_DIRTY else 0) k in
        let k := set_curas (mkAS (Some pt) (regions a) (stackbase a)) k in
        if negb (result =? 0) then (result, k)
        else vm_fault_load fa (pt_msb fa) (pt_lsb fa) pt k
    end
  else vm_fault_load fa (pt_msb fa) (pt_lsb fa) pt k.
Proof.
  intros Hft Hnz Hproc Hpt Hregs.
  destruct (proc_getas_curproc _ _ Hproc) as [p Hp].
  unfold vm_fault. rewrite Hp, Hproc, Hpt.
  apply Z.eqb_neq in Hnz. rewrite Hnz.
  destruct (regions a) as [|r0 rs] eqn:Hr; [congruence|].
  destruct Hft as [-> | ->]; reflexivity.
Qed.

Lemma find_region_nonempty (fa : Z) (l : list region) (r : region) :
  find_region fa l = Some r -> l <> [].
Proof. destruct l; [discriminate|congruence]. Qed.

(** ** Claims on vm_fault *)

(** An address outside every region, on a page that is not resident, is
    rejected with EFAULT and nothing changes. *)
Lemma vm_fault_outside_regions (ft addr : Z) (k : kernel) (a : addrspace)
    (pt : l1_table) :
  ft = VM_FAULT_READ \/ ft = VM_FAULT_WRITE ->
  proc_getas k = Some a ->
  pagetable a = Some pt ->
  pte_exists (Some pt) (pt_msb (Z.land addr PAGE_FRAME))
    (pt_lsb (Z.land addr PAGE_FRAME)) = false ->
  find_region (Z.land addr PAGE_FRAME) (regions a) = None ->
  vm_fault ft addr k = (EFAULT, k).
Proof.
  intros Hft Hproc Hpt Hpte Hfind.
  destruct (Z.eq_dec addr 0) as [->|Hnz]; [apply vm_fault_null, Hft|].
  destruct (regions a) as [|r0 rs] eqn:Hr.
  { destruct (proc_getas_curproc _ _ Hproc) as [p Hp].
    unfold vm_fault. rewrite Hp, Hproc, Hpt, Hr.
    apply Z.eqb_neq in Hnz. rewrite Hnz.
    destruct Hft as [-> | ->]; reflexivity. }
  rewrite (vm_fault_enter ft addr k a pt Hft Hnz Hproc Hpt) by (rewrite Hr; congruence).
  cbv zeta. rewrite Hpte. simpl negb. cbv iota. rewrite Hr, Hfind. reflexivity.
Qed.

(** C4 (amended). A READONLY fault returns EFAULT and changes nothing; this
    is the very value the handler returns for a READ or WRITE fault on an
    address outside every region: the code has one fault error, not two. *)
Theorem C4_readonly_fault_value (addr : Z) (k : kernel) :
  vm_fault VM_FAULT_READONLY addr k = (EFAULT, k) /\
  (forall ft addr' k' a pt,
     ft = VM_FAULT_READ \/ ft = VM_FAULT_WRITE ->
     proc_getas k' = Some a ->
     pagetable a = Some pt ->
     pte_exists (Some pt) (pt_msb (Z.land addr' PAGE_FRAME))
       (pt_lsb (Z.land addr' PAGE_FRAME)) = false ->
     find_region (Z.land addr' PAGE_FRAME) (regions a) = None ->
     fst (vm_fault ft addr' k') = fst (vm_fault VM_FAULT_READONLY addr k)).
Proof.
  split; [apply vm_fault_readonly|].
  intros ft addr' k' a pt Hft Hproc Hpt Hpte Hfind.
  rewrite (vm_fault_outside_regions ft addr' k' a pt Hft Hproc Hpt Hpte Hfind).
  rewrite vm_fault_readonly. reflexivity.
Qed.

Lemma C4_readonly_fault_value_witness :
  fst (vm_fault VM_FAULT_READ 0x00500000 kernel_S1)
  = fst (vm_fault VM_FAULT_READONLY 0x00400010 kernel_S1).
Proof.
  destruct (C4_readonly_fault_value 0x00400010 kernel_S1) as [_ H].
  eapply H.
  - left. reflexivity.
  - reflexivity.
  - reflexivity.
  - vm_compute. reflexivity.
  - vm_compute. reflexivity.
Defined.

(** C4 as stated fails: with one region at 0x00400000, a READONLY fault and
    a READ fault at 0x00500000, which no region contains, return the same
    value. *)
Lemma C4_readonly_counterexample :
  option_map regions (proc_getas kernel_S1)
    = Some [mkRegion 0x00400000 0x1000 5 5] /\
  find_region (Z.land 0x00500000 PAGE_FRAME) [mkRegion 0x00400000 0x1000 5 5]
    = None /\
  fst (vm_fault VM_FAULT_READONLY 0x00400010 kernel_S1) = EFAULT /\
  fst (vm_fault VM_FAULT_READ 0x00500000 kernel_S1) = EFAULT /\
  ~ (fst (vm_fault VM_FAULT_READONLY 0x00400010 kernel_S1)
     <> fst (vm_fault VM_FAULT_READ 0x00500000 kernel_S1)).
Proof.
  split; [reflexivity|]. split; [reflexivity|].
  split; [reflexivity|]. split; [vm_compute; reflexivity|].
  intros H. apply H. vm_compute. reflexivity.
Qed.






Lemma set_curas_frame (a : addrspace) (k : kernel) :
  k_tlb (set_curas a k) = k_tlb k /\ k_used (set_curas a k) = k_used k /\
  k_mem (set_curas a k) = k_mem k /\ k_free (set_curas a k) = k_free k.
Proof. unfold set_curas. destruct (k_curproc k); repeat split; reflexivity. Qed.

(** Either the handler leaves at one of its early tests, with an error and
    the state untouched, or it reaches the page-table lookup. *)
Lemma vm_fault_cases (ft addr : Z) (k : kernel) :
  (exists e, (e = EINVAL \/ e = EFAULT) /\ vm_fault ft addr k = (e, k)) \/
  (exists a pt,
     (ft = VM_FAULT_READ \/ ft = VM_FAULT_WRITE) /\ addr <> 0 /\
     proc_getas k = Some a /\ pagetable a = Some pt /\ regions a <> []).
Proof.
  unfold vm_fault.
  destruct (Z.eqb_spec ft VM_FAULT_READONLY) as [->|Hro].
  { left. exists EFAULT. split; [right; reflexivity|reflexivity]. }
  destruct (Z.eqb_spec ft VM_FAULT_READ) as [Hrd|Hrd];
    destruct (Z.eqb_spec ft VM_FAULT_WRITE) as [Hwr|Hwr]; simpl negb; cbv iota;
    try (left; exists EINVAL; split; [left; reflexivity|reflexivity]).
  all: destruct (Z.eqb_spec addr 0) as [Hz|Hnz];
    [left; exists EFAULT; split; [right; reflexivity|reflexivity]|].
  all: destruct (k_curproc k) as [p|] eqn:Hp;
    [|left; exists EFAULT; split; [right; reflexivity|reflexivity]].
  all: destruct (proc_getas k) as [a|] eqn:Ha;
    [|left; exists EFAULT; split; [right; reflexivity|reflexivity]].
  all: destruct (pagetable a) as [pt|] eqn:Hpt;
    [|left; exists EFAULT; split; [right; reflexivity|reflexivity]].
  all: destruct (regions a) as [|r0 rs] eqn:Hr;
    [left; exists EFAULT; split; [right; reflexivity|reflexivity]|].
  all: right; exists a, pt; rewrite Hr; repeat split; auto; congruence.
Qed.

(** C7. Whenever [vm_fault] returns an error, the TLB was not written; and
    whatever it returns, the regions of the current address space are the
    ones it started with. Its only results are 0, EINVAL, EFAULT and
    ENOMEM. *)
Theorem C7_fault_failure_effects (ft addr : Z) (k : kernel) :
  (fst (vm_fault ft addr k) <> 0 ->
   k_tlb (snd (vm_fault ft addr k)) = k_tlb k) /\
  option_map regions (proc_getas (snd (vm_fault ft addr k)))
    = option_map regions (proc_getas k) /\
  (fst (vm_fault ft addr k) = 0 \/ fst (vm_fault ft addr k) = EINVAL \/
   fst (vm_fault ft addr k) = EFAULT \/ fst (vm_fault ft addr k) = ENOMEM).
Proof.
  destruct (vm_fault_cases ft addr k)
    as [(e & He & Heq) | (a & pt & Hft & Hnz & Hproc & Hpt & Hregs)].
  { rewrite Heq. simpl. split; [reflexivity|]. split; [reflexivity|tauto]. }
  rewrite (vm_fault_enter ft addr k a pt Hft Hnz Hproc Hpt Hregs). cbv zeta.
  destruct (proc_getas_curproc _ _ Hproc) as [p Hp].
  destruct (negb (pte_exists (Some pt) _ _)).
  - destruct (find_region _ (regions a)) as [r|]; [|simpl; auto 6].
    destruct (negb (Z.land (flags r) PF_W =? PF_W) && (ft =? VM_FAULT_WRITE));
      [simpl; auto 6|].
    destruct (create_pte pt _ _ _ k) as [[res pt'] k1] eqn:Hc.
    destruct (create_pte_frame _ _ _ _ _ _ _ _ Hc) as (Ht & _ & Hcp & Hres).
    destruct (Z.eqb_spec res 0) as [->|Hne]; simpl negb; cbv iota.
    + rewrite vm_fault_load_eq. simpl. split; [congruence|].
      split; [|auto]. rewrite Hproc. unfold set_curas, proc_getas.
      rewrite Hcp, Hp. reflexivity.
    + simpl. split; [intros _; rewrite (proj1 (set_curas_frame _ _)); exact Ht|].
      split; [|tauto]. rewrite Hproc, set_curas_regions by congruence.
      reflexivity.
  - rewrite vm_fault_load_eq. simpl. split; [congruence|]. split; auto.
Qed.

Lemma C7_fault_failure_effects_witness :
  k_tlb (snd (vm_fault VM_FAULT_WRITE 0x00400010 kernel_S1)) = k_tlb kernel_S1.
Proof.
  apply (C7_fault_failure_effects VM_FAULT_WRITE 0x00400010 kernel_S1).
  vm_compute. discriminate.
Defined.

(** ** Reading back what was written *)

Lemma l1_get_insert_eq (pt : l1_table) (msb : nat) (slot : option l2_table) :
  (msb < length pt)%nat -> l1_get (<[msb := slot]> pt) msb = slot.
Proof. intros H. unfold l1_get. rewrite list_lookup_insert_eq by exact H. reflexivity. Qed.

Lemma l1_get_insert_ne (pt : l1_table) (msb msb' : nat) (slot : option l2_table) :
  msb <> msb' -> l1_get (<[msb := slot]> pt) msb' = l1_get pt msb'.
Proof. intros H. unfold l1_get. rewrite list_lookup_insert_ne by exact H. reflexivity. Qed.

Lemma l1_get_Some_lt (pt : l1_table) (msb : nat) (l2 : l2_table) :
  l1_get pt msb = Some l2 -> (msb < length pt)%nat.
Proof.
  unfold l1_get. destruct (pt !! msb) eqn:H; [|discriminate].
  intros _. eapply lookup_lt_Some, H.
Qed.

Lemma l2_get_insert_eq (l2 : l2_table) (lsb : nat) (e : Z) :
  (lsb < length l2)%nat -> l2_get (<[lsb := e]> l2) lsb = e.
Proof. intros H. unfold l2_get. rewrite list_lookup_insert_eq by exact H. reflexivity. Qed.

Lemma l2_get_insert_ne (l2 : l2_table) (lsb lsb' : nat) (e : Z) :
  lsb <> lsb' -> l2_get (<[lsb := e]> l2) lsb' = l2_get l2 lsb'.
Proof. intros H. unfold l2_get. rewrite list_lookup_insert_ne by exact H. reflexivity. Qed.

Lemma pt_get_set_eq (pt : l1_table) (msb lsb : nat) (l2 : l2_table) (e : Z) :
  l1_get pt msb = Some l2 -> (lsb < length l2)%nat ->
  pt_get (pt_set pt msb lsb e) msb lsb = e.
Proof.
  intros Hl2 Hlsb. unfold pt_get, pt_set. rewrite Hl2.
  rewrite l1_get_insert_eq by (eapply l1_get_Some_lt, Hl2).
  apply l2_get_insert_eq, Hlsb.
Qed.

Lemma pt_get_set_ne_lsb (pt : l1_table) (msb lsb lsb' : nat) (e : Z) :
  lsb <> lsb' -> pt_get (pt_set pt msb lsb e) msb lsb' = pt_get pt msb lsb'.
Proof.
  intros Hne. unfold pt_get, pt_set.
  destruct (l1_get pt msb) as [l2|] eqn:Hl2; [|rewrite Hl2; reflexivity].
  rewrite l1_get_insert_eq by (eapply l1_get_Some_lt, Hl2).
  apply l2_get_insert_ne, Hne.
Qed.

Lemma pt_get_set_ne_msb (pt : l1_table) (msb msb' lsb lsb' : nat) (e : Z) :
  msb <> msb' -> pt_get (pt_set pt msb lsb e) msb' lsb' = pt_get pt msb' lsb'.
Proof.
  intros Hne. unfold pt_get, pt_set.
  destruct (l1_get pt msb) as [l2|]; [|reflexivity].
  rewrite l1_get_insert_ne by exact Hne. reflexivity.
Qed.

Lemma l1_get_set (pt : l1_table) (msb lsb msb' : nat) (e : Z) :
  l1_get (pt_set pt msb lsb e) msb' =
  if decide (msb = msb')
  then (fun l2 => <[lsb := e]> l2) <$> l1_get pt msb
  else l1_get pt msb'.
Proof.
  unfold pt_set. destruct (decide (msb = msb')) as [<-|Hne].
  - destruct (l1_get pt msb) as [l2|] eqn:Hl2; [|rewrite Hl2; reflexivity].
    rewrite l1_get_insert_eq by (eapply l1_get_Some_lt, Hl2). reflexivity.
  - destruct (l1_get pt msb) as [l2|]; [|reflexivity].
    apply l1_get_insert_ne, Hne.
Qed.

Lemma length_pt_set (pt : l1_table) (msb lsb : nat) (e : Z) :
  length (pt_set pt msb lsb e) = length pt.
Proof. unfold pt_set. destruct (l1_get pt msb); [apply length_insert|reflexivity]. Qed.

Lemma lor_valid_nonzero (x : Z) : Z.lor x TLBLO_VALID <> 0.
Proof.
  intros H.
  assert (Hb : Z.testbit (Z.lor x TLBLO_VALID) 9 = true).
  { rewrite Z.lor_spec. change (Z.testbit TLBLO_VALID 9) with true.
    apply orb_true_r. }
  rewrite H in Hb. discriminate.
Qed.

Lemma pte_exists_get (pt : l1_table) (msb lsb : Z) :
  pte_exists (Some pt) msb lsb
  = negb (pt_get pt (Z.to_nat msb) (Z.to_nat lsb) =? 0).
Proof.
  unfold pte_exists, pt_get. destruct (l1_get pt (Z.to_nat msb)); reflexivity.
Qed.

Lemma page_zero (addr : Z) :
  1 <= addr < PAGE_SIZE -> Z.land addr PAGE_FRAME = 0.
Proof.
  intros H. change PAGE_SIZE with 4096 in H.
  rewrite land_PAGE_FRAME_u32 by (unfold is_u32; lia).
  change PAGE_SIZE with 4096. rewrite Z.mod_small by lia. lia.
Qed.

(** [create_pte] succeeds on an absent entry when a page is free and the L2
    array is there or can be allocated. *)
Lemma create_pte_success (pt : l1_table) (msb lsb dirty : Z) (k : kernel)
    (v : Z) (rest : list Z) :
  pt_wf pt ->
  (Z.to_nat msb < L1_PT_SIZE)%nat -> (Z.to_nat lsb < L2_PT_SIZE)%nat ->
  pt_get pt (Z.to_nat msb) (Z.to_nat lsb) = 0 ->
  k_free k = v :: rest -> v <> 0 ->
  (l1_get pt (Z.to_nat msb) <> None \/
   exists junk h, k_heap k = Some junk :: h) ->
  exists pt' k',
    create_pte pt msb lsb dirty k = (0, pt', k') /\
    pt_get pt' (Z.to_nat msb) (Z.to_nat lsb)
    = Z.lor (Z.lor (Z.land (KVADDR_TO_PADDR v) PAGE_FRAME) dirty) TLBLO_VALID /\
    k_tlb k' = k_tlb k /\ k_spl k' = k_spl k /\ k_curproc k' = k_curproc k.
Proof.
  intros [Hlen Hl2len] Hmsb Hlsb Hzero Hfree Hv Hres.
  unfold create_pte.
  destruct (l1_get pt (Z.to_nat msb)) as [l2|] eqn:Hl2.
  - simpl negb. cbv iota. rewrite Hzero. simpl negb. cbv iota.
    unfold alloc_kpages. rewrite Hfree.
    apply Z.eqb_neq in Hv. rewrite Hv.
    eexists _, _. split; [reflexivity|].
    split; [|repeat split; reflexivity].
    apply (pt_get_set_eq _ _ _ l2); [exact Hl2|].
    rewrite (Hl2len _ _ Hl2). exact Hlsb.
  - destruct Hres as [Hres|(junk & h & Hheap)]; [congruence|].
    unfold create_pt_l2. rewrite Hl2. unfold kmalloc. rewrite Hheap.
    simpl negb. cbv iota.
    set (pt1 := <[Z.to_nat msb := Some (replicate L2_PT_SIZE 0)]> pt).
    assert (Hl1 : l1_get pt1 (Z.to_nat msb) = Some (replicate L2_PT_SIZE 0)).
    { apply l1_get_insert_eq. rewrite Hlen. exact Hmsb. }
    assert (Hz1 : pt_get pt1 (Z.to_nat msb) (Z.to_nat lsb) = 0).
    { unfold pt_get. rewrite Hl1. unfold l2_get.
      rewrite lookup_replicate_2 by exact Hlsb. reflexivity. }
    rewrite Hz1. simpl negb. cbv iota.
    unfold alloc_kpages. cbn [k_free set_heap]. rewrite Hfree.
    apply Z.eqb_neq in Hv. rewrite Hv.
    eexists _, _. split; [reflexivity|].
    split; [|repeat split; reflexivity].
    apply (pt_get_set_eq _ _ _ (replicate L2_PT_SIZE 0)); [exact Hl1|].
    rewrite length_replicate. exact Hlsb.
Qed.

(** C10. [vm_fault] rejects only the exact address 0 as null. For a READ or
    WRITE fault at an address from 1 to PAGE_SIZE-1 the handler behaves the
    same for every such address; when a region passes the range test for
    the page-aligned address 0 (and has its W bit set if the fault is a
    WRITE), and the entry is resident or can be created, the handler
    returns 0, the page table maps virtual page 0, and that entry is
    written to the TLB under tag 0. *)
Theorem C10_page_zero_is_mapped (ft addr : Z) (k : kernel) (a : addrspace)
    (pt : l1_table) (r : region)
    (Hft : ft = VM_FAULT_READ \/ ft = VM_FAULT_WRITE)
    (Haddr : 1 <= addr < PAGE_SIZE)
    (Hproc : proc_getas k = Some a)
    (Hpt : pagetable a = Some pt)
    (Hwf : pt_wf pt)
    (Hreg : find_region 0 (regions a) = Some r)
    (Hperm : ft = VM_FAULT_WRITE -> Z.land (flags r) PF_W = PF_W)
    (Hres : pte_exists (Some pt) 0 0 = true \/
            exists v rest, k_free k = v :: rest /\ v <> 0 /\
              (l1_get pt 0 <> None \/ exists junk h, k_heap k = Some junk :: h)) :
  (forall addr', 1 <= addr' < PAGE_SIZE ->
     vm_fault ft addr' k = vm_fault ft addr k) /\
  exists k' a' pt' e,
    vm_fault ft addr k = (0, k') /\
    proc_getas k' = Some a' /\ pagetable a' = Some pt' /\
    regions a' = regions a /\
    pt_get pt' 0 0 = e /\ e <> 0 /\
    pte_exists (Some pt') 0 0 = true /\
    k_tlb k' = TlbRandom 0 e :: k_tlb k.
Proof.
  assert (Henter : forall addr', 1 <= addr' < PAGE_SIZE ->
            vm_fault ft addr' k =
            if negb (pte_exists (Some pt) 0 0)
            then
              if negb (Z.land (flags r) PF_W =? PF_W) && (ft =? VM_FAULT_WRITE)
              then (EFAULT, k)
              else
                let '(result, pt, k) :=
                  create_pte pt 0 0
                    (if Z.land (flags r) PF_W =? PF_W then TLBLO_DIRTY else 0) k in
                let k := set_curas (mkAS (Some pt) (regions a) (stackbase a)) k in
                if negb (result =? 0) then (result, k)
                else vm_fault_load 0 0 0 pt k
            else vm_fault_load 0 0 0 pt k).
  { intros addr' Ha'.
    rewrite (vm_fault_enter ft addr' k a pt Hft ltac:(lia) Hproc Hpt
               (find_region_nonempty _ _ _ Hreg)).
    cbv zeta. rewrite (page_zero addr' Ha').
    change (pt_msb 0) with 0. change (pt_lsb 0) with 0.
    rewrite Hreg. reflexivity. }
  split.
  { intros addr' Ha'. rewrite (Henter addr' Ha'), (Henter addr Haddr). reflexivity. }
  rewrite (Henter addr Haddr).
  destruct (proc_getas_curproc _ _ Hproc) as [p Hp].
  destruct (pte_exists (Some pt) 0 0) eqn:Hpte; simpl negb; cbv iota.
  - rewrite vm_fault_load_eq. eexists _, a, pt, _.
    split; [reflexivity|]. split; [exact Hproc|]. split; [exact Hpt|].
    split; [reflexivity|]. split; [reflexivity|].
    rewrite pte_exists_get in Hpte. change (Z.to_nat 0) with 0%nat in *.
    split; [|split; [rewrite pte_exists_get; exact Hpte | reflexivity]].
    destruct (Z.eqb_spec (pt_get pt 0 0) 0); [discriminate|assumption].
  - destruct Hres as [Habs|(v & rest & Hfree & Hv & Hl2)]; [discriminate|].
    assert (Hnoperm : negb (Z.land (flags r) PF_W =? PF_W)
                      && (ft =? VM_FAULT_WRITE) = false).
    { destruct (Z.eqb_spec ft VM_FAULT_WRITE) as [Hw|Hw].
      - rewrite (Hperm Hw), Z.eqb_refl. reflexivity.
      - apply andb_false_r. }
    rewrite Hnoperm.
    assert (Hzero : pt_get pt (Z.to_nat 0) (Z.to_nat 0) = 0).
    { rewrite pte_exists_get in Hpte.
      destruct (Z.eqb_spec (pt_get pt (Z.to_nat 0) (Z.to_nat 0)) 0);
        [assumption|discriminate]. }
    destruct (create_pte_success pt 0 0
                (if Z.land (flags r) PF_W =? PF_W then TLBLO_DIRTY else 0)
                k v rest Hwf) as (pt' & k1 & Hc & Hget & Ht & Hs & Hcp);
      try assumption;
      [change L1_PT_SIZE with 2048%nat; simpl; lia
      | change L2_PT_SIZE with 512%nat; simpl; lia|].
    rewrite Hc. simpl negb. cbv iota. rewrite vm_fault_load_eq.
    change (Z.to_nat 0) with 0%nat in *.
    eexists _, (mkAS (Some pt') (regions a) (stackbase a)), pt', _.
    split; [reflexivity|].
    split; [|split; [reflexivity|split; [reflexivity|]]].
    + unfold splx, tlb_random, set_spl, set_tlb, proc_getas, set_curas.
      rewrite Hcp, Hp. reflexivity.
    + split; [reflexivity|]. rewrite Hget.
      split; [apply lor_valid_nonzero|].
      split.
      * rewrite pte_exists_get. change (Z.to_nat 0) with 0%nat. rewrite Hget.
        destruct (Z.eqb_spec
                    (Z.lor (Z.lor (Z.land (KVADDR_TO_PADDR v) PAGE_FRAME)
                              (if Z.land (flags r) PF_W =? PF_W
                               then TLBLO_DIRTY else 0)) TLBLO_VALID) 0)
          as [E|E]; [|reflexivity].
        exfalso. exact (lor_valid_nonzero _ E).
      * simpl. rewrite (proj1 (set_curas_frame _ _)), Ht. reflexivity.
Qed.

Lemma pt_wf_empty : pt_wf (replicate L1_PT_SIZE None).
Proof.
  split; [apply length_replicate|].
  intros msb l2. unfold l1_get.
  destruct (replicate L1_PT_SIZE None !! msb) as [slot|] eqn:H; [|discriminate].
  apply lookup_replicate in H. destruct H as [-> _]. discriminate.
Qed.

Lemma C10_page_zero_is_mapped_witness :
  exists k' a' pt' e,
    vm_fault VM_FAULT_READ 0x10 kernel_page0 = (0, k') /\
    proc_getas k' = Some a' /\ pagetable a' = Some pt' /\
    regions a' = [mkRegion 0 0x1000 6 6] /\
    pt_get pt' 0 0 = e /\ e <> 0 /\
    pte_exists (Some pt') 0 0 = true /\
    k_tlb k' = TlbRandom 0 e :: k_tlb kernel_page0.
Proof.
  refine (proj2 (C10_page_zero_is_mapped VM_FAULT_READ 0x10 kernel_page0
                   (mkAS (Some (replicate L1_PT_SIZE None))
                      [mkRegion 0 0x1000 6 6] USERSTACK)
                   (replicate L1_PT_SIZE None) (mkRegion 0 0x1000 6 6)
                   _ _ _ _ _ _ _ _)).
  - left. reflexivity.
  - change PAGE_SIZE with 4096. lia.
  - reflexivity.
  - reflexivity.
  - apply pt_wf_empty.
  - reflexivity.
  - intros _. reflexivity.
  - right. exists 0x80100000, []. split; [reflexivity|]. split; [lia|].
    right. eexists _, _. reflexivity.
Defined.

(** ** A failed copy *)

(** The store of line 79 comes before the allocation of line 81: when the
    source entry is present and no page is free, the inner loop of [copy_pt]
    returns ENOMEM and leaves the source's own entry in the copy. *)
Lemma copy_pt_l2_oom_keeps_source_entry (n lsb : nat)
    (pt_original pt_copy : l1_table) (msb : nat) (k : kernel) (l2c : list Z) :
  l1_get pt_copy msb = Some l2c -> (lsb < length l2c)%nat ->
  pt_get pt_original msb lsb <> 0 ->
  k_free k = [] ->
  copy_pt_l2 (S n) lsb pt_original pt_copy msb k
  = (Some ENOMEM, pt_set pt_copy msb lsb (pt_get pt_original msb lsb), k) /\
  pt_get (pt_set pt_copy msb lsb (pt_get pt_original msb lsb)) msb lsb
  = pt_get pt_original msb lsb.
Proof.
  intros Hl2 Hlsb Hne Hfree.
  assert (Hget : pt_get (pt_set pt_copy msb lsb (pt_get pt_original msb lsb)) msb lsb
                 = pt_get pt_original msb lsb).
  { apply (pt_get_set_eq _ _ _ l2c); assumption. }
  split; [|exact Hget].
  cbn [copy_pt_l2]. rewrite Hget.
  apply Z.eqb_neq in Hne. rewrite Hne.
  unfold alloc_kpages. rewrite Hfree. reflexivity.
Qed.

(** C1 says that a failed [as_copy] destroys the partial copy, leaks no
    frame and frees no frame the source still owns. The last part fails on
    the code. In [kernel_resident] the current address space
    has the page at 0x00400000 resident in frame 0x80100000 and the page
    allocator is empty. [as_copy] then fails with ENOMEM inside [copy_pt],
    after line 79 stored the source's entry in the copy; the unwinding
    [as_destroy] frees the frame that entry names. The source still maps
    the frame, the allocator no longer counts it as held and hands it out
    at the next request. *)
Theorem C1_failed_copy_frees_source_frame :
  exists a pt e k',
    proc_getas kernel_resident = Some a /\
    pagetable a = Some pt /\
    pt_get pt 2 0 = e /\ e <> 0 /\ frame_of e = 0x80100000 /\
    elements (k_used kernel_resident) = [0x80100000] /\
    k_free kernel_resident = [] /\
    as_copy a kernel_resident = (ENOMEM, None, k') /\
    proc_getas k' = Some a /\
    elements (k_used k') = [] /\
    k_free k' = [0x80100000] /\
    fst (alloc_kpages 1 k') = frame_of e.
Proof.
  eexists _, _, _, _.
  split; [reflexivity|]. split; [reflexivity|]. split; [reflexivity|].
  split; [vm_compute; discriminate|].
  split; [vm_compute; reflexivity|].
  split; [vm_compute; reflexivity|].
  split; [vm_compute; reflexivity|].
  split; [vm_compute; reflexivity|].
  split; [vm_compute; reflexivity|].
  split; [vm_compute; reflexivity|].
  split; vm_compute; reflexivity.
Qed.

(** What the freed frame leads to: a second [as_copy] from the state the
    failed one left succeeds, and is handed the source's own frame for the
    copy; the two address spaces then map the same frame number. The
    ownership invariant [as_wf] that [X18_copy_preserves_pages] assumes is
    kept by every operation except this failed unwinding. *)
Example failed_copy_then_copy_shares_frame :
  exists a k1 new k2 pt ptn,
    proc_getas kernel_resident = Some a /\
    as_copy a kernel_resident = (ENOMEM, None, k1) /\
    as_copy a k1 = (0, Some new, k2) /\
    pagetable a = Some pt /\ pagetable new = Some ptn /\
    pt_get pt 2 0 <> 0 /\
    Z.shiftr (pt_get ptn 2 0) 12 = Z.shiftr (pt_get pt 2 0) 12.
Proof.
  eexists _, _, _, _, _, _.
  split; [reflexivity|].
  split; [vm_compute; reflexivity|].
  split; [vm_compute; reflexivity|].
  split; [reflexivity|]. split; [reflexivity|].
  split; [vm_compute; discriminate|vm_compute; reflexivity].
Qed.

(** C3. The claim fails after a failed copy. In [kernel_resident] the
    current address space [old] maps page (2, 0) to the frame at 0x80100000
    and no page is free. A first [as_copy] returns ENOMEM and, unwinding,
    frees that frame although [old] still maps it. A second [as_copy] of the
    same [old], from the state the first one left, returns 0 and a new
    address space whose entry (2, 0) is present and names the very frame
    of the source's entry: the frame numbers of the two entries are equal,
    not different. *)
Theorem C3_copy_shares_source_frame :
  exists old k new k' pto ptn,
    proc_getas kernel_resident = Some old /\
    as_copy old kernel_resident = (ENOMEM, None, k) /\
    proc_getas k = Some old /\
    as_copy old k = (0, Some new, k') /\
    pagetable old = Some pto /\ pagetable new = Some ptn /\
    pt_get pto 2 0 <> 0 /\ pt_get ptn 2 0 <> 0 /\
    Z.shiftr (pt_get ptn 2 0) 12 = Z.shiftr (pt_get pto 2 0) 12 /\
    frame_of (pt_get pto 2 0) = 0x80100000 /\
    frame_of (pt_get ptn 2 0) = 0x80100000 /\
    ~ (forall msb lsb, (msb < L1_PT_SIZE)%nat -> (lsb < L2_PT_SIZE)%nat ->
         pt_get pto msb lsb <> 0 ->
         Z.shiftr (pt_get ptn msb lsb) 12 <> Z.shiftr (pt_get pto msb lsb) 12).
Proof.
  eexists _, _, _, _, _, _.
  split; [reflexivity|].
  split; [vm_compute; reflexivity|].
  split; [vm_compute; reflexivity|].
  split; [vm_compute; reflexivity|].
  split; [reflexivity|]. split; [reflexivity|].
  split; [vm_compute; discriminate|].
  split; [vm_compute; discriminate|].
  split; [vm_compute; reflexivity|].
  split; [vm_compute; reflexivity|].
  split; [vm_compute; reflexivity|].
  intros H. apply (H 2%nat 0%nat).
  - change L1_PT_SIZE with 2048%nat. lia.
  - change L2_PT_SIZE with 512%nat. lia.
  - vm_compute. discriminate.
  - vm_compute. reflexivity.
Qed.

(** ** Entries as EntryLo words *)

Lemma entry_frame_bits (p d : Z) :
  Z.land d PAGE_FRAME = 0 ->
  Z.land (Z.lor (Z.lor (Z.land p PAGE_FRAME) d) TLBLO_VALID) PAGE_FRAME
  = Z.land p PAGE_FRAME.
Proof.
  intros Hd. rewrite !Z.land_lor_distr_l, Hd.
  change (Z.land TLBLO_VALID PAGE_FRAME) with 0.
  rewrite <- Z.land_assoc, Z.land_diag, !Z.lor_0_r. reflexivity.
Qed.

Lemma entry_dirty_bit (p e : Z) :
  Z.land (Z.lor (Z.lor (Z.land p PAGE_FRAME) (Z.land e TLBLO_DIRTY)) TLBLO_VALID)
    TLBLO_DIRTY
  = Z.land e TLBLO_DIRTY.
Proof.
  rewrite !Z.land_lor_distr_l.
  change (Z.land TLBLO_VALID TLBLO_DIRTY) with 0.
  rewrite <- !Z.land_assoc, Z.land_diag.
  change (Z.land PAGE_FRAME TLBLO_DIRTY) with 0.
  rewrite Z.land_0_r, Z.lor_0_r, Z.lor_0_l. reflexivity.
Qed.

Lemma entry_valid_bit (x : Z) :
  Z.land (Z.lor x TLBLO_VALID) TLBLO_VALID = TLBLO_VALID.
Proof.
  rewrite Z.land_lor_distr_l, Z.land_diag.
  apply Z.bits_inj'. intros i Hi.
  rewrite Z.lor_spec, Z.land_spec.
  destruct (Z.testbit TLBLO_VALID i);
    [apply orb_true_r | rewrite andb_false_r; reflexivity].
Qed.

Lemma land_dirty_frame (e : Z) : Z.land (Z.land e TLBLO_DIRTY) PAGE_FRAME = 0.
Proof.
  rewrite <- Z.land_assoc. change (Z.land TLBLO_DIRTY PAGE_FRAME) with 0.
  apply Z.land_0_r.
Qed.

Lemma window_roundtrip (v : Z) :
  page_ok v -> PADDR_TO_KVADDR (Z.land (KVADDR_TO_PADDR v) PAGE_FRAME) = v.
Proof.
  intros [[Hlo Hhi] Hal]. unfold PADDR_TO_KVADDR, KVADDR_TO_PADDR, MIPS_KSEG0 in *.
  rewrite (wrap32_small (v - 0x80000000)) by (unfold is_u32; lia).
  rewrite land_PAGE_FRAME_aligned.
  - rewrite wrap32_small by (unfold is_u32; lia). lia.
  - unfold is_u32. lia.
  - change PAGE_SIZE with 4096 in *.
    replace (v - 0x80000000) with (v + (-524288) * 4096) by lia.
    rewrite Z.mod_add by lia. exact Hal.
Qed.

(** The frame of the entry [copy_pt] and [create_pte] build for page [v]. *)
Lemma frame_of_entry (v d : Z) :
  page_ok v -> Z.land d PAGE_FRAME = 0 ->
  frame_of (Z.lor (Z.lor (Z.land (KVADDR_TO_PADDR v) PAGE_FRAME) d) TLBLO_VALID)
  = v.
Proof.
  intros Hv Hd. unfold frame_of. rewrite entry_frame_bits by exact Hd.
  apply window_roundtrip, Hv.
Qed.

Lemma frame_of_pfn (e1 e2 : Z) :
  Z.shiftr e1 12 = Z.shiftr e2 12 -> frame_of e1 = frame_of e2.
Proof.
  intros H. unfold frame_of. rewrite (land_PAGE_FRAME e1), (land_PAGE_FRAME e2), H.
  reflexivity.
Qed.

(** ** The page allocator and the copy of one page *)

Lemma k_ext_refl (k : kernel) : k_ext k k.
Proof. split; [reflexivity|]. intros v _. reflexivity. Qed.

Lemma k_ext_trans (k1 k2 k3 : kernel) : k_ext k1 k2 -> k_ext k2 k3 -> k_ext k1 k3.
Proof.
  intros [Hu1 Hm1] [Hu2 Hm2]. split; [set_solver|].
  intros v Hv. rewrite Hm2 by set_solver. apply Hm1, Hv.
Qed.

Lemma k_ext_mem_byte (k k' : kernel) (v : Z) (i : nat) :
  k_ext k k' -> v ∈ k_used k -> mem_byte k' v i = mem_byte k v i.
Proof. intros [_ Hm] Hv. unfold mem_byte. rewrite (Hm v Hv). reflexivity. Qed.

Lemma pt_owned_ext (k k' : kernel) (pt : l1_table) :
  k_ext k k' -> pt_owned k pt -> pt_owned k' pt.
Proof.
  intros [Hu _] Hown msb lsb Hne. destruct (Hown msb lsb Hne) as [Hv Hin].
  split; [exact Hv|]. set_solver.
Qed.

Lemma kmalloc_ext (k k' : kernel) (o : option (nat -> Z)) :
  kmalloc k = (o, k') -> k_ext k k' /\ (alloc_ok k -> alloc_ok k').
Proof.
  intros H. destruct (kmalloc_frame _ _ _ H) as (Hm & Hu & Hf & _).
  split.
  - split; [rewrite Hu; reflexivity|]. intros v _. rewrite Hm. reflexivity.
  - unfold alloc_ok. rewrite Hu, Hf. auto.
Qed.

Lemma alloc_kpages_fresh (k k' : kernel) (v : Z) :
  alloc_ok k -> alloc_kpages 1 k = (v, k') -> v <> 0 ->
  page_ok v /\ (v ∉ k_used k) /\ v ∈ k_used k' /\
  k_ext k k' /\ alloc_ok k' /\ k_mem k' = k_mem k.
Proof.
  intros [Hnd Hfree]. unfold alloc_kpages.
  destruct (k_free k) as [|p rest] eqn:Hf.
  { intros [= <- <-] Hv. congruence. }
  intros [= <- <-] _.
  destruct (Hfree p ltac:(left)) as [Hp Hok].
  apply NoDup_cons in Hnd as [Hnin Hnd].
  split; [exact Hok|]. split; [exact Hp|].
  split; [simpl; apply elem_of_union_l, elem_of_singleton; reflexivity|].
  split; [split; simpl; [apply union_subseteq_r|reflexivity]|].
  split; [|reflexivity].
  split; [exact Hnd|]. simpl. intros u Hu.
  destruct (Hfree u ltac:(right; exact Hu)) as [Hu1 Hu2].
  split; [|exact Hu2].
  intros Hin. apply elem_of_union in Hin as [Hin|Hin]; [|exact (Hu1 Hin)].
  apply elem_of_singleton in Hin. subst u. exact (Hnin Hu).
Qed.

Lemma mem_byte_insert_eq (k : kernel) (m : gmap Z (list byte)) (v : Z)
    (f : nat -> byte) (n : nat) (tl : list byte) (i : nat) :
  (i < n)%nat ->
  mem_byte (set_mem (<[v := map f (seq 0 n) ++ tl]> m) k) v i = f i.
Proof.
  intros Hi. unfold mem_byte. simpl. rewrite lookup_insert_eq. simpl.
  rewrite app_nth1 by (rewrite length_map, length_seq; exact Hi).
  rewrite (nth_indep _ x00 (f 0%nat)) by (rewrite length_map, length_seq; exact Hi).
  rewrite map_nth, seq_nth by exact Hi. reflexivity.
Qed.

(** Lines 83-84: after [bzero] and [memmove] the new page [v] holds the
    bytes of the source page, and no other page has changed. *)
Lemma copy_page_step (k : kernel) (v src : Z) :
  v <> src ->
  let k2 := snd (memmove v src PAGE_SIZE (bzero v PAGE_SIZE k)) in
  fst (memmove v src PAGE_SIZE (bzero v PAGE_SIZE k)) = v /\
  k_used k2 = k_used k /\ k_free k2 = k_free k /\
  (forall u, u <> v -> k_mem k2 !! u = k_mem k !! u) /\
  (forall i, (i < Z.to_nat PAGE_SIZE)%nat -> mem_byte k2 v i = mem_byte k src i).
Proof.
  intros Hne. unfold memmove. cbn [fst snd].
  split; [reflexivity|]. split; [reflexivity|]. split; [reflexivity|]. split.
  - intros u Hu. unfold bzero. cbn [k_mem set_mem].
    rewrite !lookup_insert_ne by congruence. reflexivity.
  - intros i Hi. rewrite mem_byte_insert_eq by exact Hi.
    unfold mem_byte, bzero. cbn [k_mem set_mem].
    rewrite lookup_insert_ne by congruence. reflexivity.
Qed.

Lemma copied_mono (k0 k k' k'' : kernel) (eo en : Z) :
  k_ext k0 k -> k_ext k' k'' ->
  (eo <> 0 -> frame_of eo ∈ k_used k0) ->
  copied k k' eo en -> copied k0 k'' eo en.
Proof.
  intros H0 H2 Hin [Hz Hnz]. split; [exact Hz|].
  intros Hne. destruct (Hnz Hne) as (v & He & Hok & Hv' & Hv & Hbytes).
  exists v. split; [exact He|]. split; [exact Hok|].
  split; [destruct H2 as [Hu _]; apply Hu, Hv'|].
  split; [intros Hv0; apply Hv; destruct H0 as [Hu _]; apply Hu, Hv0|].
  intros i Hi.
  rewrite (k_ext_mem_byte k' k'' v i H2 Hv'), (Hbytes i Hi).
  apply (k_ext_mem_byte k0 k), Hin; assumption.
Qed.

(** Lines 81-90 for one present entry: a fresh page is taken, receives the
    bytes of the source frame, and nothing held before is touched. *)
Lemma copy_entry_step (k k1 : kernel) (v eo : Z) :
  alloc_ok k -> frame_of eo ∈ k_used k ->
  alloc_kpages 1 k = (v, k1) -> v <> 0 ->
  let k3 := snd (memmove v (frame_of eo) PAGE_SIZE (bzero v PAGE_SIZE k1)) in
  fst (memmove v (frame_of eo) PAGE_SIZE (bzero v PAGE_SIZE k1)) = v /\
  alloc_ok k3 /\ k_ext k k3 /\ page_ok v /\ v ∈ k_used k3 /\ (v ∉ k_used k) /\
  (forall i, (i < Z.to_nat PAGE_SIZE)%nat ->
     mem_byte k3 v i = mem_byte k (frame_of eo) i).
Proof.
  intros Hal Hsrc Halloc Hv.
  destruct (alloc_kpages_fresh k k1 v Hal Halloc Hv)
    as (Hok & Hfresh & Hin1 & [Hu1 Hm1] & Hal1 & Hmem1).
  assert (Hne : v <> frame_of eo) by (intros ->; exact (Hfresh Hsrc)).
  destruct (copy_page_step k1 v (frame_of eo) Hne) as (Hfst & Hu & Hf & Hoth & Hby).
  cbv zeta. set (k3 := snd (memmove v (frame_of eo) PAGE_SIZE (bzero v PAGE_SIZE k1))) in *.
  split; [exact Hfst|].
  split; [unfold alloc_ok; rewrite Hu, Hf; exact Hal1|].
  split.
  { split; [rewrite Hu; exact Hu1|].
    intros u Hin. rewrite Hoth by (intros ->; exact (Hfresh Hin)).
    apply Hm1, Hin. }
  split; [exact Hok|]. split; [rewrite Hu; exact Hin1|]. split; [exact Hfresh|].
  intros i Hi. rewrite (Hby i Hi). unfold mem_byte. rewrite Hmem1. reflexivity.
Qed.

Lemma copy_pt_l2_S (n lsb : nat) (pt_original pt_copy : l1_table) (msb : nat)
    (k : kernel) :
  copy_pt_l2 (S n) lsb pt_original pt_copy msb k =
  let pt_copy := pt_set pt_copy msb lsb (pt_get pt_original msb lsb) in
  if pt_get pt_copy msb lsb =? 0
  then copy_pt_l2 n (S lsb) pt_original pt_copy msb k
  else
    let '(newpage, k) := alloc_kpages 1 k in
    if newpage =? 0 then (Some ENOMEM, pt_copy, k)
    else
      let k := bzero newpage PAGE_SIZE k in
      let '(moved, k) :=
        memmove newpage (frame_of (pt_get pt_original msb lsb)) PAGE_SIZE k in
      if moved =? 0
      then
        let '(freed, k) := destroy_pt (Some pt_copy) k in
        (Some ENOMEM, default pt_copy freed, k)
      else
        let pt_copy :=
          pt_set pt_copy msb lsb
            (Z.lor (Z.lor (Z.land (KVADDR_TO_PADDR newpage) PAGE_FRAME)
                      (Z.land (pt_get pt_original msb lsb) TLBLO_DIRTY))
               TLBLO_VALID) in
        copy_pt_l2 n (S lsb) pt_original pt_copy msb k.
Proof. reflexivity. Qed.

(** The inner loop of [copy_pt], when it runs to its end. *)
Lemma copy_pt_l2_spec (pt_original : l1_table) (msb : nat) (n : nat) :
  forall (lsb : nat) (pt_copy : l1_table) (k : kernel) (pt' : l1_table)
         (k' : kernel) (l2c : list Z),
    alloc_ok k -> pt_owned k pt_original ->
    l1_get pt_copy msb = Some l2c -> (lsb + n <= length l2c)%nat ->
    copy_pt_l2 n lsb pt_original pt_copy msb k = (None, pt', k') ->
    alloc_ok k' /\ k_ext k k' /\ length pt' = length pt_copy /\
    (forall msb', msb' <> msb -> l1_get pt' msb' = l1_get pt_copy msb') /\
    (exists l2', l1_get pt' msb = Some l2' /\ length l2' = length l2c) /\
    (forall lsb', (lsb' < lsb)%nat ->
       pt_get pt' msb lsb' = pt_get pt_copy msb lsb') /\
    (forall lsb', (lsb <= lsb' < lsb + n)%nat ->
       copied k k' (pt_get pt_original msb lsb') (pt_get pt' msb lsb')).
Proof.
  induction n as [|n IH]; intros lsb pt_copy k pt' k' l2c Hal Hown Hl2 Hlen Hrun.
  { injection Hrun as <- <-.
    split; [exact Hal|]. split; [apply k_ext_refl|]. split; [reflexivity|].
    split; [reflexivity|]. split; [exists l2c; split; [exact Hl2|reflexivity]|].
    split; [reflexivity|]. intros lsb' Hr. lia. }
  rewrite copy_pt_l2_S in Hrun. cbv zeta in Hrun.
  set (eo := pt_get pt_original msb lsb) in *.
  set (pt1 := pt_set pt_copy msb lsb eo) in *.
  assert (Hget1 : pt_get pt1 msb lsb = eo).
  { apply (pt_get_set_eq _ _ _ l2c); [exact Hl2 | lia]. }
  assert (Hl21 : l1_get pt1 msb = Some (<[lsb := eo]> l2c)).
  { unfold pt1. rewrite l1_get_set, decide_True, Hl2 by reflexivity. reflexivity. }
  assert (Hoth1 : forall msb', msb' <> msb -> l1_get pt1 msb' = l1_get pt_copy msb').
  { intros msb' Hne. unfold pt1. rewrite l1_get_set, decide_False by congruence.
    reflexivity. }
  rewrite Hget1 in Hrun.
  destruct (Z.eqb_spec eo 0) as [Hz|Hnz].
  - destruct (IH (S lsb) pt1 k pt' k' _ Hal Hown Hl21
                ltac:(rewrite length_insert; lia) Hrun)
      as (Ha' & He & Hlen' & Hother & (l2' & Hl2' & Hl2len) & Hlow & Hcop).
    split; [exact Ha'|]. split; [exact He|].
    split; [rewrite Hlen'; apply length_pt_set|].
    split; [intros msb' Hne; rewrite Hother by exact Hne; apply Hoth1, Hne|].
    split; [exists l2'; split; [exact Hl2'|rewrite Hl2len; apply length_insert]|].
    split.
    + intros lsb' Hlt. rewrite Hlow by lia. apply pt_get_set_ne_lsb. lia.
    + intros lsb' Hr. destruct (decide (lsb' = lsb)) as [->|Hne].
      * rewrite Hlow by lia. rewrite Hget1. fold eo.
        split; [intros _; exact Hz|]. intros Hc. congruence.
      * apply Hcop. lia.
  - destruct (alloc_kpages 1 k) as [v k1] eqn:Halloc.
    destruct (Z.eqb_spec v 0) as [Hv0|Hv]; [discriminate|].
    destruct (Hown msb lsb Hnz) as [_ Hsrc]. fold eo in Hsrc.
    destruct (copy_entry_step k k1 v eo Hal Hsrc Halloc Hv)
      as (Hfst & Hal3 & Hext3 & Hok & Hin3 & Hfresh & Hbytes).
    destruct (memmove v (frame_of eo) PAGE_SIZE (bzero v PAGE_SIZE k1))
      as [moved k3] eqn:Hmv.
    cbn [fst snd] in *. subst moved.
    destruct (Z.eqb_spec v 0) as [Hv0|_]; [congruence|].
    set (E := Z.lor (Z.lor (Z.land (KVADDR_TO_PADDR v) PAGE_FRAME)
                       (Z.land eo TLBLO_DIRTY)) TLBLO_VALID) in *.
    set (pt2 := pt_set pt1 msb lsb E) in *.
    assert (Hget2 : pt_get pt2 msb lsb = E).
    { apply (pt_get_set_eq _ _ _ (<[lsb := eo]> l2c)); [exact Hl21|].
      rewrite length_insert. lia. }
    assert (Hl22 : l1_get pt2 msb = Some (<[lsb := E]> (<[lsb := eo]> l2c))).
    { unfold pt2. rewrite l1_get_set, decide_True, Hl21 by reflexivity. reflexivity. }
    destruct (IH (S lsb) pt2 k3 pt' k' _ Hal3 (pt_owned_ext _ _ _ Hext3 Hown) Hl22
                ltac:(rewrite !length_insert; lia) Hrun)
      as (Ha' & He & Hlen' & Hother & (l2' & Hl2' & Hl2len) & Hlow & Hcop).
    split; [exact Ha'|]. split; [exact (k_ext_trans _ _ _ Hext3 He)|].
    split; [rewrite Hlen'; unfold pt2, pt1; rewrite !length_pt_set; reflexivity|].
    split.
    { intros msb' Hne. rewrite Hother by exact Hne. unfold pt2.
      rewrite l1_get_set, decide_False by congruence. apply Hoth1, Hne. }
    split; [exists l2'; split; [exact Hl2'|rewrite Hl2len, !length_insert; reflexivity]|].
    split.
    + intros lsb' Hlt. rewrite Hlow by lia. unfold pt2.
      rewrite pt_get_set_ne_lsb by lia. apply pt_get_set_ne_lsb. lia.
    + intros lsb' Hr. destruct (decide (lsb' = lsb)) as [->|Hne].
      * rewrite Hlow by lia. rewrite Hget2. fold eo.
        split; [intros Hc; congruence|]. intros _.
        exists v. split; [reflexivity|]. split; [exact Hok|].
        split; [destruct He as [Hu _]; apply Hu, Hin3|].
        split; [exact Hfresh|].
        intros i Hi. rewrite (k_ext_mem_byte k3 k' v i He Hin3). apply Hbytes, Hi.
      * apply (copied_mono k k3 k' k'); [exact Hext3|apply k_ext_refl| |apply Hcop; lia].
        intros Hne'. apply (Hown msb lsb' Hne').
Qed.

Lemma pt_get_l1_eq (pt pt' : l1_table) (msb lsb : nat) :
  l1_get pt' msb = l1_get pt msb -> pt_get pt' msb lsb = pt_get pt msb lsb.
Proof. intros H. unfold pt_get. rewrite H. reflexivity. Qed.

(** The outer loop of [copy_pt], when it runs to its end. *)
Lemma copy_pt_l1_spec (pt_original : l1_table) (n : nat) :
  forall (msb : nat) (pt_copy : l1_table) (k : kernel) (pt' : l1_table)
         (k' : kernel),
    alloc_ok k -> pt_owned k pt_original ->
    (msb + n <= length pt_copy)%nat ->
    copy_pt_l1 n msb pt_original pt_copy k = (None, pt', k') ->
    alloc_ok k' /\ k_ext k k' /\ length pt' = length pt_copy /\
    (forall msb', (msb' < msb)%nat -> l1_get pt' msb' = l1_get pt_copy msb') /\
    (forall msb', (msb <= msb' < msb + n)%nat ->
       match l1_get pt_original msb' with
       | Some _ =>
         (exists l2', l1_get pt' msb' = Some l2' /\ length l2' = L2_PT_SIZE) /\
         forall lsb', (lsb' < L2_PT_SIZE)%nat ->
           copied k k' (pt_get pt_original msb' lsb') (pt_get pt' msb' lsb')
       | None => l1_get pt' msb' = l1_get pt_copy msb'
       end).
Proof.
  induction n as [|n IH]; intros msb pt_copy k pt' k' Hal Hown Hlen Hrun.
  { injection Hrun as <- <-.
    split; [exact Hal|]. split; [apply k_ext_refl|]. split; [reflexivity|].
    split; [reflexivity|]. intros msb' Hr. lia. }
  cbn [copy_pt_l1] in Hrun.
  destruct (l1_get pt_original msb) as [l2o|] eqn:Hl2o.
  - destruct (kmalloc k) as [[junk|] k0] eqn:Hk; [|discriminate].
    destruct (kmalloc_ext _ _ _ Hk) as [Hext0 Hal0]. specialize (Hal0 Hal).
    set (l2c := map junk (seq 0 L2_PT_SIZE)) in *.
    set (pt1 := <[msb := Some l2c]> pt_copy) in *.
    assert (Hl2c : length l2c = L2_PT_SIZE).
    { unfold l2c. rewrite length_map, length_seq. reflexivity. }
    assert (Hl1 : l1_get pt1 msb = Some l2c) by (apply l1_get_insert_eq; lia).
    destruct (copy_pt_l2 L2_PT_SIZE 0 pt_original pt1 msb k0)
      as [[[code|] pt2] k2] eqn:Hin; [discriminate|].
    destruct (copy_pt_l2_spec pt_original msb L2_PT_SIZE 0 pt1 k0 pt2 k2 l2c
                Hal0 (pt_owned_ext _ _ _ Hext0 Hown) Hl1 ltac:(lia) Hin)
      as (Hal2 & Hext2 & Hlen2 & Hoth2 & (l2' & Hl2' & Hl2len) & _ & Hcop2).
    assert (Hext02 : k_ext k k2) by exact (k_ext_trans _ _ _ Hext0 Hext2).
    destruct (IH (S msb) pt2 k2 pt' k' Hal2 (pt_owned_ext _ _ _ Hext02 Hown)
                ltac:(rewrite Hlen2; unfold pt1; rewrite length_insert; lia) Hrun)
      as (Hal' & Hext' & Hlen' & Hlow & Hrest).
    split; [exact Hal'|]. split; [exact (k_ext_trans _ _ _ Hext02 Hext')|].
    split; [rewrite Hlen', Hlen2; apply length_insert|].
    split.
    + intros msb' Hlt. rewrite Hlow by lia. rewrite Hoth2 by lia.
      apply l1_get_insert_ne. lia.
    + intros msb' Hr. destruct (decide (msb' = msb)) as [->|Hne].
      * rewrite Hl2o. rewrite (Hlow msb) by lia.
        split; [exists l2'; split; [exact Hl2'|congruence]|].
        intros lsb' Hlsb.
        rewrite (pt_get_l1_eq pt2 pt' msb lsb' (Hlow msb ltac:(lia))).
        apply (copied_mono k k0 k2 k'); [exact Hext0|exact Hext'| |apply Hcop2; lia].
        intros Hne. apply (Hown msb lsb' Hne).
      * specialize (Hrest msb' ltac:(lia)).
        destruct (l1_get pt_original msb') as [l2o'|].
        -- destruct Hrest as [Hex Hc]. split; [exact Hex|].
           intros lsb' Hlsb.
           apply (copied_mono k k2 k' k');
             [exact Hext02|apply k_ext_refl| |apply Hc, Hlsb].
           intros Hne'. apply (Hown msb' lsb' Hne').
        -- rewrite Hrest, Hoth2 by exact Hne. apply l1_get_insert_ne. congruence.
  - destruct (IH (S msb) pt_copy k pt' k' Hal Hown ltac:(lia) Hrun)
      as (Hal' & Hext' & Hlen' & Hlow & Hrest).
    split; [exact Hal'|]. split; [exact Hext'|]. split; [exact Hlen'|].
    split; [intros msb' Hlt; apply Hlow; lia|].
    intros msb' Hr. destruct (decide (msb' = msb)) as [->|Hne].
    + rewrite Hl2o. apply Hlow. lia.
    + apply Hrest. lia.
Qed.

(** ** as_copy that succeeds *)

Lemma as_create_spec (k k' : kernel) (a : addrspace) :
  as_create k = (Some a, k') ->
  a = mkAS (Some (replicate L1_PT_SIZE None)) [] USERSTACK /\
  k_ext k k' /\ (alloc_ok k -> alloc_ok k').
Proof.
  unfold as_create.
  destruct (kmalloc k) as [[j1|] k1] eqn:H1; [|discriminate].
  destruct (kmalloc k1) as [[j2|] k2] eqn:H2; [|discriminate].
  intros [= <- <-].
  destruct (kmalloc_ext _ _ _ H1) as [He1 Ha1].
  destruct (kmalloc_ext _ _ _ H2) as [He2 Ha2].
  split; [reflexivity|]. split; [exact (k_ext_trans _ _ _ He1 He2)|auto].
Qed.

Lemma copy_regions_spec (oldr : list region) :
  forall (newas newas' : addrspace) (k k' : kernel),
    copy_regions oldr newas k = (None, newas', k') ->
    pagetable newas' = pagetable newas /\
    stackbase newas' = stackbase newas /\
    regions newas' = regions newas ++ oldr /\
    k_ext k k' /\ (alloc_ok k -> alloc_ok k').
Proof.
  induction oldr as [|r next IH]; intros newas newas' k k' Hrun.
  { injection Hrun as <- <-. rewrite app_nil_r.
    split; [reflexivity|]. split; [reflexivity|]. split; [reflexivity|].
    split; [apply k_ext_refl|auto]. }
  cbn [copy_regions] in Hrun.
  destruct (kmalloc k) as [[junk|] k1] eqn:Hk; [|discriminate].
  destruct (kmalloc_ext _ _ _ Hk) as [He1 Ha1].
  destruct (IH _ _ _ _ Hrun) as (Hpt & Hsb & Hregs & He & Ha).
  split; [exact Hpt|]. split; [exact Hsb|].
  split; [|split; [exact (k_ext_trans _ _ _ He1 He)|auto]].
  rewrite Hregs. cbn [regions]. rewrite <- app_assoc. destruct r. reflexivity.
Qed.

Lemma copy_pt_l2_code (pt_original : l1_table) (msb : nat) (n : nat) :
  forall lsb pt_copy k code pt' k',
    copy_pt_l2 n lsb pt_original pt_copy msb k = (Some code, pt', k') ->
    code = ENOMEM.
Proof.
  induction n as [|n IH]; intros lsb pt_copy k code pt' k' Hrun; [discriminate|].
  rewrite copy_pt_l2_S in Hrun. cbv zeta in Hrun.
  destruct (_ =? 0); [exact (IH _ _ _ _ _ _ Hrun)|].
  destruct (alloc_kpages 1 k) as [v k1].
  destruct (v =? 0); [congruence|].
  destruct (memmove _ _ _ _) as [moved k3].
  destruct (moved =? 0); [|exact (IH _ _ _ _ _ _ Hrun)].
  destruct (destroy_pt _ _) as [freed k4]. congruence.
Qed.

Lemma copy_pt_l1_code (pt_original : l1_table) (n : nat) :
  forall msb pt_copy k code pt' k',
    copy_pt_l1 n msb pt_original pt_copy k = (Some code, pt', k') ->
    code = ENOMEM.
Proof.
  induction n as [|n IH]; intros msb pt_copy k code pt' k' Hrun; [discriminate|].
  cbn [copy_pt_l1] in Hrun.
  destruct (l1_get pt_original msb); [|exact (IH _ _ _ _ _ _ Hrun)].
  destruct (kmalloc k) as [[junk|] k0]; [|congruence].
  destruct (copy_pt_l2 _ _ _ _ _ _) as [[[c|] pt2] k2] eqn:Hin;
    [|exact (IH _ _ _ _ _ _ Hrun)].
  injection Hrun as <- <- <-. exact (copy_pt_l2_code _ _ _ _ _ _ _ _ _ Hin).
Qed.

(** What a successful [as_copy] did: it made an empty address space, copied
    the regions, and ran the copy loop of [copy_pt] to its end. *)
Lemma as_copy_success (old new : addrspace) (k k' : kernel) :
  as_copy old k = (0, Some new, k') ->
  exists pto ptn k0,
    pagetable old = Some pto /\ pagetable new = Some ptn /\
    regions new = regions old /\ stackbase new = stackbase old /\
    k_ext k k0 /\ (alloc_ok k -> alloc_ok k0) /\
    copy_pt_l1 L1_PT_SIZE 0 pto (replicate L1_PT_SIZE None) k0 = (None, ptn, k').
Proof.
  unfold as_copy.
  destruct (as_create k) as [[newas|] k1] eqn:Hc; [|discriminate].
  destruct (as_create_spec _ _ _ Hc) as (-> & He1 & Ha1). cbn [pagetable regions].
  destruct (copy_regions _ _ k1) as [[[code|] newas'] k2] eqn:Hr; [discriminate|].
  destruct (copy_regions_spec _ _ _ _ _ Hr) as (Hpt & Hsb & Hregs & He2 & Ha2).
  cbn [pagetable regions stackbase] in *. rewrite Hpt.
  unfold copy_pt. destruct (pagetable old) as [pto|]; [|discriminate].
  destruct (copy_pt_l1 _ _ _ _ k2) as [[[code|] ptn] k3] eqn:Hl.
  { rewrite (copy_pt_l1_code _ _ _ _ _ _ _ _ Hl). discriminate. }
  intros [= <- <-]. exists pto, ptn, k2.
  cbn [pagetable regions stackbase].
  split; [reflexivity|]. split; [reflexivity|]. split; [exact Hregs|].
  split; [exact Hsb|]. split; [exact (k_ext_trans _ _ _ He1 He2)|].
  split; [auto|exact Hl].
Qed.

Lemma l1_get_replicate_None (n msb : nat) :
  l1_get (replicate n (@None (list Z))) msb = None.
Proof.
  unfold l1_get. destruct (replicate n None !! msb) as [slot|] eqn:H; [|reflexivity].
  apply lookup_replicate in H. destruct H as [-> _]. reflexivity.
Qed.

(** Entry by entry, what the copy loop leaves in the new table. *)
Lemma as_copy_entries (old new : addrspace) (k k' : kernel) :
  alloc_ok k -> as_wf k old ->
  as_copy old k = (0, Some new, k') ->
  exists pto ptn k0,
    pagetable old = Some pto /\ pagetable new = Some ptn /\
    k_ext k k0 /\ k_ext k0 k' /\ alloc_ok k' /\
    length ptn = L1_PT_SIZE /\
    forall msb, (msb < L1_PT_SIZE)%nat ->
      match l1_get pto msb with
      | Some _ =>
        (exists l2', l1_get ptn msb = Some l2' /\ length l2' = L2_PT_SIZE) /\
        forall lsb, (lsb < L2_PT_SIZE)%nat ->
          copied k0 k' (pt_get pto msb lsb) (pt_get ptn msb lsb)
      | None => l1_get ptn msb = None
      end.
Proof.
  intros Hal Hwf Hcopy.
  destruct (as_copy_success _ _ _ _ Hcopy)
    as (pto & ptn & k0 & Hpto & Hptn & _ & _ & He0 & Ha0 & Hloop).
  unfold as_wf in Hwf. rewrite Hpto in Hwf. destruct Hwf as [_ Hown].
  assert (Hlen0 : (0 + L1_PT_SIZE <= length (replicate L1_PT_SIZE (@None (list Z))))%nat).
  { rewrite length_replicate. lia. }
  destruct (copy_pt_l1_spec pto L1_PT_SIZE 0 _ k0 ptn k' (Ha0 Hal)
              (pt_owned_ext _ _ _ He0 Hown) Hlen0 Hloop)
    as (Hal' & Hext' & Hlen' & _ & Hall).
  exists pto, ptn, k0. split; [exact Hpto|]. split; [exact Hptn|].
  split; [exact He0|]. split; [exact Hext'|]. split; [exact Hal'|].
  split; [rewrite Hlen'; apply length_replicate|].
  intros msb Hmsb. specialize (Hall msb ltac:(lia)).
  destruct (l1_get pto msb); [exact Hall|].
  rewrite Hall. apply l1_get_replicate_None.
Qed.

(** X18. Under the page allocator's contract [alloc_ok] and the ownership
    invariant [as_wf] of the source (every present entry is a valid entry
    that names a held frame), when [as_copy] succeeds, then for every pair
    of indices: the old entry is present exactly when the new one is, and
    for a present entry the two frames hold the same bytes, the frame
    numbers differ, and the new entry has the dirty (writable) and valid
    bits of the old one. The new frame is one that was not held before the
    copy, and the old frame still holds what it held. *)
Theorem X18_copy_preserves_pages (old new : addrspace) (k k' : kernel)
    (Halloc : alloc_ok k) (Hwf : as_wf k old)
    (Hcopy : as_copy old k = (0, Some new, k')) :
  exists pto ptn,
    pagetable old = Some pto /\ pagetable new = Some ptn /\
    forall msb lsb, (msb < L1_PT_SIZE)%nat -> (lsb < L2_PT_SIZE)%nat ->
      let eo := pt_get pto msb lsb in
      let en := pt_get ptn msb lsb in
      pte_exists (Some ptn) (Z.of_nat msb) (Z.of_nat lsb)
      = pte_exists (Some pto) (Z.of_nat msb) (Z.of_nat lsb) /\
      (eo <> 0 <-> en <> 0) /\
      (eo <> 0 ->
       (forall i, (i < Z.to_nat PAGE_SIZE)%nat ->
          mem_byte k' (frame_of en) i = mem_byte k' (frame_of eo) i) /\
       Z.shiftr en 12 <> Z.shiftr eo 12 /\
       Z.land en TLBLO_DIRTY = Z.land eo TLBLO_DIRTY /\
       Z.land en TLBLO_VALID = Z.land eo TLBLO_VALID /\
       frame_of en ∈ k_used k' /\ (frame_of en ∉ k_used k) /\
       frame_of eo ∈ k_used k' /\
       (forall i, mem_byte k' (frame_of eo) i = mem_byte k (frame_of eo) i)).
Proof.
  destruct (as_copy_entries _ _ _ _ Halloc Hwf Hcopy)
    as (pto & ptn & k0 & Hpto & Hptn & He0 & He' & _ & _ & Hall).
  exists pto, ptn. split; [exact Hpto|]. split; [exact Hptn|].
  intros msb lsb Hmsb Hlsb eo en.
  unfold as_wf in Hwf. rewrite Hpto in Hwf. destruct Hwf as [_ Hown].
  assert (Hcop : copied k0 k' eo en).
  { specialize (Hall msb Hmsb). unfold eo, en, pt_get.
    destruct (l1_get pto msb) as [l2o|] eqn:Hl2o.
    - destruct Hall as [_ Hc]. specialize (Hc lsb Hlsb).
      unfold pt_get in Hc. rewrite Hl2o in Hc. exact Hc.
    - rewrite Hall. split; [reflexivity|congruence]. }
  destruct Hcop as [Hz Hnz].
  assert (Hiff : eo <> 0 <-> en <> 0).
  { split.
    - intros Hne. destruct (Hnz Hne) as (v & -> & _). apply lor_valid_nonzero.
    - intros Hne Heo. exact (Hne (Hz Heo)). }
  split.
  { rewrite !pte_exists_get, !Nat2Z.id. fold eo en.
    destruct (Z.eqb_spec en 0) as [E1|E1]; destruct (Z.eqb_spec eo 0) as [E2|E2];
      try reflexivity; tauto. }
  split; [exact Hiff|].
  intros Hne. destruct (Hnz Hne) as (v & Hen & Hok & Hv' & Hv0 & Hbytes).
  destruct (Hown msb lsb Hne) as [Hvalid Hsrc]. fold eo in Hvalid, Hsrc.
  assert (Hfr : frame_of en = v).
  { rewrite Hen. apply frame_of_entry; [exact Hok|apply land_dirty_frame]. }
  assert (Hsrc0 : frame_of eo ∈ k_used k0) by (destruct He0 as [Hu _]; apply Hu, Hsrc).
  assert (Hold : forall i, mem_byte k' (frame_of eo) i = mem_byte k0 (frame_of eo) i).
  { intros i. apply (k_ext_mem_byte k0 k'); assumption. }
  rewrite Hfr.
  split; [intros i Hi; rewrite Hold; apply Hbytes, Hi|].
  split.
  { intros Hpfn. apply frame_of_pfn in Hpfn. rewrite Hfr in Hpfn.
    apply Hv0. rewrite Hpfn. exact Hsrc0. }
  split; [rewrite Hen; apply entry_dirty_bit|].
  split; [rewrite Hen, Hvalid; apply entry_valid_bit|].
  split; [exact Hv'|].
  split; [intros Hin; apply Hv0; destruct He0 as [Hu _]; apply Hu, Hin|].
  split; [destruct He' as [Hu _]; apply Hu, Hsrc0|].
  intros i. rewrite Hold. apply (k_ext_mem_byte k k0); assumption.
Qed.

(** ** The invariants are kept *)

Lemma fault_page_u32 (addr : Z) : is_u32 (Z.land addr PAGE_FRAME).
Proof.
  rewrite land_PAGE_FRAME, Z.land_ones, Z.shiftl_mul_pow2 by lia.
  pose proof (Z.mod_pos_bound (Z.shiftr addr 12) (2 ^ 20) ltac:(lia)).
  unfold is_u32. lia.
Qed.

Lemma pt_get_replicate_None (n msb lsb : nat) :
  pt_get (replicate n None) msb lsb = 0.
Proof. unfold pt_get. rewrite l1_get_replicate_None. reflexivity. Qed.

Lemma l2_get_replicate_0 (n lsb : nat) : l2_get (replicate n 0) lsb = 0.
Proof.
  unfold l2_get. destruct (replicate n 0 !! lsb) as [x|] eqn:H; [|reflexivity].
  apply lookup_replicate in H. destruct H as [-> _]. reflexivity.
Qed.

Lemma as_create_wf (k k' : kernel) (a : addrspace) :
  as_create k = (Some a, k') -> as_wf k' a.
Proof.
  intros H. destruct (as_create_spec _ _ _ H) as (-> & _ & _).
  split; [apply pt_wf_empty|].
  intros msb lsb Hne. rewrite pt_get_replicate_None in Hne. congruence.
Qed.

Lemma as_wf_ext (k k' : kernel) (a : addrspace) :
  k_ext k k' -> as_wf k a -> as_wf k' a.
Proof.
  unfold as_wf. intros He. destruct (pagetable a); [|auto].
  intros [Hwf Hown]. split; [exact Hwf|exact (pt_owned_ext _ _ _ He Hown)].
Qed.

Lemma as_define_region_wf (a a' : addrspace) (vaddr memsize r w x res : Z)
    (k k' : kernel) :
  as_define_region a vaddr memsize r w x k = (res, a', k') ->
  pagetable a' = pagetable a /\ k_ext k k' /\ (alloc_ok k -> alloc_ok k') /\
  k_curproc k' = k_curproc k /\ (as_wf k a -> as_wf k' a').
Proof.
  unfold as_define_region.
  destruct (kmalloc k) as [[junk|] k1] eqn:Hk; intros [= <- <- <-];
    destruct (kmalloc_ext _ _ _ Hk) as [He Ha];
    destruct (kmalloc_frame _ _ _ Hk) as (_ & _ & _ & _ & _ & Hc);
    (split; [reflexivity|]); (split; [exact He|]); (split; [exact Ha|]);
    (split; [exact Hc|]); intros Hwf; apply (as_wf_ext k); assumption.
Qed.

(** [create_pte] keeps the allocator contract and the page-table
    invariant, whatever it returns. *)
Lemma create_pte_wf (pt pt' : l1_table) (msb lsb dirty res : Z) (k k' : kernel) :
  alloc_ok k -> pt_wf pt -> pt_owned k pt ->
  (Z.to_nat msb < L1_PT_SIZE)%nat -> (Z.to_nat lsb < L2_PT_SIZE)%nat ->
  Z.land dirty PAGE_FRAME = 0 ->
  create_pte pt msb lsb dirty k = (res, pt', k') ->
  alloc_ok k' /\ pt_wf pt' /\ pt_owned k' pt' /\ k_ext k k'.
Proof.
  intros Hal [Hlen Hl2len] Hown Hmsb Hlsb Hd. unfold create_pte.
  assert (Hfirst : exists r1 pt1 k1,
            match l1_get pt (Z.to_nat msb) with
            | Some _ => (0, pt, k)
            | None => create_pt_l2 pt msb k
            end = (r1, pt1, k1) /\
            alloc_ok k1 /\ pt_wf pt1 /\ pt_owned k1 pt1 /\ k_ext k k1 /\
            (r1 = 0 -> exists l2, l1_get pt1 (Z.to_nat msb) = Some l2)).
  { destruct (l1_get pt (Z.to_nat msb)) as [l2|] eqn:Hl2.
    - eexists _, _, _. split; [reflexivity|]. split; [exact Hal|].
      split; [split; assumption|]. split; [exact Hown|].
      split; [apply k_ext_refl|]. intros _. exists l2. exact Hl2.
    - unfold create_pt_l2. rewrite Hl2.
      destruct (kmalloc k) as [[junk|] k1] eqn:Hk;
        destruct (kmalloc_ext _ _ _ Hk) as [He Ha].
      + eexists _, _, _. split; [reflexivity|]. split; [exact (Ha Hal)|].
        assert (Hnew : l1_get (<[Z.to_nat msb := Some (replicate L2_PT_SIZE 0)]> pt)
                         (Z.to_nat msb) = Some (replicate L2_PT_SIZE 0)).
        { apply l1_get_insert_eq. rewrite Hlen. exact Hmsb. }
        split; [|split; [|split; [exact He|eauto]]].
        * split; [rewrite length_insert; exact Hlen|].
          intros m l2. destruct (decide (Z.to_nat msb = m)) as [<-|Hne].
          -- rewrite Hnew. intros [= <-]. apply length_replicate.
          -- rewrite l1_get_insert_ne by exact Hne. apply Hl2len.
        * intros m l. unfold pt_get.
          destruct (decide (Z.to_nat msb = m)) as [<-|Hne].
          -- rewrite Hnew, l2_get_replicate_0. congruence.
          -- rewrite l1_get_insert_ne by exact Hne.
             apply (pt_owned_ext _ _ _ He Hown m l).
      + eexists _, _, _. split; [reflexivity|]. split; [exact (Ha Hal)|].
        split; [split; assumption|]. split; [exact (pt_owned_ext _ _ _ He Hown)|].
        split; [exact He|]. discriminate. }
  destruct Hfirst as (r1 & pt1 & k1 & -> & Hal1 & Hwf1 & Hown1 & He1 & Hsome).
  destruct (Z.eqb_spec r1 0) as [->|Hr1]; simpl negb; cbv iota;
    [|intros [= <- <- <-]; auto].
  destruct (Hsome eq_refl) as [l2 Hl2].
  destruct (negb (pt_get pt1 (Z.to_nat msb) (Z.to_nat lsb) =? 0));
    [intros [= <- <- <-]; auto|].
  destruct (alloc_kpages 1 k1) as [v k2] eqn:Halloc.
  destruct (Z.eqb_spec v 0) as [->|Hv].
  { intros [= <- <- <-]. revert Halloc. unfold alloc_kpages.
    destruct (k_free k1) as [|p rest] eqn:Hf.
    - intros [= <-]. auto.
    - intros [= -> <-]. destruct Hal1 as [_ Hfr].
      destruct (Hfr 0 ltac:(rewrite Hf; left)) as [_ [[Hlo _] _]].
      unfold MIPS_KSEG0 in Hlo. lia. }
  intros [= <- <- <-].
  destruct (alloc_kpages_fresh _ _ _ Hal1 Halloc Hv)
    as (Hok & Hfresh & Hin2 & [Hu2 Hm2] & Hal2 & Hmem2).
  split; [exact Hal2|].
  destruct Hwf1 as [Hlen1 Hl2len1].
  split.
  { split; [rewrite length_pt_set; exact Hlen1|].
    intros m l2'. rewrite l1_get_set.
    destruct (decide (Z.to_nat msb = m)) as [<-|Hne]; [|apply Hl2len1].
    rewrite Hl2. intros [= <-]. rewrite length_insert. apply (Hl2len1 _ _ Hl2). }
  split.
  { intros m l.
    destruct (decide (Z.to_nat msb = m)) as [<-|Hne];
      [destruct (decide (Z.to_nat lsb = l)) as [<-|Hnel]|].
    - rewrite (pt_get_set_eq _ _ _ l2 _ Hl2)
        by (rewrite (Hl2len1 _ _ Hl2); exact Hlsb).
      intros _. split; [apply entry_valid_bit|].
      rewrite frame_of_entry by assumption. exact Hin2.
    - rewrite pt_get_set_ne_lsb by exact Hnel. intros Hne.
      destruct (Hown1 _ _ Hne) as [Hv1 Hi1]. split; [exact Hv1|].
      simpl. apply Hu2, Hi1.
    - rewrite pt_get_set_ne_msb by exact Hne. intros Hne'.
      destruct (Hown1 _ _ Hne') as [Hv1 Hi1]. split; [exact Hv1|].
      simpl. apply Hu2, Hi1. }
  apply (k_ext_trans _ _ _ He1). split; [simpl; exact Hu2|].
  intros u Hu. unfold bzero. cbn [k_mem set_mem].
  rewrite lookup_insert_ne by (intros ->; exact (Hfresh Hu)).
  apply Hm2, Hu.
Qed.

Lemma same_pages (k k' : kernel) :
  k_mem k' = k_mem k -> k_used k' = k_used k -> k_free k' = k_free k ->
  k_ext k k' /\ (alloc_ok k -> alloc_ok k').
Proof.
  intros Hm Hu Hf. split.
  - split; [rewrite Hu; reflexivity|]. intros v _. rewrite Hm. reflexivity.
  - unfold alloc_ok. rewrite Hu, Hf. auto.
Qed.

(** A fault keeps the invariant, and the address space stays current. *)
Lemma vm_fault_wf (ft addr : Z) (k : kernel) (a : addrspace) :
  alloc_ok k -> proc_getas k = Some a -> as_wf k a ->
  alloc_ok (snd (vm_fault ft addr k)) /\
  k_ext k (snd (vm_fault ft addr k)) /\
  exists a', proc_getas (snd (vm_fault ft addr k)) = Some a' /\
             as_wf (snd (vm_fault ft addr k)) a' /\
             regions a' = regions a /\ stackbase a' = stackbase a.
Proof.
  intros Hal Hproc Hwf.
  assert (Hstay : alloc_ok k /\ k_ext k k /\
            exists a', proc_getas k = Some a' /\ as_wf k a' /\
                       regions a' = regions a /\ stackbase a' = stackbase a).
  { split; [exact Hal|]. split; [apply k_ext_refl|]. exists a. auto. }
  destruct (vm_fault_cases ft addr k)
    as [(e & _ & Heq) | (a0 & pt & Hft & Hnz & Hproc0 & Hpt & Hregs)].
  { rewrite Heq. exact Hstay. }
  rewrite Hproc in Hproc0. injection Hproc0 as <-.
  rewrite (vm_fault_enter ft addr k a pt Hft Hnz Hproc Hpt Hregs). cbv zeta.
  destruct (proc_getas_curproc _ _ Hproc) as [p Hp].
  assert (Hload : forall pt1 k1,
            alloc_ok k1 -> k_ext k k1 -> k_curproc k1 <> None ->
            proc_getas k1 = Some (mkAS (Some pt1) (regions a) (stackbase a)) ->
            pt_wf pt1 -> pt_owned k1 pt1 ->
            let r := vm_fault_load (Z.land addr PAGE_FRAME)
                       (pt_msb (Z.land addr PAGE_FRAME))
                       (pt_lsb (Z.land addr PAGE_FRAME)) pt1 k1 in
            alloc_ok (snd r) /\ k_ext k (snd r) /\
            exists a', proc_getas (snd r) = Some a' /\ as_wf (snd r) a' /\
                       regions a' = regions a /\ stackbase a' = stackbase a).
  { intros pt1 k1 Hal1 He1 Hc1 Hp1 Hwf1 Hown1. cbv zeta.
    rewrite vm_fault_load_eq. cbn [snd].
    set (k2 := splx _ _).
    destruct (same_pages k1 k2 eq_refl eq_refl eq_refl) as [He2 Ha2].
    split; [exact (Ha2 Hal1)|]. split; [exact (k_ext_trans _ _ _ He1 He2)|].
    eexists. split; [exact Hp1|]. split; [|split; reflexivity].
    split; [exact Hwf1|exact (pt_owned_ext _ _ _ He2 Hown1)]. }
  unfold as_wf in Hwf. rewrite Hpt in Hwf. destruct Hwf as [Hptwf Hown].
  assert (Ha_eq : a = mkAS (Some pt) (regions a) (stackbase a)).
  { destruct a as [pta ra sa]. simpl in *. subst pta. reflexivity. }
  destruct (negb (pte_exists (Some pt) _ _)).
  - destruct (find_region _ (regions a)) as [r|]; [|exact Hstay].
    destruct (negb (Z.land (flags r) PF_W =? PF_W) && (ft =? VM_FAULT_WRITE));
      [exact Hstay|].
    destruct (create_pte pt _ _ _ k) as [[res pt'] k1] eqn:Hc.
    destruct (create_pte_frame _ _ _ _ _ _ _ _ Hc) as (_ & _ & Hcp & _).
    assert (Hmsb : (Z.to_nat (pt_msb (Z.land addr PAGE_FRAME)) < L1_PT_SIZE)%nat).
    { pose proof (pt_msb_range _ (fault_page_u32 addr)).
      change L1_PT_SIZE with 2048%nat. lia. }
    assert (Hlsb : (Z.to_nat (pt_lsb (Z.land addr PAGE_FRAME)) < L2_PT_SIZE)%nat).
    { pose proof (pt_lsb_range (Z.land addr PAGE_FRAME)).
      change L2_PT_SIZE with 512%nat. lia. }
    assert (Hdirty : Z.land (if Z.land (flags r) PF_W =? PF_W
                             then TLBLO_DIRTY else 0) PAGE_FRAME = 0).
    { destruct (_ =? PF_W); reflexivity. }
    destruct (create_pte_wf pt pt' _ _ _ res k k1 Hal Hptwf Hown Hmsb Hlsb Hdirty Hc)
      as (Hal1 & Hwf1 & Hown1 & He1).
    set (k2 := set_curas (mkAS (Some pt') (regions a) (stackbase a)) k1).
    destruct (set_curas_frame (mkAS (Some pt') (regions a) (stackbase a)) k1)
      as (_ & Hu2 & Hm2 & Hf2). fold k2 in Hu2, Hm2, Hf2.
    destruct (same_pages k1 k2 Hm2 Hu2 Hf2) as [He2 Ha2].
    assert (Hp2 : proc_getas k2 = Some (mkAS (Some pt') (regions a) (stackbase a))).
    { apply set_curas_regions. congruence. }
    assert (Hc2 : k_curproc k2 <> None).
    { unfold k2, set_curas. rewrite Hcp, Hp. discriminate. }
    destruct (negb (res =? 0)).
    + cbn [snd]. split; [exact (Ha2 Hal1)|].
      split; [exact (k_ext_trans _ _ _ He1 He2)|].
      eexists. split; [exact Hp2|]. split; [|split; reflexivity].
      split; [exact Hwf1|exact (pt_owned_ext _ _ _ He2 Hown1)].
    + apply Hload; auto.
      * exact (k_ext_trans _ _ _ He1 He2).
      * exact (pt_owned_ext _ _ _ He2 Hown1).
  - apply Hload; auto.
    + apply k_ext_refl.
    + congruence.
    + rewrite Hproc. f_equal. exact Ha_eq.
Qed.

Lemma boot_wf (free : list Z) (heap : nat) :
  NoDup free -> Forall page_ok free -> kernel_wf (boot free heap).
Proof.
  intros Hnd Hall. split; [|exact I]. split; [exact Hnd|].
  intros v Hv. split; [apply not_elem_of_empty|].
  rewrite Forall_forall in Hall. apply Hall. exact Hv.
Qed.

Lemma run_create_wf (k : kernel) : kernel_wf k -> kernel_wf (run_create k).
Proof.
  intros [Hal Hcur]. unfold run_create.
  destruct (as_create k) as [[a|] k1] eqn:Hc.
  - destruct (as_create_spec _ _ _ Hc) as (_ & He & Ha).
    split; [exact (Ha Hal)|]. simpl. exact (as_create_wf _ _ _ Hc).
  - revert Hc. unfold as_create.
    destruct (kmalloc k) as [[j1|] k2] eqn:H1.
    + destruct (kmalloc k2) as [[j2|] k3] eqn:H2; [discriminate|].
      intros [= <-].
      destruct (kmalloc_ext _ _ _ H1) as [He1 Ha1].
      destruct (kmalloc_ext _ _ _ H2) as [He2 Ha2].
      destruct (kmalloc_frame _ _ _ H1) as (_ & _ & _ & _ & _ & Hc1).
      destruct (kmalloc_frame _ _ _ H2) as (_ & _ & _ & _ & _ & Hc2).
      split; [exact (Ha2 (Ha1 Hal))|].
      unfold proc_getas in *. simpl. rewrite Hc2, Hc1.
      destruct (k_curproc k) as [[[a|]]|]; try exact I.
      apply (as_wf_ext k); [exact (k_ext_trans _ _ _ He1 He2)|exact Hcur].
    + intros [= <-].
      destruct (kmalloc_ext _ _ _ H1) as [He1 Ha1].
      destruct (kmalloc_frame _ _ _ H1) as (_ & _ & _ & _ & _ & Hc1).
      split; [exact (Ha1 Hal)|].
      unfold proc_getas in *. rewrite Hc1.
      destruct (k_curproc k) as [[[a|]]|]; try exact I.
      apply (as_wf_ext k); assumption.
Qed.

Lemma run_define_wf (vaddr memsize r w x : Z) (k : kernel) :
  kernel_wf k -> kernel_wf (run_define vaddr memsize r w x k).
Proof.
  intros [Hal Hcur]. unfold run_define.
  destruct (proc_getas k) as [a|] eqn:Hp; [|split; [exact Hal|rewrite Hp; exact I]].
  destruct (as_define_region a vaddr memsize r w x k) as [[res a'] k1] eqn:Hd.
  destruct (as_define_region_wf _ _ _ _ _ _ _ _ _ _ Hd) as (_ & He & Ha & Hc & Hwf).
  destruct (proc_getas_curproc _ _ Hp) as [p Hpp].
  destruct (set_curas_frame a' k1) as (_ & Hu & Hm & Hf).
  destruct (same_pages k1 (set_curas a' k1) Hm Hu Hf) as [He2 Ha2].
  split; [exact (Ha2 (Ha Hal))|].
  rewrite set_curas_regions by congruence.
  apply (as_wf_ext k1); [exact He2|exact (Hwf Hcur)].
Qed.

Lemma run_fault_wf (ft addr : Z) (k : kernel) :
  kernel_wf k -> kernel_wf (run_fault ft addr k).
Proof.
  intros [Hal Hcur]. unfold run_fault.
  destruct (proc_getas k) as [a|] eqn:Hp.
  - destruct (vm_fault_wf ft addr k a Hal Hp Hcur) as (Hal' & _ & a' & Hp' & Hwf' & _).
    split; [exact Hal'|]. rewrite Hp'. exact Hwf'.
  - destruct (vm_fault_cases ft addr k) as [(e & _ & Heq)|(a & pt & _ & _ & Hp' & _)];
      [|congruence].
    rewrite Heq. split; [exact Hal|]. simpl. rewrite Hp. exact I.
Qed.

(** A successful copy keeps the invariant for the old address space and
    establishes it for the new one. *)
Lemma as_copy_wf (old new : addrspace) (k k' : kernel) :
  alloc_ok k -> as_wf k old ->
  as_copy old k = (0, Some new, k') ->
  alloc_ok k' /\ as_wf k' old /\ as_wf k' new /\
  regions new = regions old /\ stackbase new = stackbase old.
Proof.
  intros Hal Hwf Hcopy.
  destruct (as_copy_success _ _ _ _ Hcopy)
    as (pto0 & ptn0 & k00 & _ & _ & Hregs & Hsb & _).
  destruct (as_copy_entries _ _ _ _ Hal Hwf Hcopy)
    as (pto & ptn & k0 & Hpto & Hptn & He0 & He' & Hal' & Hlen & Hall).
  split; [exact Hal'|].
  split; [exact (as_wf_ext _ _ _ (k_ext_trans _ _ _ He0 He') Hwf)|].
  split; [|split; assumption].
  unfold as_wf. rewrite Hptn.
  assert (Hslot : forall msb l2, l1_get ptn msb = Some l2 ->
            (msb < L1_PT_SIZE)%nat /\ length l2 = L2_PT_SIZE /\
            exists l2o, l1_get pto msb = Some l2o).
  { intros msb l2 Hl2. pose proof (l1_get_Some_lt _ _ _ Hl2) as Hlt.
    rewrite Hlen in Hlt. split; [exact Hlt|]. specialize (Hall msb Hlt).
    destruct (l1_get pto msb) as [l2o|]; [|congruence].
    destruct Hall as [(l2' & Hl2' & Hl2len) _].
    split; [congruence|eauto]. }
  split; [split; [exact Hlen|intros msb l2 H; apply (Hslot msb l2 H)]|].
  intros msb lsb Hne.
  destruct (l1_get ptn msb) as [l2|] eqn:Hl2;
    [|unfold pt_get in Hne; rewrite Hl2 in Hne; congruence].
  destruct (Hslot msb l2 Hl2) as (Hlt & Hl2len & l2o & Hl2o).
  assert (Hlsb : (lsb < L2_PT_SIZE)%nat).
  { destruct (Nat.lt_ge_cases lsb L2_PT_SIZE) as [H|H]; [exact H|].
    exfalso. apply Hne. unfold pt_get, l2_get. rewrite Hl2.
    rewrite lookup_ge_None_2 by lia. reflexivity. }
  specialize (Hall msb Hlt). rewrite Hl2o in Hall.
  destruct Hall as [_ Hc]. destruct (Hc lsb Hlsb) as [Hz Hnz].
  destruct (Z.eq_dec (pt_get pto msb lsb) 0) as [E|E]; [exfalso; auto|].
  destruct (Hnz E) as (v & Hen & Hok & Hv' & _).
  rewrite Hen. split; [apply entry_valid_bit|].
  rewrite frame_of_entry; [exact Hv'|exact Hok|apply land_dirty_frame].
Qed.

Lemma kernel_resident2_wf :
  alloc_ok kernel_resident2 /\ as_wf kernel_resident2 resident_as.
Proof.
  assert (H : kernel_wf kernel_resident2).
  { apply run_fault_wf, run_define_wf, run_create_wf, boot_wf.
    - apply NoDup_cons. split; [|apply NoDup_singleton].
      intros Hin. apply list_elem_of_singleton in Hin. discriminate.
    - repeat constructor; unfold MIPS_KSEG0; try lia; reflexivity. }
  destruct H as [Hal Hcur]. split; [exact Hal|].
  change (proc_getas kernel_resident2) with (Some resident_as) in Hcur.
  exact Hcur.
Qed.

Lemma X18_copy_preserves_pages_witness :
  exists pto ptn,
    pagetable resident_as = Some pto /\ pagetable copy_new = Some ptn /\
    forall msb lsb, (msb < L1_PT_SIZE)%nat -> (lsb < L2_PT_SIZE)%nat ->
      let eo := pt_get pto msb lsb in
      let en := pt_get ptn msb lsb in
      pte_exists (Some ptn) (Z.of_nat msb) (Z.of_nat lsb)
      = pte_exists (Some pto) (Z.of_nat msb) (Z.of_nat lsb) /\
      (eo <> 0 <-> en <> 0) /\
      (eo <> 0 ->
       (forall i, (i < Z.to_nat PAGE_SIZE)%nat ->
          mem_byte copy_kernel (frame_of en) i
          = mem_byte copy_kernel (frame_of eo) i) /\
       Z.shiftr en 12 <> Z.shiftr eo 12 /\
       Z.land en TLBLO_DIRTY = Z.land eo TLBLO_DIRTY /\
       Z.land en TLBLO_VALID = Z.land eo TLBLO_VALID /\
       frame_of en ∈ k_used copy_kernel /\
       (frame_of en ∉ k_used kernel_resident2) /\
       frame_of eo ∈ k_used copy_kernel /\
       (forall i, mem_byte copy_kernel (frame_of eo) i
                  = mem_byte kernel_resident2 (frame_of eo) i)).
Proof.
  apply (X18_copy_preserves_pages resident_as copy_new kernel_resident2 copy_kernel).
  - exact (proj1 kernel_resident2_wf).
  - exact (proj2 kernel_resident2_wf).
  - vm_compute. reflexivity.
Defined.

(** ** The region scan *)

(** When a region's end does not wrap around 32 bits, the range test of
    line 164 is containment in [vbase, vbase + size). *)
Lemma range_test_exact (r : region) (fa : Z) :
  is_u32 (as_vbase r + size r) ->
  ((fa <? wrap32 (as_vbase r + size r)) && (as_vbase r <=? fa) = true
   <-> as_vbase r <= fa < as_vbase r + size r).
Proof.
  intros Hu. rewrite (wrap32_small _ Hu), andb_true_iff, Z.ltb_lt, Z.leb_le. lia.
Qed.

(** [find_region] returns the first region of the list that passes the
    range test. *)
Lemma find_region_first (fa : Z) (l : list region) (r : region) :
  find_region fa l = Some r <->
  exists l1 l2,
    l = l1 ++ r :: l2 /\
    (fa <? wrap32 (as_vbase r + size r)) && (as_vbase r <=? fa) = true /\
    Forall (fun r' => (fa <? wrap32 (as_vbase r' + size r'))
                      && (as_vbase r' <=? fa) = false) l1.
Proof.
  induction l as [|r0 l IH]; simpl.
  - split; [discriminate|]. intros (l1 & l2 & H & _). destruct l1; discriminate.
  - destruct ((fa <? wrap32 (as_vbase r0 + size r0)) && (as_vbase r0 <=? fa)) eqn:Ht.
    + split.
      * intros [= <-]. exists [], l. split; [reflexivity|]. split; [exact Ht|constructor].
      * intros (l1 & l2 & Hl & Hr & Hall). destruct l1 as [|r1 l1].
        -- injection Hl as -> _. reflexivity.
        -- injection Hl as -> _. apply Forall_cons in Hall as [Hf _]. congruence.
    + rewrite IH. split.
      * intros (l1 & l2 & -> & Hr & Hall). exists (r0 :: l1), l2.
        split; [reflexivity|]. split; [exact Hr|]. constructor; assumption.
      * intros (l1 & l2 & Hl & Hr & Hall). destruct l1 as [|r1 l1].
        -- injection Hl as -> _. congruence.
        -- injection Hl as _ ->. apply Forall_cons in Hall as [_ Hall].
           exists l1, l2. auto.
Qed.

(** * Further properties of the code *)

(** ** What each step leaves alone *)

Lemma kfree_frame (k : kernel) :
  k_mem (kfree k) = k_mem k /\ k_used (kfree k) = k_used k /\
  k_free (kfree k) = k_free k /\ k_tlb (kfree k) = k_tlb k /\
  k_spl (kfree k) = k_spl k /\ k_curproc (kfree k) = k_curproc k /\
  k_heap (kfree k) = k_heap k /\ k_live (kfree k) = k_live k - 1.
Proof. repeat split; reflexivity. Qed.

Lemma free_kpages_frame (v : Z) (k : kernel) :
  k_mem (free_kpages v k) = k_mem k /\ k_tlb (free_kpages v k) = k_tlb k /\
  k_spl (free_kpages v k) = k_spl k /\
  k_curproc (free_kpages v k) = k_curproc k /\
  k_heap (free_kpages v k) = k_heap k /\ k_live (free_kpages v k) = k_live k.
Proof. unfold free_kpages. destruct (decide _); repeat split; reflexivity. Qed.

Lemma kmalloc_live (k k' : kernel) (o : option (nat -> Z)) :
  kmalloc k = (o, k') ->
  k_live k' = k_live k + match o with Some _ => 1 | None => 0 end /\
  k_heap k = match k_heap k with [] => [] | _ :: _ => o :: k_heap k' end.
Proof.
  unfold kmalloc. destruct (k_heap k) as [|[junk|] rest]; intros [= <- <-];
    split; simpl; try lia; reflexivity.
Qed.

(** ** as_create *)

(** X1. [as_create] takes no page and writes neither memory nor the TLB.
    When it succeeds the new address space has no region, the stack base
    USERSTACK and a page table of the right size in which no entry exists,
    and exactly two heap blocks were taken; when it returns NULL no heap
    block is kept (the record is freed if the table cannot be allocated). *)
Theorem X1_as_create_accounting (k : kernel) :
  k_mem (snd (as_create k)) = k_mem k /\
  k_used (snd (as_create k)) = k_used k /\
  k_free (snd (as_create k)) = k_free k /\
  k_tlb (snd (as_create k)) = k_tlb k /\
  k_curproc (snd (as_create k)) = k_curproc k /\
  match fst (as_create k) with
  | Some a =>
    regions a = [] /\ stackbase a = USERSTACK /\
    (exists pt, pagetable a = Some pt /\ pt_wf pt /\
                forall msb lsb, pte_exists (Some pt) msb lsb = false) /\
    k_live (snd (as_create k)) = k_live k + 2
  | None => k_live (snd (as_create k)) = k_live k
  end.
Proof.
  unfold as_create.
  destruct (kmalloc k) as [[j1|] k1] eqn:H1;
    destruct (kmalloc_frame _ _ _ H1) as (Hm1 & Hu1 & Hf1 & Ht1 & _ & Hc1);
    destruct (kmalloc_live _ _ _ H1) as [Hl1 _]; cbn [fst snd].
  - destruct (kmalloc k1) as [[j2|] k2] eqn:H2;
      destruct (kmalloc_frame _ _ _ H2) as (Hm2 & Hu2 & Hf2 & Ht2 & _ & Hc2);
      destruct (kmalloc_live _ _ _ H2) as [Hl2 _]; cbn [fst snd].
    + repeat (split; [congruence|]).
      split; [reflexivity|]. split; [reflexivity|].
      split; [|lia].
      eexists. split; [reflexivity|]. split; [apply pt_wf_empty|].
      intros msb lsb. rewrite pte_exists_get, pt_get_replicate_None. reflexivity.
    + cbn [kfree set_heap k_mem k_used k_free k_tlb k_curproc k_live].
      repeat (split; [congruence|]). lia.
  - repeat (split; [congruence|]). lia.
Qed.

(** ** as_activate *)

#[local] Opaque NUM_TLB.

Lemma tlb_flush_log (n : nat) :
  forall (i : Z) (k : kernel),
    k_tlb (tlb_flush n i k)
    = reverse (map (fun j => TlbWrite (TLBHI_INVALID j) TLBLO_INVALID j)
                 (seqZ i (Z.of_nat n))) ++ k_tlb k /\
    k_mem (tlb_flush n i k) = k_mem k /\ k_used (tlb_flush n i k) = k_used k /\
    k_free (tlb_flush n i k) = k_free k /\ k_spl (tlb_flush n i k) = k_spl k /\
    k_curproc (tlb_flush n i k) = k_curproc k /\
    k_heap (tlb_flush n i k) = k_heap k /\ k_live (tlb_flush n i k) = k_live k.
Proof.
  induction n as [|n IH]; intros i k.
  { repeat split; reflexivity. }
  cbn [tlb_flush].
  destruct (IH (i + 1) (tlb_write (TLBHI_INVALID i) TLBLO_INVALID i k))
    as (Ht & Hm & Hu & Hf & Hs & Hc & Hh & Hl).
  split; [|repeat split; assumption].
  rewrite Ht. rewrite (seqZ_cons i (Z.of_nat (S n))) by lia.
  replace (Z.pred (Z.of_nat (S n))) with (Z.of_nat n) by lia.
  replace (Z.succ i) with (i + 1) by lia.
  cbn [map]. rewrite reverse_cons, <- app_assoc. reflexivity.
Qed.

(** X5. When the current process has an address space, [as_activate] (and
    [as_deactivate], and the end of a successful [as_complete_load]) writes
    every TLB slot from 0 to NUM_TLB-1 once, in this order, with the slot's
    invalid pair, and returns with the interrupt level it was entered with;
    memory, the held and free pages, the heap and the current process are
    as before. Without a current address space it does nothing. *)
Theorem X5_as_activate_flushes (k : kernel) :
  as_deactivate k = as_activate k /\
  (forall a, snd (as_complete_load (Some a) k) = as_activate k) /\
  match proc_getas k with
  | Some _ =>
    k_tlb (as_activate k) = flush_log ++ k_tlb k /\
    length flush_log = NUM_TLB /\
    (forall i, (i < NUM_TLB)%nat ->
       flush_log !! (NUM_TLB - 1 - i)%nat
       = Some (TlbWrite (TLBHI_INVALID (Z.of_nat i)) TLBLO_INVALID (Z.of_nat i))) /\
    k_spl (as_activate k) = k_spl k /\
    k_mem (as_activate k) = k_mem k /\ k_used (as_activate k) = k_used k /\
    k_free (as_activate k) = k_free k /\
    k_curproc (as_activate k) = k_curproc k /\
    k_heap (as_activate k) = k_heap k /\ k_live (as_activate k) = k_live k
  | None => as_activate k = k
  end.
Proof.
  split; [reflexivity|]. split; [reflexivity|].
  unfold as_activate. destruct (proc_getas k) as [a|]; [|reflexivity].
  unfold splhigh, splx.
  destruct (tlb_flush_log NUM_TLB 0 (set_spl IPL_HIGH k))
    as (Ht & Hm & Hu & Hf & _ & Hc & Hh & Hl).
  set (k1 := tlb_flush NUM_TLB 0 (set_spl IPL_HIGH k)) in *.
  cbn [set_spl k_tlb k_spl k_mem k_used k_free k_curproc k_heap k_live] in *.
  assert (Hlen : length flush_log = NUM_TLB).
  { unfold flush_log. rewrite length_reverse, length_map, length_seqZ. lia. }
  split; [exact Ht|]. split; [exact Hlen|].
  split; [|repeat split; assumption].
  intros i Hi. unfold flush_log.
  rewrite reverse_lookup; rewrite length_map, length_seqZ, Nat2Z.id.
  - replace (NUM_TLB - S (NUM_TLB - 1 - i))%nat with i by lia.
    change (map ?f ?l) with (f <$> l).
    rewrite list_lookup_fmap, lookup_seqZ_lt by lia. reflexivity.
  - lia.
Qed.

Lemma X5_as_activate_flushes_witness :
  k_tlb (as_activate kernel_S1) = flush_log ++ k_tlb kernel_S1 /\
  flush_log !! (NUM_TLB - 1 - 3)%nat
  = Some (TlbWrite (TLBHI_INVALID 3) TLBLO_INVALID 3).
Proof.
  pose proof (X5_as_activate_flushes kernel_S1) as (_ & _ & H).
  change (proc_getas kernel_S1) with
    (Some (mkAS (Some (replicate L1_PT_SIZE None))
             [mkRegion 0x00400000 0x1000 5 5] USERSTACK)) in H.
  destruct H as (Ht & _ & Hslot & _).
  split; [exact Ht|]. apply (Hslot 3%nat). change NUM_TLB with 64%nat. lia.
Defined.

(** ** create_pte, outcome by outcome *)

(** The first step of [create_pte] (line 43): the L2 array is there or is
    created; no entry that could be read changes its value. *)
Lemma create_pte_phase1 (pt : l1_table) (msb : Z) (k : kernel) :
  exists r1 pt1 k1,
    match l1_get pt (Z.to_nat msb) with
    | Some _ => (0, pt, k)
    | None => create_pt_l2 pt msb k
    end = (r1, pt1, k1) /\
    k_mem k1 = k_mem k /\ k_used k1 = k_used k /\ k_free k1 = k_free k /\
    k_tlb k1 = k_tlb k /\ k_spl k1 = k_spl k /\ k_curproc k1 = k_curproc k /\
    (r1 = 0 \/ r1 = ENOMEM) /\
    k_live k <= k_live k1 <= k_live k + 1 /\
    length pt1 = length pt /\
    (forall m l, pt_get pt1 m l = pt_get pt m l) /\
    (forall m l2, l1_get pt1 m = Some l2 ->
       l1_get pt m = Some l2 \/ l2 = replicate L2_PT_SIZE 0) /\
    (r1 = 0 -> (Z.to_nat msb < length pt)%nat ->
     exists l2, l1_get pt1 (Z.to_nat msb) = Some l2).
Proof.
  destruct (l1_get pt (Z.to_nat msb)) as [l2|] eqn:Hl2.
  { exists 0, pt, k. split; [reflexivity|].
    repeat (split; [reflexivity|]). split; [auto|]. split; [lia|].
    split; [reflexivity|]. split; [reflexivity|]. split; [auto|]. eauto. }
  unfold create_pt_l2. rewrite Hl2.
  destruct (kmalloc k) as [[junk|] k1] eqn:Hk;
    destruct (kmalloc_frame _ _ _ Hk) as (Hm & Hu & Hf & Ht & Hs & Hc);
    destruct (kmalloc_live _ _ _ Hk) as [Hl _].
  - eexists _, _, _. split; [reflexivity|].
    repeat (split; [assumption|]). split; [auto|]. split; [lia|].
    split; [apply length_insert|].
    split; [|split].
    + intros m l. unfold pt_get.
      destruct (decide (Z.to_nat msb = m)) as [<-|Hne];
        [|rewrite l1_get_insert_ne by exact Hne; reflexivity].
      rewrite Hl2.
      destruct (Nat.lt_ge_cases (Z.to_nat msb) (length pt)) as [Hlt|Hge].
      * rewrite l1_get_insert_eq by exact Hlt. apply l2_get_replicate_0.
      * rewrite list_insert_ge by exact Hge. rewrite Hl2. reflexivity.
    + intros m l2. destruct (decide (Z.to_nat msb = m)) as [<-|Hne];
        [|rewrite l1_get_insert_ne by exact Hne; auto].
      destruct (Nat.lt_ge_cases (Z.to_nat msb) (length pt)) as [Hlt|Hge].
      * rewrite l1_get_insert_eq by exact Hlt. intros [= <-]. auto.
      * rewrite list_insert_ge by exact Hge. auto.
    + intros _ Hlt. eexists. apply l1_get_insert_eq, Hlt.
  - eexists _, _, _. split; [reflexivity|].
    repeat (split; [assumption|]). split; [auto|]. split; [lia|].
    split; [reflexivity|]. split; [reflexivity|]. split; [auto|].
    discriminate.
Qed.

(** When [create_pte] fails, no entry has changed and no page was taken;
    at most the L2 array stays allocated. *)
Lemma create_pte_fail_inv (pt pt' : l1_table) (msb lsb dirty res : Z)
    (k k' : kernel) :
  0 ∉ k_free k ->
  create_pte pt msb lsb dirty k = (res, pt', k') -> res <> 0 ->
  (res = ENOMEM \/ res = EINVAL) /\
  (forall m l, pt_get pt' m l = pt_get pt m l) /\
  k_mem k' = k_mem k /\ k_used k' = k_used k /\ k_free k' = k_free k /\
  k_tlb k' = k_tlb k /\ k_spl k' = k_spl k /\ k_curproc k' = k_curproc k /\
  k_live k <= k_live k' <= k_live k + 1.
Proof.
  intros H0. unfold create_pte.
  destruct (create_pte_phase1 pt msb k)
    as (r1 & pt1 & k1 & -> & Hm & Hu & Hf & Ht & Hs & Hc & Hr1 & Hl & _ & Hget & _).
  destruct (Z.eqb_spec r1 0) as [->|Hr]; simpl negb; cbv iota.
  2:{ intros [= <- <- <-] _. split; [destruct Hr1; [congruence|auto]|].
      repeat (split; [assumption|]). exact Hl. }
  destruct (negb (pt_get pt1 (Z.to_nat msb) (Z.to_nat lsb) =? 0)).
  { intros [= <- <- <-] _. split; [auto|].
    repeat (split; [assumption|]). exact Hl. }
  unfold alloc_kpages. rewrite Hf.
  destruct (k_free k) as [|v rest] eqn:Hfree.
  - simpl. intros [= <- <- <-] _. split; [auto|].
    split; [exact Hget|]. repeat (split; [congruence|]). exact Hl.
  - destruct (Z.eqb_spec v 0) as [->|Hv].
    + exfalso. apply H0. left.
    + intros [= <- _ _] Hres. congruence.
Qed.

(** When [create_pte] succeeds, it took the first free page, cleared it,
    and wrote the entry for it into the one slot, which was empty. *)
Lemma create_pte_ok_inv (pt pt' : l1_table) (msb lsb dirty : Z) (k k' : kernel) :
  pt_wf pt ->
  (Z.to_nat msb < L1_PT_SIZE)%nat -> (Z.to_nat lsb < L2_PT_SIZE)%nat ->
  create_pte pt msb lsb dirty k = (0, pt', k') ->
  exists v,
    v <> 0 /\ k_free k = v :: k_free k' /\ k_used k' = {[v]} ∪ k_used k /\
    pt_get pt (Z.to_nat msb) (Z.to_nat lsb) = 0 /\
    pt_get pt' (Z.to_nat msb) (Z.to_nat lsb)
    = Z.lor (Z.lor (Z.land (KVADDR_TO_PADDR v) PAGE_FRAME) dirty) TLBLO_VALID /\
    (forall m l, (m, l) <> (Z.to_nat msb, Z.to_nat lsb) ->
       pt_get pt' m l = pt_get pt m l) /\
    (forall i, (i < Z.to_nat PAGE_SIZE)%nat -> mem_byte k' v i = x00) /\
    (forall u, u <> v -> k_mem k' !! u = k_mem k !! u) /\
    k_tlb k' = k_tlb k /\ k_spl k' = k_spl k /\ k_curproc k' = k_curproc k /\
    k_live k <= k_live k' <= k_live k + 1 /\
    pt_wf pt'.
Proof.
  intros [Hlen Hl2len] Hmsb Hlsb. unfold create_pte.
  destruct (create_pte_phase1 pt msb k)
    as (r1 & pt1 & k1 & -> & Hm & Hu & Hf & Ht & Hs & Hc & Hr1 & Hl & Hlen1 &
        Hget & Hslots & Hsome).
  destruct (Z.eqb_spec r1 0) as [->|Hr]; simpl negb; cbv iota;
    [|intros [= E _ _]; congruence].
  destruct (Hsome eq_refl ltac:(lia)) as [l2 Hl2].
  assert (Hl2n : length l2 = L2_PT_SIZE).
  { destruct (Hslots _ _ Hl2) as [H| ->];
      [exact (Hl2len _ _ H)|apply length_replicate]. }
  destruct (Z.eqb_spec (pt_get pt1 (Z.to_nat msb) (Z.to_nat lsb)) 0) as [Hz|Hz];
    simpl negb; cbv iota; [|intros [= E _ _]; discriminate].
  unfold alloc_kpages. rewrite Hf.
  destruct (k_free k) as [|v rest] eqn:Hfree; [intros [= E _ _]; discriminate|].
  destruct (Z.eqb_spec v 0) as [->|Hv]; [intros [= E _ _]; discriminate|].
  intros [= <- <-]. exists v.
  split; [exact Hv|]. split; [reflexivity|].
  split; [cbn; rewrite Hu; reflexivity|].
  split; [rewrite <- Hget; exact Hz|].
  split; [apply (pt_get_set_eq _ _ _ l2); [exact Hl2|lia]|].
  split.
  { intros m l Hne. rewrite <- Hget.
    destruct (decide (Z.to_nat msb = m)) as [<-|Hm'].
    - apply pt_get_set_ne_lsb. congruence.
    - apply pt_get_set_ne_msb, Hm'. }
  split.
  { intros i Hi. unfold mem_byte, bzero. cbn [k_mem set_mem set_pages].
    rewrite lookup_insert_eq. cbn [from_option id].
    rewrite app_nth1 by (rewrite length_replicate; exact Hi).
    rewrite nth_lookup, lookup_replicate_2 by exact Hi. reflexivity. }
  split.
  { intros u Hne. unfold bzero. cbn [k_mem set_mem set_pages].
    rewrite lookup_insert_ne by congruence. rewrite Hm. reflexivity. }
  split; [exact Ht|]. split; [exact Hs|]. split; [exact Hc|].
  split; [exact Hl|].
  split; [rewrite length_pt_set; congruence|].
  intros m l2'. rewrite l1_get_set.
  destruct (decide (Z.to_nat msb = m)) as [<-|Hne].
  - rewrite Hl2. intros [= <-]. rewrite length_insert. exact Hl2n.
  - intros H. destruct (Hslots _ _ H) as [H'| ->];
      [exact (Hl2len _ _ H')|apply length_replicate].
Qed.

Lemma entry_dirty_of (p d : Z) :
  d = TLBLO_DIRTY \/ d = 0 ->
  Z.land (Z.lor (Z.lor (Z.land p PAGE_FRAME) d) TLBLO_VALID) TLBLO_DIRTY = d.
Proof.
  intros Hd. rewrite !Z.land_lor_distr_l, <- Z.land_assoc.
  change (Z.land PAGE_FRAME TLBLO_DIRTY) with 0.
  change (Z.land TLBLO_VALID TLBLO_DIRTY) with 0.
  rewrite Z.land_0_r, Z.lor_0_l, Z.lor_0_r.
  destruct Hd as [-> | ->]; reflexivity.
Qed.

Lemma fault_indices_in_range (addr : Z) :
  (Z.to_nat (pt_msb (Z.land addr PAGE_FRAME)) < L1_PT_SIZE)%nat /\
  (Z.to_nat (pt_lsb (Z.land addr PAGE_FRAME)) < L2_PT_SIZE)%nat.
Proof.
  pose proof (pt_msb_range _ (fault_page_u32 addr)).
  pose proof (pt_lsb_range (Z.land addr PAGE_FRAME)).
  change L1_PT_SIZE with 2048%nat. change L2_PT_SIZE with 512%nat. lia.
Qed.

(** X13. Install and lookup. When [create_pte] succeeds on a table of the
    right size, the entry did not exist before and exists afterwards with
    its VALID bit set, every other entry is as it was, and a second
    [create_pte] for the same slot is refused with EINVAL and changes
    nothing, whatever the state. *)
Theorem X13_install_then_lookup (pt pt' : l1_table) (msb lsb dirty : Z)
    (k k' : kernel)
    (Hwf : pt_wf pt)
    (Hmsb : 0 <= msb < Z.of_nat L1_PT_SIZE)
    (Hlsb : 0 <= lsb < Z.of_nat L2_PT_SIZE)
    (Hok : create_pte pt msb lsb dirty k = (0, pt', k')) :
  pte_exists (Some pt) msb lsb = false /\
  pte_exists (Some pt') msb lsb = true /\
  Z.land (pt_get pt' (Z.to_nat msb) (Z.to_nat lsb)) TLBLO_VALID = TLBLO_VALID /\
  (forall m l, 0 <= m -> 0 <= l -> (m, l) <> (msb, lsb) ->
     pte_exists (Some pt') m l = pte_exists (Some pt) m l) /\
  (forall dirty2 k2, create_pte pt' msb lsb dirty2 k2 = (EINVAL, pt', k2)).
Proof.
  destruct (create_pte_ok_inv pt pt' msb lsb dirty k k' Hwf
              ltac:(lia) ltac:(lia) Hok)
    as (v & _ & _ & _ & Hold & Hnew & Hoth & _).
  assert (Hnz : pt_get pt' (Z.to_nat msb) (Z.to_nat lsb) <> 0).
  { rewrite Hnew. apply lor_valid_nonzero. }
  split; [rewrite pte_exists_get, Hold; reflexivity|].
  split; [rewrite pte_exists_get; apply Z.eqb_neq in Hnz; rewrite Hnz; reflexivity|].
  split; [rewrite Hnew; apply entry_valid_bit|].
  split.
  { intros m l Hm Hl Hne. rewrite !pte_exists_get, Hoth; [reflexivity|].
    intros [= E1 E2]. apply Hne. f_equal; lia. }
  intros dirty2 k2. unfold create_pte.
  destruct (l1_get pt' (Z.to_nat msb)) as [l2|] eqn:Hl2.
  - simpl negb. cbv iota. apply Z.eqb_neq in Hnz. rewrite Hnz. reflexivity.
  - exfalso. apply Hnz. unfold pt_get. rewrite Hl2. reflexivity.
Qed.

Lemma X13_install_then_lookup_witness :
  pte_exists (Some (replicate L1_PT_SIZE None)) 2 0 = false /\
  pte_exists
    (Some (snd (fst (create_pte (replicate L1_PT_SIZE None) 2 0 TLBLO_DIRTY
                       (boot [0x80100000] 1))))) 2 0 = true.
Proof.
  pose proof (X13_install_then_lookup (replicate L1_PT_SIZE None)
                (snd (fst (create_pte (replicate L1_PT_SIZE None) 2 0 TLBLO_DIRTY
                             (boot [0x80100000] 1))))
                2 0 TLBLO_DIRTY (boot [0x80100000] 1)
                (snd (create_pte (replicate L1_PT_SIZE None) 2 0 TLBLO_DIRTY
                        (boot [0x80100000] 1)))
                pt_wf_empty) as H.
  destruct H as (H1 & H2 & _).
  - change (Z.of_nat L1_PT_SIZE) with 2048. lia.
  - change (Z.of_nat L2_PT_SIZE) with 512. lia.
  - vm_compute. reflexivity.
  - split; assumption.
Defined.

(** ** vm_fault on a resident page and on a page to install *)

(** X9. A READ or WRITE fault at a non-null address, on a page whose entry
    is resident in the page table of the current address space. If the
    address space has no region at all, the test on line 156 comes first:
    the fault returns EFAULT and changes nothing. If it has at least one
    region, the fault returns 0 without looking at the regions' ranges or
    permissions: nothing is allocated, the page table is not changed, and
    the one effect is the TLB write of the page address with the resident
    entry. *)
Theorem X9_fault_on_resident_page (ft addr : Z) (k : kernel) (a : addrspace)
    (pt : l1_table)
    (Hft : ft = VM_FAULT_READ \/ ft = VM_FAULT_WRITE)
    (Hnz : addr <> 0)
    (Hproc : proc_getas k = Some a)
    (Hpt : pagetable a = Some pt)
    (Hpte : pte_exists (Some pt) (pt_msb (Z.land addr PAGE_FRAME))
              (pt_lsb (Z.land addr PAGE_FRAME)) = true) :
  match regions a with
  | [] => vm_fault ft addr k = (EFAULT, k)
  | _ :: _ =>
    vm_fault ft addr k
    = (0, set_tlb (TlbRandom (Z.land addr PAGE_FRAME)
                     (pt_get pt (Z.to_nat (pt_msb (Z.land addr PAGE_FRAME)))
                        (Z.to_nat (pt_lsb (Z.land addr PAGE_FRAME))))
                     :: k_tlb k) k)
  end.
Proof.
  destruct (regions a) as [|r0 rs] eqn:Hr.
  - destruct (proc_getas_curproc _ _ Hproc) as [p Hp].
    unfold vm_fault. rewrite Hp, Hproc, Hpt, Hr.
    apply Z.eqb_neq in Hnz. rewrite Hnz.
    destruct Hft as [-> | ->]; reflexivity.
  - assert (Hregs : regions a <> []) by (rewrite Hr; discriminate).
    rewrite (vm_fault_enter ft addr k a pt Hft Hnz Hproc Hpt Hregs). cbv zeta.
    rewrite Hpte. simpl negb. cbv iota. rewrite vm_fault_load_eq.
    rewrite <- Z.land_assoc, Z.land_diag. reflexivity.
Qed.

Lemma X9_fault_on_resident_page_witness :
  Z.land (flags (mkRegion 0x00400000 0x1000 5 5)) PF_W <> PF_W /\
  find_region (Z.land 0x00400abc PAGE_FRAME) (regions ro_as)
  = Some (mkRegion 0x00400000 0x1000 5 5) /\
  vm_fault VM_FAULT_WRITE 0x00400abc kernel_ro_resident
  = (0, set_tlb (TlbRandom (Z.land 0x00400abc PAGE_FRAME)
                   (pt_get ro_pt
                      (Z.to_nat (pt_msb (Z.land 0x00400abc PAGE_FRAME)))
                      (Z.to_nat (pt_lsb (Z.land 0x00400abc PAGE_FRAME))))
                   :: k_tlb kernel_ro_resident) kernel_ro_resident).
Proof.
  split; [vm_compute; discriminate|]. split; [vm_compute; reflexivity|].
  apply (X9_fault_on_resident_page VM_FAULT_WRITE 0x00400abc kernel_ro_resident
           ro_as ro_pt).
  - right. reflexivity.
  - lia.
  - reflexivity.
  - reflexivity.
  - vm_compute. reflexivity.
Defined.

(** A fault that installs a page, in full. *)
Lemma vm_fault_install (ft addr : Z) (k : kernel) (a : addrspace)
    (pt : l1_table) (r : region) (v : Z) (rest : list Z)
    (Hft : ft = VM_FAULT_READ \/ ft = VM_FAULT_WRITE)
    (Hnz : addr <> 0)
    (Hproc : proc_getas k = Some a)
    (Hpt : pagetable a = Some pt)
    (Hwf : pt_wf pt)
    (Hpte : pte_exists (Some pt) (pt_msb (Z.land addr PAGE_FRAME))
              (pt_lsb (Z.land addr PAGE_FRAME)) = false)
    (Hreg : find_region (Z.land addr PAGE_FRAME) (regions a) = Some r)
    (Hperm : ft = VM_FAULT_WRITE -> Z.land (flags r) PF_W = PF_W)
    (Hfree : k_free k = v :: rest) (Hv : v <> 0)
    (Hl2 : l1_get pt (Z.to_nat (pt_msb (Z.land addr PAGE_FRAME))) <> None \/
           exists junk h, k_heap k = Some junk :: h) :
  let fa := Z.land addr PAGE_FRAME in
  let msb := Z.to_nat (pt_msb fa) in
  let lsb := Z.to_nat (pt_lsb fa) in
  let e := Z.lor (Z.lor (Z.land (KVADDR_TO_PADDR v) PAGE_FRAME)
                    (if Z.land (flags r) PF_W =? PF_W then TLBLO_DIRTY else 0))
             TLBLO_VALID in
  exists k' pt',
    vm_fault ft addr k = (0, k') /\
    proc_getas k' = Some (mkAS (Some pt') (regions a) (stackbase a)) /\
    pt_wf pt' /\
    pt_get pt' msb lsb = e /\
    (forall m l, (m, l) <> (msb, lsb) -> pt_get pt' m l = pt_get pt m l) /\
    (Z.land e TLBLO_DIRTY = TLBLO_DIRTY <-> Z.land (flags r) PF_W = PF_W) /\
    Z.land e TLBLO_VALID = TLBLO_VALID /\
    k_used k' = {[v]} ∪ k_used k /\ k_free k' = rest /\
    (forall i, (i < Z.to_nat PAGE_SIZE)%nat -> mem_byte k' v i = x00) /\
    (forall u, u <> v -> k_mem k' !! u = k_mem k !! u) /\
    k_tlb k' = TlbRandom fa e :: k_tlb k /\
    k_spl k' = k_spl k.
Proof.
  cbv zeta.
  destruct (fault_indices_in_range addr) as [Hmsb Hlsb].
  rewrite (vm_fault_enter ft addr k a pt Hft Hnz Hproc Hpt
             (find_region_nonempty _ _ _ Hreg)). cbv zeta.
  set (fa := Z.land addr PAGE_FRAME) in *.
  rewrite Hpte, Hreg. simpl negb. cbv iota.
  assert (Hnoperm : negb (Z.land (flags r) PF_W =? PF_W)
                    && (ft =? VM_FAULT_WRITE) = false).
  { destruct (Z.eqb_spec ft VM_FAULT_WRITE) as [Hw|Hw].
    - rewrite (Hperm Hw), Z.eqb_refl. reflexivity.
    - apply andb_false_r. }
  rewrite Hnoperm.
  set (dirty := if Z.land (flags r) PF_W =? PF_W then TLBLO_DIRTY else 0) in *.
  assert (Hzero : pt_get pt (Z.to_nat (pt_msb fa)) (Z.to_nat (pt_lsb fa)) = 0).
  { rewrite pte_exists_get in Hpte.
    destruct (Z.eqb_spec (pt_get pt (Z.to_nat (pt_msb fa)) (Z.to_nat (pt_lsb fa))) 0);
      [assumption|discriminate]. }
  destruct (create_pte_success pt (pt_msb fa) (pt_lsb fa) dirty k v rest
              Hwf Hmsb Hlsb Hzero Hfree Hv Hl2) as (pt' & k1 & Hc & _).
  destruct (create_pte_ok_inv pt pt' _ _ dirty k k1 Hwf Hmsb Hlsb Hc)
    as (v' & _ & Hfree' & Hused & _ & Hnew & Hoth & Hzeros & Hmem & Ht & Hs & Hcp
        & _ & Hwf').
  rewrite Hfree in Hfree'. injection Hfree' as <- Hrest.
  destruct (proc_getas_curproc _ _ Hproc) as [p Hp].
  rewrite Hc. simpl negb. cbv iota. rewrite vm_fault_load_eq.
  destruct (set_curas_frame (mkAS (Some pt') (regions a) (stackbase a)) k1)
    as (Ht2 & Hu2 & Hm2 & Hf2).
  eexists _, pt'. split; [reflexivity|].
  split.
  { unfold splx, tlb_random, set_spl, set_tlb, proc_getas, set_curas.
    rewrite Hcp, Hp. reflexivity. }
  split; [exact Hwf'|]. split; [exact Hnew|]. split; [exact Hoth|].
  assert (Hd : dirty = TLBLO_DIRTY \/ dirty = 0).
  { unfold dirty. destruct (_ =? PF_W); auto. }
  split.
  { rewrite (entry_dirty_of _ _ Hd). unfold dirty.
    destruct (Z.eqb_spec (Z.land (flags r) PF_W) PF_W) as [E|E].
    - tauto.
    - split; [discriminate|tauto]. }
  split; [apply entry_valid_bit|].
  cbn [k_used k_free k_mem k_tlb k_spl splx tlb_random set_spl set_tlb].
  split; [rewrite Hu2; exact Hused|]. split; [rewrite Hf2; auto|].
  split.
  { intros i Hi. rewrite <- (Hzeros i Hi). unfold mem_byte.
    cbn [k_mem splx tlb_random set_spl set_tlb]. rewrite Hm2. reflexivity. }
  split; [intros u Hu; rewrite Hm2; exact (Hmem u Hu)|].
  split.
  { rewrite Ht2, Ht, Hnew.
    unfold fa. rewrite <- Z.land_assoc, Z.land_diag. reflexivity. }
  unfold set_curas. rewrite Hcp, Hp. cbn [k_spl set_curproc]. exact Hs.
Qed.

(** X10. A READ or WRITE fault at a non-null address, when the current
    address space has a well-sized page table with no entry for the page,
    the region scan finds a region that permits the access, the head of the
    free list is a non-null page, and the L2 array is present or the next
    [kmalloc] succeeds, returns 0 after taking exactly that page: the page
    is zero-filled, no other page's contents change, the one new entry
    names that page with VALID set and with DIRTY set exactly when the
    region has its W bit, every other entry is as before, and the TLB
    receives the page address with the new entry. *)
Theorem X10_fault_installs_page (ft addr : Z) (k : kernel) (a : addrspace)
    (pt : l1_table) (r : region) (v : Z) (rest : list Z)
    (Hft : ft = VM_FAULT_READ \/ ft = VM_FAULT_WRITE)
    (Hnz : addr <> 0)
    (Hproc : proc_getas k = Some a)
    (Hpt : pagetable a = Some pt)
    (Hwf : pt_wf pt)
    (Hpte : pte_exists (Some pt) (pt_msb (Z.land addr PAGE_FRAME))
              (pt_lsb (Z.land addr PAGE_FRAME)) = false)
    (Hreg : find_region (Z.land addr PAGE_FRAME) (regions a) = Some r)
    (Hperm : ft = VM_FAULT_WRITE -> Z.land (flags r) PF_W = PF_W)
    (Hfree : k_free k = v :: rest) (Hv : v <> 0)
    (Hl2 : l1_get pt (Z.to_nat (pt_msb (Z.land addr PAGE_FRAME))) <> None \/
           exists junk h, k_heap k = Some junk :: h) :
  let fa := Z.land addr PAGE_FRAME in
  let msb := Z.to_nat (pt_msb fa) in
  let lsb := Z.to_nat (pt_lsb fa) in
  let e := Z.lor (Z.lor (Z.land (KVADDR_TO_PADDR v) PAGE_FRAME)
                    (if Z.land (flags r) PF_W =? PF_W then TLBLO_DIRTY else 0))
             TLBLO_VALID in
  exists k' pt',
    vm_fault ft addr k = (0, k') /\
    proc_getas k' = Some (mkAS (Some pt') (regions a) (stackbase a)) /\
    pt_wf pt' /\
    pt_get pt' msb lsb = e /\
    (forall m l, (m, l) <> (msb, lsb) -> pt_get pt' m l = pt_get pt m l) /\
    (Z.land e TLBLO_DIRTY = TLBLO_DIRTY <-> Z.land (flags r) PF_W = PF_W) /\
    Z.land e TLBLO_VALID = TLBLO_VALID /\
    k_used k' = {[v]} ∪ k_used k /\ k_free k' = rest /\
    (forall i, (i < Z.to_nat PAGE_SIZE)%nat -> mem_byte k' v i = x00) /\
    (forall u, u <> v -> k_mem k' !! u = k_mem k !! u) /\
    k_tlb k' = TlbRandom fa e :: k_tlb k /\
    k_spl k' = k_spl k.
Proof.
  exact (vm_fault_install ft addr k a pt r v rest Hft Hnz Hproc Hpt Hwf Hpte
           Hreg Hperm Hfree Hv Hl2).
Qed.

Lemma X10_fault_installs_page_witness :
  exists k' pt',
    vm_fault VM_FAULT_READ 0x00400010 kernel_S1 = (0, k') /\
    proc_getas k'
    = Some (mkAS (Some pt') [mkRegion 0x00400000 0x1000 5 5] USERSTACK) /\
    pt_get pt' 2 0 = 0x100200 /\
    k_used k' = {[0x80100000]} ∪ k_used kernel_S1 /\
    k_tlb k' = TlbRandom 0x00400000 0x100200 :: k_tlb kernel_S1.
Proof.
  destruct (X10_fault_installs_page VM_FAULT_READ 0x00400010 kernel_S1
              (mkAS (Some (replicate L1_PT_SIZE None))
                 [mkRegion 0x00400000 0x1000 5 5] USERSTACK)
              (replicate L1_PT_SIZE None) (mkRegion 0x00400000 0x1000 5 5)
              0x80100000 [])
    as (k' & pt' & H1 & H2 & _ & H4 & _ & _ & _ & H8 & _ & _ & _ & H12 & _).
  - left. reflexivity.
  - lia.
  - reflexivity.
  - reflexivity.
  - apply pt_wf_empty.
  - vm_compute. reflexivity.
  - vm_compute. reflexivity.
  - intros H. discriminate H.
  - reflexivity.
  - lia.
  - right. eexists _, _. reflexivity.
  - exists k', pt'. repeat split; assumption.
Defined.

(** ** Every outcome of vm_fault *)

(** The four ways [vm_fault] ends: an early error with the state untouched,
    a hit, a failed install, a successful install. *)
Lemma vm_fault_outcome (ft addr : Z) (k : kernel) :
  let fa := Z.land addr PAGE_FRAME in
  (exists e, (e = EINVAL \/ e = EFAULT) /\ vm_fault ft addr k = (e, k)) \/
  (exists a pt,
     proc_getas k = Some a /\ pagetable a = Some pt /\ regions a <> [] /\
     pte_exists (Some pt) (pt_msb fa) (pt_lsb fa) = true /\
     vm_fault ft addr k
     = (0, set_tlb (TlbRandom fa
                      (pt_get pt (Z.to_nat (pt_msb fa)) (Z.to_nat (pt_lsb fa)))
                      :: k_tlb k) k)) \/
  (exists a pt r res pt' k1,
     proc_getas k = Some a /\ pagetable a = Some pt /\ regions a <> [] /\
     pte_exists (Some pt) (pt_msb fa) (pt_lsb fa) = false /\
     find_region fa (regions a) = Some r /\
     create_pte pt (pt_msb fa) (pt_lsb fa)
       (if Z.land (flags r) PF_W =? PF_W then TLBLO_DIRTY else 0) k
     = (res, pt', k1) /\
     let k2 := set_curas (mkAS (Some pt') (regions a) (stackbase a)) k1 in
     (res <> 0 /\ vm_fault ft addr k = (res, k2) \/
      res = 0 /\
      vm_fault ft addr k
      = (0, set_tlb (TlbRandom fa
                       (pt_get pt' (Z.to_nat (pt_msb fa)) (Z.to_nat (pt_lsb fa)))
                       :: k_tlb k2) k2))).
Proof.
  cbv zeta.
  destruct (vm_fault_cases ft addr k)
    as [Hearly | (a & pt & Hft & Hnz & Hproc & Hpt & Hregs)]; [left; exact Hearly|].
  rewrite (vm_fault_enter ft addr k a pt Hft Hnz Hproc Hpt Hregs). cbv zeta.
  assert (Hidem : Z.land (Z.land addr PAGE_FRAME) PAGE_FRAME = Z.land addr PAGE_FRAME).
  { rewrite <- Z.land_assoc, Z.land_diag. reflexivity. }
  destruct (pte_exists (Some pt) _ _) eqn:Hpte; simpl negb; cbv iota.
  { right. left. exists a, pt.
    split; [exact Hproc|]. split; [exact Hpt|]. split; [exact Hregs|].
    split; [exact Hpte|]. rewrite vm_fault_load_eq, Hidem. reflexivity. }
  destruct (find_region _ (regions a)) as [r|] eqn:Hreg;
    [|left; exists EFAULT; auto].
  destruct (negb (Z.land (flags r) PF_W =? PF_W) && (ft =? VM_FAULT_WRITE));
    [left; exists EFAULT; auto|].
  destruct (create_pte pt _ _ _ k) as [[res pt'] k1] eqn:Hc.
  right. right. exists a, pt, r, res, pt', k1.
  split; [exact Hproc|]. split; [exact Hpt|]. split; [exact Hregs|].
  split; [exact Hpte|]. split; [exact Hreg|]. split; [exact Hc|].
  destruct (Z.eqb_spec res 0) as [->|Hne]; simpl negb; cbv iota.
  - right. split; [reflexivity|]. rewrite vm_fault_load_eq, Hidem. reflexivity.
  - left. split; [exact Hne|reflexivity].
Qed.

Lemma set_curas_other (a : addrspace) (k : kernel) :
  k_spl (set_curas a k) = k_spl k /\ k_heap (set_curas a k) = k_heap k /\
  k_live (set_curas a k) = k_live k /\
  (k_curproc k <> None -> proc_getas (set_curas a k) = Some a).
Proof.
  unfold set_curas, proc_getas.
  destruct (k_curproc k); repeat split; try reflexivity; congruence.
Qed.

(** What [create_pte] can do to the kernel state, whatever it returns. *)
Lemma create_pte_effects (pt pt' : l1_table) (msb lsb dirty res : Z)
    (k k' : kernel) :
  create_pte pt msb lsb dirty k = (res, pt', k') ->
  k_tlb k' = k_tlb k /\ k_spl k' = k_spl k /\ k_curproc k' = k_curproc k /\
  k_live k <= k_live k' <= k_live k + 1 /\
  (k_used k' = k_used k /\ k_free k' = k_free k \/
   exists v, k_free k = v :: k_free k' /\ k_used k' = {[v]} ∪ k_used k).
Proof.
  unfold create_pte.
  destruct (create_pte_phase1 pt msb k)
    as (r1 & pt1 & k1 & -> & Hm & Hu & Hf & Ht & Hs & Hc & _ & Hl & _).
  destruct (negb (r1 =? 0)); [intros [= <- <- <-]; auto 8|].
  destruct (negb (pt_get pt1 (Z.to_nat msb) (Z.to_nat lsb) =? 0));
    [intros [= <- <- <-]; auto 8|].
  unfold alloc_kpages. rewrite Hf.
  destruct (k_free k) as [|v rest] eqn:Hfree.
  - simpl. intros [= <- <- <-]. repeat (split; [assumption|]). left.
    split; congruence.
  - destruct (v =? 0); intros [= <- <- <-];
      cbn [k_tlb k_spl k_curproc k_live k_used k_free set_pages bzero set_mem];
      repeat (split; [assumption|]); right; exists v; rewrite Hu; auto.
Qed.

(** X7. Whatever [vm_fault] is given and whatever it returns, it comes back
    with the interrupt level it was entered with, it never frees a page or
    a heap block, and it takes at most one page (the first free one) and at
    most one heap block (the L2 array); the stack base of the current
    address space is not changed. *)
Theorem X7_fault_resource_bounds (ft addr : Z) (k : kernel) :
  let k' := snd (vm_fault ft addr k) in
  k_spl k' = k_spl k /\
  k_live k <= k_live k' <= k_live k + 1 /\
  (k_used k' = k_used k /\ k_free k' = k_free k \/
   exists v, k_free k = v :: k_free k' /\ k_used k' = {[v]} ∪ k_used k) /\
  option_map stackbase (proc_getas k') = option_map stackbase (proc_getas k).
Proof.
  cbv zeta.
  destruct (vm_fault_outcome ft addr k)
    as [(e & _ & ->) | [(a & pt & _ & _ & _ & _ & ->) |
        (a & pt & r & res & pt' & k1 & Hproc & _ & _ & _ & _ & Hc & Hres)]].
  - cbn [snd]. split; [reflexivity|]. split; [lia|]. split; [auto|reflexivity].
  - cbn [snd]. split; [reflexivity|]. split; [simpl; lia|].
    split; [auto|reflexivity].
  - destruct (create_pte_effects _ _ _ _ _ _ _ _ Hc) as (_ & Hs & Hcp & Hl & Hpages).
    destruct (proc_getas_curproc _ _ Hproc) as [p Hp].
    cbv zeta in Hres.
    set (a' := mkAS (Some pt') (regions a) (stackbase a)) in *.
    destruct (set_curas_frame a' k1) as (_ & Hu2 & _ & Hf2).
    destruct (set_curas_other a' k1) as (Hs2 & _ & Hl2 & Hp2).
    assert (Hfinal : k_spl (set_curas a' k1) = k_spl k /\
              k_live k <= k_live (set_curas a' k1) <= k_live k + 1 /\
              (k_used (set_curas a' k1) = k_used k /\
               k_free (set_curas a' k1) = k_free k \/
               exists v, k_free k = v :: k_free (set_curas a' k1) /\
                         k_used (set_curas a' k1) = {[v]} ∪ k_used k) /\
              option_map stackbase (proc_getas (set_curas a' k1))
              = option_map stackbase (proc_getas k)).
    { rewrite Hs2, Hl2, Hu2, Hf2, Hp2, Hproc by congruence.
      split; [exact Hs|]. split; [exact Hl|]. split; [exact Hpages|reflexivity]. }
    destruct Hres as [[_ ->] | [_ ->]]; cbn [snd]; exact Hfinal.
Qed.

Lemma alloc_ok_no_null (k : kernel) : alloc_ok k -> 0 ∉ k_free k.
Proof.
  intros [_ H] Hin. destruct (H 0 Hin) as [_ [[Hlo _] _]].
  unfold MIPS_KSEG0 in Hlo. lia.
Qed.

(** X8. Under the page allocator's contract, a fault that returns an error
    changes no page-table entry, takes no page, writes no memory and no TLB
    entry: every lookup in the current page table answers as before. (An L2
    array allocated before the page allocation failed stays in place, all
    zero.) *)
Theorem X8_failed_fault_changes_no_mapping (ft addr : Z) (k : kernel)
    (Hal : alloc_ok k)
    (Hfail : fst (vm_fault ft addr k) <> 0) :
  let k' := snd (vm_fault ft addr k) in
  k_mem k' = k_mem k /\ k_used k' = k_used k /\ k_free k' = k_free k /\
  k_tlb k' = k_tlb k /\ alloc_ok k' /\
  forall msb lsb,
    pte_exists (current_pagetable k') msb lsb
    = pte_exists (current_pagetable k) msb lsb.
Proof.
  cbv zeta. revert Hfail.
  destruct (vm_fault_outcome ft addr k)
    as [(e & _ & ->) | [(a & pt & _ & _ & _ & _ & ->) |
        (a & pt & r & res & pt' & k1 & Hproc & Hpt & _ & _ & _ & Hc & Hres)]].
  - intros _. cbn [snd]. repeat (split; [reflexivity|]). split; [exact Hal|reflexivity].
  - intros H. exfalso. apply H. reflexivity.
  - cbv zeta in Hres. destruct Hres as [[Hne ->] | [-> ->]];
      [|intros H; exfalso; apply H; reflexivity].
    intros _. cbn [snd].
    destruct (create_pte_fail_inv _ _ _ _ _ _ _ _ (alloc_ok_no_null _ Hal) Hc Hne)
      as (_ & Hget & Hm & Hu & Hf & Ht & _ & Hcp & _).
    destruct (proc_getas_curproc _ _ Hproc) as [p Hp].
    set (a' := mkAS (Some pt') (regions a) (stackbase a)).
    destruct (set_curas_frame a' k1) as (Ht2 & Hu2 & Hm2 & Hf2).
    destruct (set_curas_other a' k1) as (_ & _ & _ & Hp2).
    rewrite Ht2, Hu2, Hm2, Hf2.
    repeat (split; [congruence|]).
    split; [unfold alloc_ok; rewrite Hu2, Hf2, Hu, Hf; exact Hal|].
    intros msb lsb. unfold current_pagetable.
    rewrite Hp2, Hproc, Hpt by congruence. cbn [pagetable a'].
    rewrite !pte_exists_get, Hget. reflexivity.
Qed.

Lemma kernel_S1_wf : kernel_wf kernel_S1.
Proof.
  apply run_define_wf, run_create_wf, boot_wf.
  - apply NoDup_singleton.
  - repeat constructor; unfold MIPS_KSEG0; try lia; reflexivity.
Qed.

Lemma X8_failed_fault_changes_no_mapping_witness :
  k_used (snd (vm_fault VM_FAULT_READ 0x00500000 kernel_S1)) = k_used kernel_S1 /\
  k_tlb (snd (vm_fault VM_FAULT_READ 0x00500000 kernel_S1)) = k_tlb kernel_S1.
Proof.
  destruct (X8_failed_fault_changes_no_mapping VM_FAULT_READ 0x00500000 kernel_S1
              (proj1 kernel_S1_wf)) as (_ & Hu & _ & Ht & _).
  - vm_compute. discriminate.
  - split; assumption.
Defined.

Lemma vm_fault_hit_eq (ft addr : Z) (k : kernel) (a : addrspace) (pt : l1_table) :
  ft = VM_FAULT_READ \/ ft = VM_FAULT_WRITE -> addr <> 0 ->
  proc_getas k = Some a -> pagetable a = Some pt -> regions a <> [] ->
  pte_exists (Some pt) (pt_msb (Z.land addr PAGE_FRAME))
    (pt_lsb (Z.land addr PAGE_FRAME)) = true ->
  vm_fault ft addr k
  = (0, set_tlb (TlbRandom (Z.land addr PAGE_FRAME)
                   (pt_get pt (Z.to_nat (pt_msb (Z.land addr PAGE_FRAME)))
                      (Z.to_nat (pt_lsb (Z.land addr PAGE_FRAME))))
                   :: k_tlb k) k).
Proof.
  intros Hft Hnz Hproc Hpt Hregs Hpte.
  rewrite (vm_fault_enter ft addr k a pt Hft Hnz Hproc Hpt Hregs). cbv zeta.
  rewrite Hpte. simpl negb. cbv iota. rewrite vm_fault_load_eq.
  rewrite <- Z.land_assoc, Z.land_diag. reflexivity.
Qed.

(** What a fault that returned 0 left behind: the entry of the page is in
    the current page table and is the pair the TLB received last. *)
Lemma vm_fault_success_inv (ft addr : Z) (k : kernel) (a : addrspace)
    (pt : l1_table) :
  proc_getas k = Some a -> pagetable a = Some pt -> pt_wf pt ->
  fst (vm_fault ft addr k) = 0 ->
  let fa := Z.land addr PAGE_FRAME in
  exists pt1 e,
    proc_getas (snd (vm_fault ft addr k))
    = Some (mkAS (Some pt1) (regions a) (stackbase a)) /\
    regions a <> [] /\ pt_wf pt1 /\
    pt_get pt1 (Z.to_nat (pt_msb fa)) (Z.to_nat (pt_lsb fa)) = e /\ e <> 0 /\
    k_tlb (snd (vm_fault ft addr k)) = TlbRandom fa e :: k_tlb k.
Proof.
  intros Hproc Hpt Hwf. cbv zeta.
  destruct (fault_indices_in_range addr) as [Hmsb Hlsb].
  destruct (vm_fault_outcome ft addr k)
    as [(e & He & ->) | [(a0 & pt0 & Hproc0 & Hpt0 & Hregs & Hpte & ->) |
        (a0 & pt0 & r & res & pt' & k1 & Hproc0 & Hpt0 & Hregs & _ & _ & Hc & Hres)]].
  - cbn [fst]. intros ->. destruct He; discriminate.
  - intros _. cbn [snd]. rewrite Hproc in Hproc0. injection Hproc0 as <-.
    rewrite Hpt in Hpt0. injection Hpt0 as <-.
    exists pt, (pt_get pt (Z.to_nat (pt_msb (Z.land addr PAGE_FRAME)))
                  (Z.to_nat (pt_lsb (Z.land addr PAGE_FRAME)))).
    split.
    { change (proc_getas (set_tlb _ k)) with (proc_getas k). rewrite Hproc.
      destruct a as [pta ra sa]. simpl in *. subst pta. reflexivity. }
    split; [exact Hregs|]. split; [exact Hwf|]. split; [reflexivity|].
    split; [|reflexivity].
    rewrite pte_exists_get in Hpte.
    destruct (Z.eqb_spec (pt_get pt (Z.to_nat (pt_msb (Z.land addr PAGE_FRAME)))
                            (Z.to_nat (pt_lsb (Z.land addr PAGE_FRAME)))) 0);
      [discriminate|assumption].
  - rewrite Hproc in Hproc0. injection Hproc0 as <-.
    rewrite Hpt in Hpt0. injection Hpt0 as <-.
    cbv zeta in Hres. destruct Hres as [[Hne ->] | [-> ->]];
      [cbn [fst]; intros E; congruence|].
    intros _. cbn [snd].
    destruct (create_pte_ok_inv pt pt' _ _ _ k k1 Hwf Hmsb Hlsb Hc)
      as (v & _ & _ & _ & _ & Hnew & _ & _ & _ & Ht & _ & Hcp & _ & Hwf').
    destruct (proc_getas_curproc _ _ Hproc) as [p Hp].
    set (a' := mkAS (Some pt') (regions a) (stackbase a)).
    destruct (set_curas_frame a' k1) as (Ht2 & _).
    destruct (set_curas_other a' k1) as (_ & _ & _ & Hp2).
    exists pt', (pt_get pt' (Z.to_nat (pt_msb (Z.land addr PAGE_FRAME)))
                   (Z.to_nat (pt_lsb (Z.land addr PAGE_FRAME)))).
    split.
    { change (proc_getas (set_tlb ?t ?x)) with (proc_getas x).
      apply Hp2. congruence. }
    split; [exact Hregs|]. split; [exact Hwf'|]. split; [reflexivity|].
    split; [rewrite Hnew; apply lor_valid_nonzero|].
    cbn [k_tlb set_tlb]. rewrite Ht2, Ht. reflexivity.
Qed.

(** X11. Faulting twice allocates once. After a fault that returned 0 on a
    well-sized page table, any READ or WRITE fault at a non-null address of
    the same page returns 0, takes no page and no heap block, leaves the
    page table as it is, and loads the TLB with the same entry again. *)
Theorem X11_second_fault_is_a_hit (ft ft' addr addr' : Z) (k : kernel)
    (a : addrspace) (pt : l1_table)
    (Hft' : ft' = VM_FAULT_READ \/ ft' = VM_FAULT_WRITE)
    (Hnz' : addr' <> 0)
    (Hproc : proc_getas k = Some a)
    (Hpt : pagetable a = Some pt)
    (Hwf : pt_wf pt)
    (Hsame : Z.land addr' PAGE_FRAME = Z.land addr PAGE_FRAME)
    (Hok : fst (vm_fault ft addr k) = 0) :
  let k1 := snd (vm_fault ft addr k) in
  let fa := Z.land addr PAGE_FRAME in
  exists e,
    e <> 0 /\
    k_tlb k1 = TlbRandom fa e :: k_tlb k /\
    pte_exists (current_pagetable k1) (pt_msb fa) (pt_lsb fa) = true /\
    vm_fault ft' addr' k1 = (0, set_tlb (TlbRandom fa e :: k_tlb k1) k1).
Proof.
  cbv zeta.
  destruct (vm_fault_success_inv ft addr k a pt Hproc Hpt Hwf Hok)
    as (pt1 & e & Hp1 & Hregs & _ & Hget & Hne & Ht).
  assert (Hpte : pte_exists (Some pt1) (pt_msb (Z.land addr PAGE_FRAME))
                   (pt_lsb (Z.land addr PAGE_FRAME)) = true).
  { rewrite pte_exists_get, Hget. apply Z.eqb_neq in Hne. rewrite Hne. reflexivity. }
  exists e. split; [exact Hne|]. split; [exact Ht|].
  split; [unfold current_pagetable; rewrite Hp1; exact Hpte|].
  rewrite (vm_fault_hit_eq ft' addr' _ _ pt1 Hft' Hnz' Hp1 eq_refl Hregs)
    by (rewrite Hsame; exact Hpte).
  rewrite Hsame, Hget. reflexivity.
Qed.

Lemma X11_second_fault_is_a_hit_witness :
  exists e,
    e <> 0 /\
    k_tlb (snd (vm_fault VM_FAULT_READ 0x00400010 kernel_S1))
    = TlbRandom (Z.land 0x00400010 PAGE_FRAME) e :: k_tlb kernel_S1 /\
    pte_exists (current_pagetable (snd (vm_fault VM_FAULT_READ 0x00400010 kernel_S1)))
      (pt_msb (Z.land 0x00400010 PAGE_FRAME))
      (pt_lsb (Z.land 0x00400010 PAGE_FRAME)) = true /\
    vm_fault VM_FAULT_READ 0x00400abc
      (snd (vm_fault VM_FAULT_READ 0x00400010 kernel_S1))
    = (0, set_tlb
            (TlbRandom (Z.land 0x00400010 PAGE_FRAME) e
               :: k_tlb (snd (vm_fault VM_FAULT_READ 0x00400010 kernel_S1)))
            (snd (vm_fault VM_FAULT_READ 0x00400010 kernel_S1))).
Proof.
  apply (X11_second_fault_is_a_hit VM_FAULT_READ VM_FAULT_READ 0x00400010
           0x00400abc kernel_S1
           (mkAS (Some (replicate L1_PT_SIZE None))
              [mkRegion 0x00400000 0x1000 5 5] USERSTACK)
           (replicate L1_PT_SIZE None)).
  - left. reflexivity.
  - lia.
  - reflexivity.
  - reflexivity.
  - apply pt_wf_empty.
  - reflexivity.
  - vm_compute. reflexivity.
Defined.

(** ** destroy_pt and as_destroy *)

Lemma dev_same_refl (k : kernel) : dev_same k k.
Proof. repeat split. Qed.

Lemma dev_same_trans (k1 k2 k3 : kernel) :
  dev_same k1 k2 -> dev_same k2 k3 -> dev_same k1 k3.
Proof. intros (?&?&?) (?&?&?). repeat split; congruence. Qed.

Lemma pages_released_same (k k' : kernel) :
  k_used k' = k_used k -> k_free k' = k_free k -> k_mem k' = k_mem k ->
  pages_released k k'.
Proof.
  intros Hu Hf Hm. split; [rewrite Hu; reflexivity|]. split; [exact Hm|].
  exists []. split; [rewrite Hf, app_nil_r; reflexivity|].
  intros u. rewrite Hu. split; [intros H; inversion H|tauto].
Qed.

Lemma pages_released_trans (k1 k2 k3 : kernel) :
  pages_released k1 k2 -> pages_released k2 k3 -> pages_released k1 k3.
Proof.
  intros (Hu1 & Hm1 & l1 & Hf1 & Hl1) (Hu2 & Hm2 & l2 & Hf2 & Hl2).
  split; [etransitivity; eassumption|]. split; [congruence|].
  exists (l1 ++ l2). split; [rewrite Hf2, Hf1, app_assoc; reflexivity|].
  intros u. rewrite elem_of_app, Hl1, Hl2. split.
  - intros [[Ha Hb] | [Ha Hb]].
    + split; [exact Ha|]. intros Hc. apply Hb, Hu2, Hc.
    + split; [apply Hu1, Ha|exact Hb].
  - intros [Ha Hb]. destruct (decide (u ∈ k_used k2)); [right|left]; tauto.
Qed.

Lemma free_kpages_released (v : Z) (k : kernel) :
  pages_released k (free_kpages v k) /\ (v ∉ k_used (free_kpages v k)).
Proof.
  unfold free_kpages. destruct (decide (v ∈ k_used k)) as [Hin|Hnin].
  - split; [|cbn; apply not_elem_of_difference; right; apply elem_of_singleton; reflexivity].
    split; [cbn; apply subseteq_difference_l; reflexivity|].
    split; [reflexivity|]. exists [v]. split; [reflexivity|].
    intros u. cbn. rewrite list_elem_of_singleton, elem_of_difference, elem_of_singleton.
    split.
    + intros ->. split; [exact Hin|]. intros [_ H]. apply H. reflexivity.
    + intros [Hu Hn]. destruct (decide (u = v)) as [E|E]; [exact E|].
      exfalso. apply Hn. split; assumption.
  - split; [|exact Hnin]. apply pages_released_same; reflexivity.
Qed.

Lemma pages_released_none (k k' : kernel) :
  pages_released k k' -> k_used k ⊆ k_used k' ->
  k_used k' = k_used k /\ k_free k' = k_free k.
Proof.
  intros (Hu & _ & l & Hf & Hl) Hsub.
  split; [apply set_eq; intros u; split; [apply Hu|apply Hsub]|].
  destruct l as [|u l]; [rewrite Hf, app_nil_r; reflexivity|].
  exfalso. destruct (proj1 (Hl u) ltac:(left)) as [Ha Hb]. apply Hb, Hsub, Ha.
Qed.

(** An entry that is 0 stays 0 through the inner loop of [destroy_pt]. *)
Lemma destroy_l2_keeps_zero (n : nat) :
  forall (lsb : nat) (l2 l2' : list Z) (k k' : kernel),
    destroy_l2 n lsb l2 k = (l2', k') ->
    forall j, l2_get l2 j = 0 -> l2_get l2' j = 0.
Proof.
  induction n as [|n IH]; intros lsb l2 l2' k k' Hrun j Hj.
  { injection Hrun as <- <-. exact Hj. }
  cbn [destroy_l2] in Hrun. destruct (negb (l2_get l2 lsb =? 0)).
  - apply (IH _ _ _ _ _ Hrun). unfold l2_get in *.
    destruct (decide (lsb = j)) as [->|Hne].
    + destruct (Nat.lt_ge_cases j (length l2)) as [Hlt|Hge].
      * rewrite list_lookup_insert_eq by exact Hlt. reflexivity.
      * rewrite list_insert_ge by exact Hge. exact Hj.
    + rewrite list_lookup_insert_ne by exact Hne. exact Hj.
  - apply (IH _ _ _ _ _ Hrun), Hj.
Qed.

(** The inner loop of [destroy_pt]. *)
Lemma destroy_l2_spec (n : nat) :
  forall (lsb : nat) (l2 l2' : list Z) (k k' : kernel),
    destroy_l2 n lsb l2 k = (l2', k') ->
    pages_released k k' /\ dev_same k k' /\
    k_heap k' = k_heap k /\ k_live k' = k_live k /\
    length l2' = length l2 /\
    (forall j, (lsb <= j < lsb + n)%nat ->
       l2_get l2' j = 0 /\
       (l2_get l2 j <> 0 -> frame_of (l2_get l2 j) ∉ k_used k')) /\
    (forall u, u ∈ k_used k -> u ∉ k_used k' ->
       exists j, l2_get l2 j <> 0 /\ frame_of (l2_get l2 j) = u).
Proof.
  induction n as [|n IH]; intros lsb l2 l2' k k' Hrun.
  { injection Hrun as <- <-.
    split; [apply pages_released_same; reflexivity|].
    split; [apply dev_same_refl|]. repeat (split; [reflexivity|]).
    split; [intros j Hj; lia|]. intros u Hin Hnin. contradiction. }
  cbn [destroy_l2] in Hrun.
  destruct (Z.eqb_spec (l2_get l2 lsb) 0) as [Hz|Hnz]; simpl negb in Hrun;
    cbv iota in Hrun.
  - destruct (IH _ _ _ _ _ Hrun) as (Hp & Hd & Hh & Hl & Hlen & Hz' & Honly).
    repeat (split; [assumption|]). split; [|exact Honly].
    intros j Hj. destruct (decide (j = lsb)) as [->|Hne]; [|apply Hz'; lia].
    split; [|congruence].
    exact (destroy_l2_keeps_zero _ _ _ _ _ _ Hrun _ Hz).
  - set (v := PADDR_TO_KVADDR (Z.land (l2_get l2 lsb) PAGE_FRAME)) in *.
    destruct (free_kpages_released v k) as [Hp1 Hgone].
    destruct (free_kpages_frame v k) as (_ & Ht1 & Hs1 & Hc1 & Hh1 & Hl1).
    destruct (IH _ _ _ _ _ Hrun) as (Hp & Hd & Hh & Hl & Hlen & Hz' & Honly).
    split; [exact (pages_released_trans _ _ _ Hp1 Hp)|].
    split; [apply (dev_same_trans _ (free_kpages v k)); [repeat split; assumption|exact Hd]|].
    split; [congruence|]. split; [congruence|].
    split; [rewrite Hlen; apply length_insert|].
    assert (Hlt : (lsb < length l2)%nat).
    { destruct (Nat.lt_ge_cases lsb (length l2)) as [H|H]; [exact H|].
      exfalso. apply Hnz. unfold l2_get. rewrite lookup_ge_None_2 by exact H.
      reflexivity. }
    split.
    + intros j Hj. destruct (decide (j = lsb)) as [->|Hne].
      * split.
        -- apply (destroy_l2_keeps_zero _ _ _ _ _ _ Hrun).
           apply l2_get_insert_eq, Hlt.
        -- intros _ Hin. apply Hgone. destruct Hp as [Hsub _]. apply Hsub, Hin.
      * destruct (Hz' j ltac:(lia)) as [Hzj Hfj]. split; [exact Hzj|].
        rewrite l2_get_insert_ne in Hfj by congruence. exact Hfj.
    + intros u Hin Hnin.
      destruct (decide (u ∈ k_used (free_kpages v k))) as [Hmid|Hmid].
      * destruct (Honly u Hmid Hnin) as (j & Hj1 & Hj2).
        destruct (decide (lsb = j)) as [<-|Hne].
        -- rewrite l2_get_insert_eq in Hj1 by exact Hlt. congruence.
        -- rewrite l2_get_insert_ne in Hj1, Hj2 by exact Hne. eauto.
      * exists lsb. split; [exact Hnz|].
        destruct Hp1 as (_ & _ & l & Hf & Hl'). unfold free_kpages in *.
        destruct (decide (v ∈ k_used k)) as [Hv|Hv]; [|contradiction].
        cbn in Hmid. destruct (decide (u = v)) as [->|E]; [reflexivity|].
        exfalso. apply Hmid, elem_of_difference. split; [exact Hin|].
        rewrite elem_of_singleton. exact E.
Qed.

Lemma destroy_l2_zero_or_same (n : nat) :
  forall (lsb : nat) (l2 l2' : list Z) (k k' : kernel),
    destroy_l2 n lsb l2 k = (l2', k') ->
    forall j, l2_get l2' j = 0 \/ l2_get l2' j = l2_get l2 j.
Proof.
  induction n as [|n IH]; intros lsb l2 l2' k k' Hrun j.
  { injection Hrun as <- <-. right. reflexivity. }
  cbn [destroy_l2] in Hrun. destruct (negb (l2_get l2 lsb =? 0)).
  - destruct (IH _ _ _ _ _ Hrun j) as [H|H]; [left; exact H|].
    rewrite H. unfold l2_get.
    destruct (decide (lsb = j)) as [->|Hne].
    + destruct (Nat.lt_ge_cases j (length l2)) as [Hlt|Hge].
      * rewrite list_lookup_insert_eq by exact Hlt. left. reflexivity.
      * rewrite list_insert_ge by exact Hge. right. reflexivity.
    + rewrite list_lookup_insert_ne by exact Hne. right. reflexivity.
  - exact (IH _ _ _ _ _ Hrun j).
Qed.

Lemma count_slots_insert_lt (n : nat) :
  forall (msb i : nat) (pt : l1_table) (slot : option (list Z)),
    (i < msb)%nat ->
    count_slots n msb (<[i := slot]> pt) = count_slots n msb pt.
Proof.
  induction n as [|n IH]; intros msb i pt slot Hlt; [reflexivity|].
  cbn [count_slots]. rewrite l1_get_insert_ne by lia.
  rewrite IH by lia. reflexivity.
Qed.

(** The outer loop of [destroy_pt]. *)
Lemma destroy_l1_spec (n : nat) :
  forall (msb : nat) (pt pt' : l1_table) (k k' : kernel),
    destroy_l1 n msb pt k = (pt', k') ->
    pages_released k k' /\ dev_same k k' /\
    k_heap k' = k_heap k /\
    k_live k' = k_live k - Z.of_nat (count_slots n msb pt) /\
    length pt' = length pt /\
    (forall m, (m < msb)%nat -> l1_get pt' m = l1_get pt m) /\
    (forall m l, (msb <= m < msb + n)%nat -> (l < L2_PT_SIZE)%nat ->
       pt_get pt' m l = 0 /\
       (pt_get pt m l <> 0 -> frame_of (pt_get pt m l) ∉ k_used k')) /\
    (forall u, u ∈ k_used k -> u ∉ k_used k' ->
       exists m l, pt_get pt m l <> 0 /\ frame_of (pt_get pt m l) = u).
Proof.
  induction n as [|n IH]; intros msb pt pt' k k' Hrun.
  { injection Hrun as <- <-.
    split; [apply pages_released_same; reflexivity|].
    split; [apply dev_same_refl|]. split; [reflexivity|].
    split; [simpl; lia|]. split; [reflexivity|]. split; [reflexivity|].
    split; [intros m l Hm; lia|]. intros u Hin Hnin. contradiction. }
  cbn [destroy_l1 count_slots] in *.
  destruct (l1_get pt msb) as [l2|] eqn:Hl2.
  - destruct (destroy_l2 L2_PT_SIZE 0 l2 k) as [l2' k1] eqn:Hin.
    destruct (destroy_l2_spec _ _ _ _ _ _ Hin)
      as (Hp1 & Hd1 & Hh1 & Hl1 & Hlen1 & Hz1 & Honly1).
    destruct (kfree_frame k1) as (Hm2 & Hu2 & Hf2 & Ht2 & Hs2 & Hc2 & Hh2 & Hl2').
    set (pt1 := <[msb := Some l2']> pt) in *.
    destruct (IH _ _ _ _ _ Hrun) as (Hp & Hd & Hh & Hl & Hlen & Hlow & Hz & Honly).
    pose proof (l1_get_Some_lt _ _ _ Hl2) as Hmsb.
    assert (Hl1' : l1_get pt1 msb = Some l2') by (apply l1_get_insert_eq, Hmsb).
    assert (Hp2 : pages_released k (kfree k1)).
    { apply (pages_released_trans _ k1); [exact Hp1|].
      apply pages_released_same; assumption. }
    split; [exact (pages_released_trans _ _ _ Hp2 Hp)|].
    split.
    { apply (dev_same_trans _ (kfree k1)); [|exact Hd].
      apply (dev_same_trans _ k1); [exact Hd1|]. repeat split; assumption. }
    split; [congruence|].
    split.
    { rewrite Hl, Hl2', Hl1. unfold pt1.
      rewrite count_slots_insert_lt by lia. lia. }
    split; [rewrite Hlen; apply length_insert|].
    split.
    { intros m Hm. rewrite Hlow by lia. apply l1_get_insert_ne. lia. }
    split.
    + intros m l Hm Hl'. destruct (decide (m = msb)) as [->|Hne].
      * rewrite (pt_get_l1_eq pt1 pt' msb l (Hlow msb ltac:(lia))).
        unfold pt_get. rewrite Hl1', Hl2.
        destruct (Hz1 l ltac:(lia)) as [Hzl Hfl]. split; [exact Hzl|].
        intros Hnz Hin'. apply (Hfl Hnz).
        destruct Hp as [Hsub _]. apply Hsub in Hin'. rewrite Hu2 in Hin'. exact Hin'.
      * destruct (Hz m l ltac:(lia) Hl') as [Hzl Hfl]. split; [exact Hzl|].
        unfold pt1 in Hfl. unfold pt_get in Hfl |- *.
        rewrite l1_get_insert_ne in Hfl by congruence. exact Hfl.
    + intros u Hu Hnu.
      destruct (decide (u ∈ k_used k1)) as [Hmid|Hmid].
      * rewrite <- Hu2 in Hmid. destruct (Honly u Hmid Hnu) as (m & l & Hne & Hfr).
        destruct (decide (m = msb)) as [->|Hm].
        -- unfold pt_get in Hne, Hfr. rewrite Hl1' in Hne, Hfr.
           destruct (destroy_l2_zero_or_same _ _ _ _ _ _ Hin l) as [E|E];
             [congruence|].
           exists msb, l. unfold pt_get. rewrite Hl2, <- E. auto.
        -- exists m, l. unfold pt1, pt_get in Hne, Hfr. unfold pt_get.
           rewrite l1_get_insert_ne in Hne, Hfr by congruence. auto.
      * destruct (Honly1 u Hu Hmid) as (j & Hj1 & Hj2).
        exists msb, j. unfold pt_get. rewrite Hl2. auto.
  - destruct (IH _ _ _ _ _ Hrun) as (Hp & Hd & Hh & Hl & Hlen & Hlow & Hz & Honly).
    repeat (split; [assumption|]).
    split; [intros m Hm; apply Hlow; lia|].
    split; [|exact Honly].
    intros m l Hm Hl'. destruct (decide (m = msb)) as [->|Hne]; [|apply Hz; [lia|exact Hl']].
    rewrite (pt_get_l1_eq pt pt' msb l (Hlow msb ltac:(lia))).
    unfold pt_get. rewrite Hl2. split; [reflexivity|congruence].
Qed.

(** X2. [destroy_pt] on a non-NULL table takes no page and writes no memory
    and no TLB entry. Afterwards no frame named by a present entry within
    the table's bounds is held, the only pages released are frames named by
    present entries, each released page is back on the allocator's list,
    every entry within bounds reads 0, and one heap block per L2 array plus
    one for the L1 array were freed. On NULL it does nothing. *)
Theorem X2_destroy_pt_releases (pt : l1_table) (k : kernel) :
  destroy_pt None k = (None, k) /\
  exists pt' k',
    destroy_pt (Some pt) k = (Some pt', k') /\
    pages_released k k' /\ dev_same k k' /\
    k_live k' = k_live k - Z.of_nat (l2_arrays pt) - 1 /\
    (forall msb lsb, (msb < L1_PT_SIZE)%nat -> (lsb < L2_PT_SIZE)%nat ->
       pt_get pt' msb lsb = 0 /\
       (pt_get pt msb lsb <> 0 -> frame_of (pt_get pt msb lsb) ∉ k_used k')) /\
    (forall u, u ∈ k_used k -> u ∉ k_used k' ->
       exists msb lsb, pt_get pt msb lsb <> 0 /\ frame_of (pt_get pt msb lsb) = u).
Proof.
  split; [reflexivity|]. unfold destroy_pt.
  destruct (destroy_l1 L1_PT_SIZE 0 pt k) as [pt' k1] eqn:Hrun.
  destruct (destroy_l1_spec _ _ _ _ _ _ Hrun)
    as (Hp & Hd & Hh & Hl & Hlen & _ & Hz & Honly).
  destruct (kfree_frame k1) as (Hm2 & Hu2 & Hf2 & Ht2 & Hs2 & Hc2 & Hh2 & Hl2).
  exists pt', (kfree k1). split; [reflexivity|].
  split.
  { apply (pages_released_trans _ k1); [exact Hp|].
    apply pages_released_same; assumption. }
  split; [apply (dev_same_trans _ k1); [exact Hd|repeat split; assumption]|].
  split; [rewrite Hl2, Hl; unfold l2_arrays; lia|].
  split.
  { intros msb lsb Hmsb Hlsb. rewrite Hu2. apply Hz; [lia|exact Hlsb]. }
  intros u Hu Hnu. rewrite Hu2 in Hnu. exact (Honly u Hu Hnu).
Qed.

Lemma X2_destroy_pt_releases_witness :
  0x80100000 ∈ k_used kernel_ro_resident /\
  (0x80100000 ∉ k_used (snd (destroy_pt (Some ro_pt) kernel_ro_resident))).
Proof.
  split; [vm_compute; reflexivity|].
  destruct (X2_destroy_pt_releases ro_pt kernel_ro_resident)
    as (_ & pt' & k' & Heq & _ & _ & _ & Hz & _).
  rewrite Heq. cbn [snd].
  destruct (Hz 2%nat 0%nat) as [_ Hgone].
  - change L1_PT_SIZE with 2048%nat. lia.
  - change L2_PT_SIZE with 512%nat. lia.
  - change (frame_of (pt_get ro_pt 2 0)) with 0x80100000 in Hgone.
    apply Hgone. vm_compute. discriminate.
Defined.

Lemma free_regions_frame (l : list region) :
  forall k,
    k_mem (free_regions l k) = k_mem k /\ k_used (free_regions l k) = k_used k /\
    k_free (free_regions l k) = k_free k /\ dev_same k (free_regions l k) /\
    k_heap (free_regions l k) = k_heap k /\
    k_live (free_regions l k) = k_live k - Z.of_nat (length l).
Proof.
  induction l as [|r l IH]; intros k.
  { repeat split; simpl; lia. }
  cbn [free_regions length].
  destruct (IH (kfree k)) as (Hm & Hu & Hf & (Ht & Hs & Hc) & Hh & Hl).
  destruct (kfree_frame k) as (Hm2 & Hu2 & Hf2 & Ht2 & Hs2 & Hc2 & Hh2 & Hl2).
  repeat split; try congruence. lia.
Qed.

(** [as_destroy] on an address space with a page table. *)
Lemma as_destroy_spec (a : addrspace) (pt : l1_table) (k : kernel) :
  pagetable a = Some pt ->
  pages_released k (as_destroy (Some a) k) /\
  dev_same k (as_destroy (Some a) k) /\
  k_heap (as_destroy (Some a) k) = k_heap k /\
  k_live (as_destroy (Some a) k)
  = k_live k - Z.of_nat (length (regions a)) - Z.of_nat (l2_arrays pt) - 2 /\
  (forall msb lsb, (msb < L1_PT_SIZE)%nat -> (lsb < L2_PT_SIZE)%nat ->
     pt_get pt msb lsb <> 0 ->
     frame_of (pt_get pt msb lsb) ∉ k_used (as_destroy (Some a) k)) /\
  (forall u, u ∈ k_used k -> u ∉ k_used (as_destroy (Some a) k) ->
     exists msb lsb, pt_get pt msb lsb <> 0 /\ frame_of (pt_get pt msb lsb) = u).
Proof.
  intros Hpt. unfold as_destroy. rewrite Hpt.
  destruct (free_regions_frame (regions a) k) as (Hm0 & Hu0 & Hf0 & Hd0 & Hh0 & Hl0).
  set (k0 := free_regions (regions a) k) in *.
  unfold destroy_pt.
  destruct (destroy_l1 L1_PT_SIZE 0 pt k0) as [pt' k1] eqn:Hrun.
  destruct (destroy_l1_spec _ _ _ _ _ _ Hrun)
    as (Hp & Hd & Hh & Hl & Hlen & _ & Hz & Honly).
  destruct (kfree_frame k1) as (Hm2 & Hu2 & Hf2 & Ht2 & Hs2 & Hc2 & Hh2 & Hl2).
  destruct (kfree_frame (kfree k1)) as (Hm3 & Hu3 & Hf3 & Ht3 & Hs3 & Hc3 & Hh3 & Hl3).
  split.
  { apply (pages_released_trans _ k0); [apply pages_released_same; assumption|].
    apply (pages_released_trans _ k1); [exact Hp|].
    apply pages_released_same; congruence. }
  split.
  { apply (dev_same_trans _ k0); [exact Hd0|].
    apply (dev_same_trans _ k1); [exact Hd|]. repeat split; congruence. }
  split; [congruence|].
  split; [rewrite Hl3, Hl2, Hl, Hl0; unfold l2_arrays; lia|].
  split.
  { intros msb lsb Hmsb Hlsb Hne. rewrite Hu3, Hu2.
    apply (Hz msb lsb); [lia|exact Hlsb|exact Hne]. }
  intros u Hu Hnu. rewrite Hu3, Hu2 in Hnu. rewrite <- Hu0 in Hu.
  exact (Honly u Hu Hnu).
Qed.

(** X4. [as_destroy] of an address space with a page table frees one heap
    block per region, one per L2 array, the L1 array and the record; it
    releases every frame named by a present entry and no other page, takes
    no page, writes no memory, and does not touch the TLB: entries loaded
    for this address space stay in the TLB until the next flush. *)
Theorem X4_as_destroy_releases (a : addrspace) (pt : l1_table) (k : kernel)
    (Hpt : pagetable a = Some pt) :
  let k' := as_destroy (Some a) k in
  pages_released k k' /\
  k_tlb k' = k_tlb k /\ k_spl k' = k_spl k /\ k_curproc k' = k_curproc k /\
  k_live k'
  = k_live k - Z.of_nat (length (regions a)) - Z.of_nat (l2_arrays pt) - 2 /\
  (forall msb lsb, (msb < L1_PT_SIZE)%nat -> (lsb < L2_PT_SIZE)%nat ->
     pt_get pt msb lsb <> 0 -> frame_of (pt_get pt msb lsb) ∉ k_used k') /\
  (forall u, u ∈ k_used k -> u ∉ k_used k' ->
     exists msb lsb, pt_get pt msb lsb <> 0 /\ frame_of (pt_get pt msb lsb) = u).
Proof.
  cbv zeta.
  destruct (as_destroy_spec a pt k Hpt) as (Hp & (Ht & Hs & Hc) & _ & Hl & Hz & Ho).
  repeat (split; [assumption|]). exact Ho.
Qed.

Lemma X4_as_destroy_releases_witness :
  k_live (as_destroy (Some ro_as) kernel_ro_resident)
  = k_live kernel_ro_resident - Z.of_nat (length (regions ro_as))
    - Z.of_nat (l2_arrays ro_pt) - 2 /\
  k_tlb (as_destroy (Some ro_as) kernel_ro_resident) = k_tlb kernel_ro_resident.
Proof.
  destruct (X4_as_destroy_releases ro_as ro_pt kernel_ro_resident)
    as (_ & Ht & _ & _ & Hl & _).
  - reflexivity.
  - split; assumption.
Defined.

Lemma count_slots_replicate_None (n m msb : nat) :
  count_slots n msb (replicate m None) = 0%nat.
Proof.
  revert msb. induction n as [|n IH]; intros msb; [reflexivity|].
  cbn [count_slots]. rewrite l1_get_replicate_None. apply IH.
Qed.

(** An address space with no present entry gives no page back when it is
    destroyed. *)
Lemma as_destroy_empty (a : addrspace) (pt : l1_table) (k : kernel) :
  pagetable a = Some pt ->
  (forall msb lsb, pt_get pt msb lsb = 0) ->
  k_used (as_destroy (Some a) k) = k_used k /\
  k_free (as_destroy (Some a) k) = k_free k /\
  k_mem (as_destroy (Some a) k) = k_mem k.
Proof.
  intros Hpt Hzero.
  destruct (as_destroy_spec a pt k Hpt) as (Hp & _ & _ & _ & _ & Ho).
  assert (Hsub : k_used k ⊆ k_used (as_destroy (Some a) k)).
  { intros u Hu. destruct (decide (u ∈ k_used (as_destroy (Some a) k))) as [H|H];
      [exact H|].
    destruct (Ho u Hu H) as (m & l & Hne & _). exfalso. apply Hne, Hzero. }
  destruct (pages_released_none _ _ Hp Hsub) as [Hu Hf].
  split; [exact Hu|]. split; [exact Hf|]. apply Hp.
Qed.

(** X3. Destroying what [as_create] just made undoes it: the heap count,
    the held pages, the free list, memory, the TLB, the interrupt level
    and the current process are as before the [as_create]. *)
Theorem X3_destroy_after_create (k k1 : kernel) (a : addrspace)
    (Hc : as_create k = (Some a, k1)) :
  let k' := as_destroy (Some a) k1 in
  k_live k' = k_live k /\ k_used k' = k_used k /\ k_free k' = k_free k /\
  k_mem k' = k_mem k /\ k_tlb k' = k_tlb k /\ k_spl k' = k_spl k /\
  k_curproc k' = k_curproc k.
Proof.
  cbv zeta.
  revert Hc. unfold as_create.
  destruct (kmalloc k) as [[j1|] k2] eqn:H1; [|discriminate].
  destruct (kmalloc k2) as [[j2|] k3] eqn:H2; [|discriminate].
  intros [= <- <-].
  destruct (kmalloc_frame _ _ _ H1) as (Hm1 & Hu1 & Hf1 & Ht1 & Hs1 & Hc1).
  destruct (kmalloc_frame _ _ _ H2) as (Hm2 & Hu2 & Hf2 & Ht2 & Hs2 & Hc2).
  destruct (kmalloc_live _ _ _ H1) as [Hl1 _].
  destruct (kmalloc_live _ _ _ H2) as [Hl2 _].
  set (a := mkAS (Some (replicate L1_PT_SIZE None)) [] USERSTACK).
  destruct (as_destroy_spec a _ k3 eq_refl) as (_ & (Ht & Hs & Hcp) & _ & Hl & _).
  destruct (as_destroy_empty a _ k3 eq_refl) as (Hu & Hf & Hm).
  { intros msb lsb. apply pt_get_replicate_None. }
  split.
  { rewrite Hl. unfold l2_arrays. rewrite count_slots_replicate_None.
    cbn [regions a length]. lia. }
  repeat split; congruence.
Qed.

Lemma X3_destroy_after_create_witness :
  k_live (as_destroy (fst (as_create (boot [0x80100000] 2)))
            (snd (as_create (boot [0x80100000] 2))))
  = k_live (boot [0x80100000] 2) /\
  k_free (as_destroy (fst (as_create (boot [0x80100000] 2)))
            (snd (as_create (boot [0x80100000] 2))))
  = k_free (boot [0x80100000] 2).
Proof.
  destruct (X3_destroy_after_create (boot [0x80100000] 2)
              (snd (as_create (boot [0x80100000] 2)))
              (mkAS (Some (replicate L1_PT_SIZE None)) [] USERSTACK))
    as (Hl & _ & Hf & _).
  - reflexivity.
  - split; assumption.
Defined.

(** ** as_copy: what it shares with nothing, and what it leaves alone *)

(** The frames of the copy were free before the copy. *)
Lemma as_copy_new_frames_fresh (old new : addrspace) (k k' : kernel)
    (ptn : l1_table) :
  alloc_ok k -> as_wf k old ->
  as_copy old k = (0, Some new, k') ->
  pagetable new = Some ptn ->
  forall msb lsb,
    pt_get ptn msb lsb <> 0 -> frame_of (pt_get ptn msb lsb) ∉ k_used k.
Proof.
  intros Hal Hwf Hcopy Hptn msb lsb Hne.
  destruct (as_copy_entries _ _ _ _ Hal Hwf Hcopy)
    as (pto & ptn0 & k0 & Hpto & Hptn0 & He0 & He' & _ & Hlen & Hall).
  rewrite Hptn in Hptn0. injection Hptn0 as <-.
  destruct (l1_get ptn msb) as [l2|] eqn:Hl2;
    [|unfold pt_get in Hne; rewrite Hl2 in Hne; congruence].
  pose proof (l1_get_Some_lt _ _ _ Hl2) as Hlt. rewrite Hlen in Hlt.
  specialize (Hall msb Hlt).
  destruct (l1_get pto msb) as [l2o|]; [|congruence].
  destruct Hall as [(l2' & Hl2' & Hl2len) Hc].
  assert (Hlsb : (lsb < L2_PT_SIZE)%nat).
  { destruct (Nat.lt_ge_cases lsb L2_PT_SIZE) as [H|H]; [exact H|].
    exfalso. apply Hne. unfold pt_get, l2_get. rewrite Hl2'.
    rewrite lookup_ge_None_2 by lia. reflexivity. }
  destruct (Hc lsb Hlsb) as [Hz Hnz].
  destruct (Z.eq_dec (pt_get pto msb lsb) 0) as [E|E]; [exfalso; auto|].
  destruct (Hnz E) as (v & Hen & Hok & _ & Hv0 & _).
  rewrite Hen, frame_of_entry by (try exact Hok; apply land_dirty_frame).
  intros Hin. apply Hv0. destruct He0 as [Hu _]. apply Hu, Hin.
Qed.

(** X15. The copy does not depend on its source. After a successful
    [as_copy] from a well-formed address space, destroying the source
    releases the source's frames and leaves the copy intact: every present
    entry of the copy still names a held frame, and memory is not written,
    so the copied pages keep their contents. *)
Theorem X15_copy_survives_source_destroy (old new : addrspace) (k k' : kernel)
    (Hal : alloc_ok k) (Hwf : as_wf k old)
    (Hcopy : as_copy old k = (0, Some new, k')) :
  let k'' := as_destroy (Some old) k' in
  as_wf k'' new /\
  k_mem k'' = k_mem k' /\
  exists pto,
    pagetable old = Some pto /\
    forall msb lsb, (msb < L1_PT_SIZE)%nat -> (lsb < L2_PT_SIZE)%nat ->
      pt_get pto msb lsb <> 0 -> frame_of (pt_get pto msb lsb) ∉ k_used k''.
Proof.
  cbv zeta.
  destruct (as_copy_wf _ _ _ _ Hal Hwf Hcopy) as (_ & _ & Hwfn & _).
  destruct (as_copy_success _ _ _ _ Hcopy)
    as (pto & ptn & k0 & Hpto & Hptn & _).
  destruct (as_destroy_spec old pto k' Hpto) as (Hp & _ & _ & _ & Hz & Honly).
  pose proof Hwf as Hwf0.
  unfold as_wf in Hwf, Hwfn |- *. rewrite Hpto in Hwf. rewrite Hptn in Hwfn |- *.
  destruct Hwf as [_ Hown]. destruct Hwfn as [Hwfn Hownn].
  split.
  { split; [exact Hwfn|]. intros msb lsb Hne.
    destruct (Hownn msb lsb Hne) as [Hv Hin]. split; [exact Hv|].
    destruct (decide (frame_of (pt_get ptn msb lsb)
                        ∈ k_used (as_destroy (Some old) k'))) as [H|H]; [exact H|].
    exfalso. destruct (Honly _ Hin H) as (m & l & Hne' & Hfr).
    apply (as_copy_new_frames_fresh old new k k' ptn Hal Hwf0 Hcopy Hptn
             msb lsb Hne).
    rewrite <- Hfr. apply (Hown m l Hne'). }
  split; [apply Hp|].
  exists pto. split; [exact Hpto|exact Hz].
Qed.

Lemma X15_copy_survives_source_destroy_witness :
  as_wf (as_destroy (Some resident_as) copy_kernel) copy_new /\
  k_mem (as_destroy (Some resident_as) copy_kernel) = k_mem copy_kernel.
Proof.
  destruct (X15_copy_survives_source_destroy resident_as copy_new
              kernel_resident2 copy_kernel) as (H1 & H2 & _).
  - exact (proj1 kernel_resident2_wf).
  - exact (proj2 kernel_resident2_wf).
  - vm_compute. reflexivity.
  - split; assumption.
Defined.

(** ** as_copy and the devices; heap failures *)

Lemma kmalloc_dev (k k' : kernel) (o : option (nat -> Z)) :
  kmalloc k = (o, k') -> dev_same k k'.
Proof.
  intros H. destruct (kmalloc_frame _ _ _ H) as (_ & _ & _ & Ht & Hs & Hc).
  repeat split; assumption.
Qed.

Lemma as_destroy_dev (a : option addrspace) (k : kernel) :
  dev_same k (as_destroy a k).
Proof.
  destruct a as [a|]; [|apply dev_same_refl].
  destruct (pagetable a) as [pt|] eqn:Hpt.
  - apply (as_destroy_spec a pt k Hpt).
  - unfold as_destroy. rewrite Hpt. cbn [destroy_pt].
    destruct (free_regions_frame (regions a) k) as (_ & _ & _ & Hd & _).
    apply (dev_same_trans _ _ _ Hd). repeat split.
Qed.

Lemma copy_pt_l2_dev (pt_original : l1_table) (msb : nat) (n : nat) :
  forall lsb pt_copy k res pt' k',
    copy_pt_l2 n lsb pt_original pt_copy msb k = (res, pt', k') -> dev_same k k'.
Proof.
  induction n as [|n IH]; intros lsb pt_copy k res pt' k' Hrun.
  { injection Hrun as <- <- <-. apply dev_same_refl. }
  rewrite copy_pt_l2_S in Hrun. cbv zeta in Hrun.
  destruct (_ =? 0); [exact (IH _ _ _ _ _ _ Hrun)|].
  destruct (alloc_kpages 1 k) as [v k1] eqn:Ha.
  destruct (alloc_kpages_frame _ _ _ _ Ha) as (_ & _ & Ht & Hs & Hc).
  assert (Hd1 : dev_same k k1) by (repeat split; assumption).
  destruct (v =? 0); [injection Hrun as <- <- <-; exact Hd1|].
  destruct (memmove _ _ _ _) as [moved k3] eqn:Hmv.
  assert (Hd3 : dev_same k1 k3).
  { unfold memmove in Hmv. injection Hmv as _ <-. repeat split. }
  destruct (moved =? 0).
  - destruct (destroy_pt _ k3) as [freed k4] eqn:Hdes.
    injection Hrun as <- <- <-.
    apply (dev_same_trans _ _ _ Hd1), (dev_same_trans _ _ _ Hd3).
    unfold destroy_pt in Hdes.
    destruct (destroy_l1 _ _ _ k3) as [ptd kd] eqn:Hl1. injection Hdes as _ <-.
    destruct (destroy_l1_spec _ _ _ _ _ _ Hl1) as (_ & Hd & _).
    apply (dev_same_trans _ _ _ Hd). repeat split.
  - apply (dev_same_trans _ _ _ Hd1), (dev_same_trans _ _ _ Hd3).
    exact (IH _ _ _ _ _ _ Hrun).
Qed.

Lemma copy_pt_l1_dev (pt_original : l1_table) (n : nat) :
  forall msb pt_copy k res pt' k',
    copy_pt_l1 n msb pt_original pt_copy k = (res, pt', k') -> dev_same k k'.
Proof.
  induction n as [|n IH]; intros msb pt_copy k res pt' k' Hrun.
  { injection Hrun as <- <- <-. apply dev_same_refl. }
  cbn [copy_pt_l1] in Hrun.
  destruct (l1_get pt_original msb); [|exact (IH _ _ _ _ _ _ Hrun)].
  destruct (kmalloc k) as [[junk|] k0] eqn:Hk; pose proof (kmalloc_dev _ _ _ Hk) as Hd0;
    [|injection Hrun as <- <- <-; exact Hd0].
  destruct (copy_pt_l2 _ _ _ _ _ k0) as [[[c|] pt2] k2] eqn:Hin;
    pose proof (copy_pt_l2_dev _ _ _ _ _ _ _ _ _ Hin) as Hd2.
  - injection Hrun as <- <- <-. exact (dev_same_trans _ _ _ Hd0 Hd2).
  - apply (dev_same_trans _ _ _ Hd0), (dev_same_trans _ _ _ Hd2).
    exact (IH _ _ _ _ _ _ Hrun).
Qed.

Lemma copy_pt_dev (pt_original pt_copy : option l1_table) (k k' : kernel)
    (res : Z) (pt' : option l1_table) :
  copy_pt pt_original pt_copy k = (res, pt', k') -> dev_same k k'.
Proof.
  unfold copy_pt. destruct pt_original as [pto|];
    [|intros [= <- <- <-]; apply dev_same_refl].
  destruct pt_copy as [ptc|].
  - destruct (copy_pt_l1 _ _ _ _ k) as [[[c|] ptn] k1] eqn:Hl;
      intros [= <- <- <-]; exact (copy_pt_l1_dev _ _ _ _ _ _ _ _ Hl).
  - destruct (kmalloc k) as [[junk|] k0] eqn:Hk; pose proof (kmalloc_dev _ _ _ Hk) as Hd0;
      [|intros [= <- <- <-]; exact Hd0].
    destruct (copy_pt_l1 _ _ _ _ k0) as [[[c|] ptn] k1] eqn:Hl;
      intros [= <- <- <-];
      exact (dev_same_trans _ _ _ Hd0 (copy_pt_l1_dev _ _ _ _ _ _ _ _ Hl)).
Qed.

Lemma copy_regions_dev (oldr : list region) :
  forall newas k res newas' k',
    copy_regions oldr newas k = (res, newas', k') -> dev_same k k'.
Proof.
  induction oldr as [|r next IH]; intros newas k res newas' k' Hrun.
  { injection Hrun as <- <- <-. apply dev_same_refl. }
  cbn [copy_regions] in Hrun.
  destruct (kmalloc k) as [[junk|] k1] eqn:Hk; pose proof (kmalloc_dev _ _ _ Hk) as Hd.
  - exact (dev_same_trans _ _ _ Hd (IH _ _ _ _ _ Hrun)).
  - injection Hrun as <- <- <-.
    exact (dev_same_trans _ _ _ Hd (as_destroy_dev (Some newas) k1)).
Qed.

(** X6. [as_copy] never writes the TLB, never changes the interrupt level
    or the current process, whatever it returns: the parent's TLB entries
    are not flushed by a fork. When it succeeds, the new address space has
    the old one's regions, field by field and in the same order, the old
    stack base, and a page table. *)
Theorem X6_as_copy_regions_and_devices (old : addrspace) (k : kernel) :
  let '(res, ret, k') := as_copy old k in
  k_tlb k' = k_tlb k /\ k_spl k' = k_spl k /\ k_curproc k' = k_curproc k /\
  (res = 0 \/ res = ENOMEM \/ res = EINVAL) /\
  match ret with
  | Some new =>
    res = 0 /\ regions new = regions old /\ stackbase new = stackbase old /\
    pagetable new <> None /\ pagetable old <> None
  | None => res <> 0
  end.
Proof.
  destruct (as_copy old k) as [[res ret] k'] eqn:Hcopy.
  assert (Hdev : dev_same k k' /\ (res = 0 \/ res = ENOMEM \/ res = EINVAL) /\
                 (ret = None -> res <> 0) /\ (ret <> None -> res = 0)).
  { revert Hcopy. unfold as_copy.
    destruct (as_create k) as [[newas|] k1] eqn:Hc.
    - assert (Hd1 : dev_same k k1).
      { destruct (as_create_spec _ _ _ Hc) as (_ & _ & _).
        revert Hc. unfold as_create.
        destruct (kmalloc k) as [[j1|] ka] eqn:H1; [|discriminate].
        destruct (kmalloc ka) as [[j2|] kb] eqn:H2; [|discriminate].
        intros [= _ <-].
        exact (dev_same_trans _ _ _ (kmalloc_dev _ _ _ H1) (kmalloc_dev _ _ _ H2)). }
      destruct (copy_regions _ _ k1) as [[[code|] newas'] k2] eqn:Hr;
        pose proof (copy_regions_dev _ _ _ _ _ _ Hr) as Hd2.
      + intros [= <- <- <-].
        assert (code = ENOMEM).
        { clear -Hr. revert Hr. generalize (regions old) at 1.
          intros l. generalize (mkAS (pagetable newas) (regions newas) (stackbase old)).
          revert k1. induction l as [|r l IH]; intros k1 na Hr; [discriminate|].
          cbn [copy_regions] in Hr. destruct (kmalloc k1) as [[j|] kx].
          - exact (IH _ _ Hr).
          - congruence. }
        subst code. split; [exact (dev_same_trans _ _ _ Hd1 Hd2)|].
        split; [auto|]. split; [discriminate|congruence].
      + destruct (copy_pt _ _ k2) as [[r pt] k3] eqn:Hp.
        pose proof (copy_pt_dev _ _ _ _ _ _ Hp) as Hd3.
        assert (Hr3 : r = 0 \/ r = ENOMEM \/ r = EINVAL).
        { revert Hp. unfold copy_pt. destruct (pagetable old); [|intros [= <- _ _]; auto].
          destruct (pagetable newas').
          - destruct (copy_pt_l1 _ _ _ _ k2) as [[[c|] ptn] kx] eqn:Hl;
              intros [= <- _ _]; [|auto].
            rewrite (copy_pt_l1_code _ _ _ _ _ _ _ _ Hl). auto.
          - destruct (kmalloc k2) as [[j|] ky]; [|intros [= <- _ _]; auto].
            destruct (copy_pt_l1 _ _ _ _ ky) as [[[c|] ptn] kx] eqn:Hl;
              intros [= <- _ _]; [|auto].
            rewrite (copy_pt_l1_code _ _ _ _ _ _ _ _ Hl). auto. }
        destruct (Z.eqb_spec r 0) as [->|Hne]; simpl negb; cbv iota;
          intros [= <- <- <-].
        * split; [exact (dev_same_trans _ _ _ Hd1 (dev_same_trans _ _ _ Hd2 Hd3))|].
          split; [auto|]. split; [discriminate|reflexivity].
        * split.
          { apply (dev_same_trans _ _ _ Hd1), (dev_same_trans _ _ _ Hd2),
              (dev_same_trans _ _ _ Hd3).
            exact (as_destroy_dev (Some (mkAS pt (regions newas') (stackbase newas'))) k3). }
          split; [exact Hr3|]. split; [auto|congruence].
    - intros [= <- <- <-].
      split; [|split; [auto|split; [discriminate|congruence]]].
      revert Hc. unfold as_create.
      destruct (kmalloc k) as [[j1|] ka] eqn:H1.
      + destruct (kmalloc ka) as [[j2|] kb] eqn:H2; [discriminate|].
        intros [= <-].
        apply (dev_same_trans _ _ _ (kmalloc_dev _ _ _ H1)),
          (dev_same_trans _ _ _ (kmalloc_dev _ _ _ H2)). repeat split.
      + intros [= <-]. exact (kmalloc_dev _ _ _ H1). }
  destruct Hdev as ((Ht & Hs & Hc) & Hres & Hnone & Hsome).
  repeat (split; [assumption|]).
  destruct ret as [new|]; [|apply Hnone; reflexivity].
  assert (res = 0) by (apply Hsome; discriminate). subst res.
  destruct (as_copy_success _ _ _ _ Hcopy)
    as (pto & ptn & k0 & Hpto & Hptn & Hregs & Hsb & _).
  split; [reflexivity|]. split; [exact Hregs|]. split; [exact Hsb|].
  split; congruence.
Qed.

Lemma kmalloc_fails_at_O (k : kernel) :
  kmalloc_fails_at 0 k ->
  exists k1, kmalloc k = (None, k1) /\ k_live k1 = k_live k /\
             k_mem k1 = k_mem k /\ k_used k1 = k_used k /\ k_free k1 = k_free k.
Proof.
  intros (_ & _ & Hd). unfold kmalloc. rewrite drop_0 in Hd.
  destruct (k_heap k) as [|[j|] rest]; [| contradiction |];
    eexists; repeat split; reflexivity.
Qed.

Lemma kmalloc_fails_at_S (n : nat) (k : kernel) :
  kmalloc_fails_at (S n) k ->
  exists j k1, kmalloc k = (Some j, k1) /\ kmalloc_fails_at n k1 /\
               k_live k1 = k_live k + 1 /\
               k_mem k1 = k_mem k /\ k_used k1 = k_used k /\ k_free k1 = k_free k.
Proof.
  intros (Hlen & Hall & Hd). unfold kmalloc.
  destruct (k_heap k) as [|o rest] eqn:Hh; [simpl in Hlen; lia|].
  cbn [take drop length] in *. apply Forall_cons in Hall as [Ho Hall].
  destruct o as [j|]; [|congruence].
  exists j. eexists. split; [reflexivity|].
  split; [|repeat split; reflexivity].
  split; [cbn; lia|]. split; assumption.
Qed.

(** The region loop of [as_copy] when [kmalloc] fails at its call number
    [m]: everything allocated for the new address space is given back. *)
Lemma copy_regions_heap_failure (oldr : list region) :
  forall (m : nat) (newas : addrspace) (k : kernel) (pt : l1_table),
    (m < length oldr)%nat -> kmalloc_fails_at m k ->
    pagetable newas = Some pt -> (forall msb lsb, pt_get pt msb lsb = 0) ->
    exists newas' k',
      copy_regions oldr newas k = (Some ENOMEM, newas', k') /\
      k_live k' = k_live k - Z.of_nat (length (regions newas))
                  - Z.of_nat (l2_arrays pt) - 2 /\
      k_mem k' = k_mem k /\ k_used k' = k_used k /\ k_free k' = k_free k.
Proof.
  induction oldr as [|r next IH]; intros m newas k pt Hm Hfail Hpt Hzero;
    [simpl in Hm; lia|].
  cbn [copy_regions]. destruct m as [|m].
  - destruct (kmalloc_fails_at_O _ Hfail) as (k1 & -> & Hl & Hmem & Hu & Hf).
    eexists _, _. split; [reflexivity|].
    destruct (as_destroy_spec newas pt k1 Hpt) as (_ & _ & _ & Hl' & _).
    destruct (as_destroy_empty newas pt k1 Hpt Hzero) as (Hu' & Hf' & Hm').
    split; [rewrite Hl', Hl; reflexivity|]. repeat split; congruence.
  - destruct (kmalloc_fails_at_S _ _ Hfail) as (j & k1 & -> & Hfail1 & Hl & Hmem & Hu & Hf).
    destruct (IH m (mkAS (pagetable newas)
                      (regions newas ++ [mkRegion (as_vbase r) (size r) (flags r) (og_flags r)])
                      (stackbase newas)) k1 pt
                ltac:(simpl in Hm; lia) Hfail1 Hpt Hzero)
      as (na' & k' & Hrun & Hl' & Hm' & Hu' & Hf').
    exists na', k'. split; [exact Hrun|].
    cbn [regions] in Hl'. rewrite length_app in Hl'. cbn [length] in Hl'.
    split; [lia|]. repeat split; congruence.
Qed.

(** X14. When [kmalloc] fails while [as_copy] allocates the record, the L1
    array or one of the region nodes, [as_copy] returns ENOMEM with no new
    address space, and everything it had allocated is freed again: the
    heap count, the held pages, the free list and memory are as before. *)
Theorem X14_as_copy_heap_failure_unwinds (old : addrspace) (k : kernel) (n : nat)
    (Hn : (n < 2 + length (regions old))%nat)
    (Hfail : kmalloc_fails_at n k) :
  exists k',
    as_copy old k = (ENOMEM, None, k') /\
    k_live k' = k_live k /\ k_used k' = k_used k /\ k_free k' = k_free k /\
    k_mem k' = k_mem k.
Proof.
  unfold as_copy, as_create.
  destruct n as [|[|n]].
  - destruct (kmalloc_fails_at_O _ Hfail) as (k1 & -> & Hl & Hmem & Hu & Hf).
    exists k1. repeat split; assumption.
  - destruct (kmalloc_fails_at_S _ _ Hfail) as (j & k1 & -> & Hfail1 & Hl & Hmem & Hu & Hf).
    destruct (kmalloc_fails_at_O _ Hfail1) as (k2 & -> & Hl2 & Hmem2 & Hu2 & Hf2).
    exists (kfree k2). split; [reflexivity|].
    destruct (kfree_frame k2) as (Hm3 & Hu3 & Hf3 & _ & _ & _ & _ & Hl3).
    repeat split; try congruence. lia.
  - destruct (kmalloc_fails_at_S _ _ Hfail) as (j & k1 & -> & Hfail1 & Hl & Hmem & Hu & Hf).
    destruct (kmalloc_fails_at_S _ _ Hfail1) as (j2 & k2 & -> & Hfail2 & Hl2 & Hmem2 & Hu2 & Hf2).
    cbn [pagetable regions].
    destruct (copy_regions_heap_failure (regions old) n
                (mkAS (Some (replicate L1_PT_SIZE None)) [] (stackbase old)) k2
                (replicate L1_PT_SIZE None) ltac:(lia) Hfail2 eq_refl)
      as (na' & k' & -> & Hl' & Hm' & Hu' & Hf').
    { intros msb lsb. apply pt_get_replicate_None. }
    exists k'. split; [reflexivity|].
    unfold l2_arrays in Hl'. rewrite count_slots_replicate_None in Hl'.
    cbn [regions length] in Hl'.
    repeat split; try congruence. lia.
Qed.

Lemma X14_as_copy_heap_failure_unwinds_witness :
  exists k',
    as_copy resident_as (set_heap [Some (fun _ : nat => 0);
                                   Some (fun _ : nat => 0)] 4 kernel_resident2)
    = (ENOMEM, None, k') /\
    k_live k' = 4 /\
    k_used k' = k_used kernel_resident2 /\ k_free k' = k_free kernel_resident2 /\
    k_mem k' = k_mem kernel_resident2.
Proof.
  apply (X14_as_copy_heap_failure_unwinds resident_as
           (set_heap [Some (fun _ : nat => 0); Some (fun _ : nat => 0)] 4
              kernel_resident2) 2).
  - vm_compute. lia.
  - split; [simpl; lia|]. split; [|exact I].
    repeat constructor; discriminate.
Defined.

(** ** Regions as the fault handler sees them *)

(** The region [as_define_region] stores for a request that ends at or
    below USERSTACK: it starts at or below the request, ends at or above
    it, and ends at or below USERSTACK. *)
Lemma define_region_covers (a a' : addrspace) (vaddr memsize r w x : Z)
    (k k' : kernel) :
  0 <= vaddr -> 0 <= memsize -> vaddr + memsize <= USERSTACK ->
  as_define_region a vaddr memsize r w x k = (0, a', k') ->
  exists reg,
    regions a' = reg :: regions a /\ pagetable a' = pagetable a /\
    stackbase a' = stackbase a /\
    flags reg = wrap32 (Z.lor (Z.lor r w) x) /\ og_flags reg = flags reg /\
    as_vbase reg mod PAGE_SIZE = 0 /\ size reg mod PAGE_SIZE = 0 /\
    0 <= as_vbase reg <= vaddr /\
    vaddr + memsize <= as_vbase reg + size reg <= USERSTACK.
Proof.
  intros Hv0 Hm0 Hend Hok.
  destruct (as_define_region_region _ _ _ _ _ _ _ _ _ Hok)
    as (reg & Hregs & Hbase & Hsize & Hfl & Hog).
  exists reg. split; [exact Hregs|].
  assert (Hrest : pagetable a' = pagetable a /\ stackbase a' = stackbase a).
  { revert Hok. unfold as_define_region.
    destruct (kmalloc k) as [[j|] k1]; intros [= <- <-]; split; reflexivity. }
  destruct Hrest as [Hpt Hsb].
  split; [exact Hpt|]. split; [exact Hsb|]. split; [exact Hfl|]. split; [exact Hog|].
  unfold USERSTACK, MIPS_KSEG0 in *.
  assert (Hvu : is_u32 vaddr) by (unfold is_u32; lia).
  pose proof (Z.mod_pos_bound vaddr PAGE_SIZE ltac:(reflexivity)) as Hoff.
  pose proof (land_PAGE_FRAME_u32 vaddr Hvu) as Hb. rewrite <- Hbase in Hb.
  pose proof (land_PAGE_FRAME_mod vaddr Hvu) as Hbm. rewrite <- Hbase in Hbm.
  change PAGE_SIZE with 4096 in *.
  set (off := vaddr mod 4096) in *.
  assert (Hs : size reg = (memsize + off + 4095) - (memsize + off + 4095) mod 4096).
  { rewrite Hsize.
    rewrite (wrap32_small (memsize + off)) by (unfold is_u32; lia).
    rewrite wrap32_sub_l.
    rewrite wrap32_small by (unfold is_u32; lia).
    rewrite land_PAGE_FRAME_u32 by (unfold is_u32; lia).
    change PAGE_SIZE with 4096. f_equal; [lia|]. f_equal. lia. }
  assert (Hsm : size reg mod 4096 = 0).
  { rewrite Hsize. apply (land_PAGE_FRAME_mod _ (wrap32_range _)). }
  pose proof (Z.mod_pos_bound (memsize + off + 4095) 4096 ltac:(lia)) as Hr.
  pose proof (Z.div_mod (as_vbase reg) 4096 ltac:(lia)) as Hd1.
  pose proof (Z.div_mod (size reg) 4096 ltac:(lia)) as Hd2.
  rewrite Hbm in Hd1. rewrite Hsm in Hd2.
  split; [exact Hbm|]. split; [exact Hsm|]. split; [lia|]. split; [lia|].
  lia.
Qed.

(** The range test of the fault handler succeeds on the stored region for
    the page of every address of the request. *)
Lemma define_region_range_test (reg : region) (vaddr memsize addr : Z) :
  as_vbase reg mod PAGE_SIZE = 0 ->
  0 <= as_vbase reg <= vaddr ->
  vaddr + memsize <= as_vbase reg + size reg <= USERSTACK ->
  vaddr <= addr < vaddr + memsize ->
  (Z.land addr PAGE_FRAME <? wrap32 (as_vbase reg + size reg))
  && (as_vbase reg <=? Z.land addr PAGE_FRAME) = true.
Proof.
  intros Hbm Hb Hend Haddr. unfold USERSTACK, MIPS_KSEG0 in *.
  rewrite wrap32_small by (unfold is_u32; lia).
  rewrite land_PAGE_FRAME_u32 by (unfold is_u32; lia).
  change PAGE_SIZE with 4096 in *.
  pose proof (Z.mod_pos_bound addr 4096 ltac:(lia)) as Hr.
  pose proof (Z.div_mod addr 4096 ltac:(lia)) as Hd.
  pose proof (Z.div_mod (as_vbase reg) 4096 ltac:(lia)) as Hd1.
  rewrite Hbm in Hd1.
  apply andb_true_iff. rewrite Z.ltb_lt, Z.leb_le. split; [lia|].
  assert (as_vbase reg / 4096 <= addr / 4096) by (apply Z.div_le_mono; lia).
  lia.
Qed.

(** X12. The newest definition wins. After [as_define_region] succeeds for
    a non-empty request that ends at or below USERSTACK, the fault
    handler's region scan returns the new region, with flags [r|w|x], for
    the page of every address of the request, whatever older regions
    overlap it; for a page on which the new region's range test fails the
    scan answers as it did before. The page table is not touched. *)
Theorem X12_newest_region_wins (a a' : addrspace) (vaddr memsize r w x : Z)
    (k k' : kernel)
    (Hv0 : 0 <= vaddr) (Hm0 : 0 < memsize)
    (Hend : vaddr + memsize <= USERSTACK)
    (Hok : as_define_region a vaddr memsize r w x k = (0, a', k')) :
  exists reg,
    regions a' = reg :: regions a /\ pagetable a' = pagetable a /\
    flags reg = wrap32 (Z.lor (Z.lor r w) x) /\ og_flags reg = flags reg /\
    (forall addr, vaddr <= addr < vaddr + memsize ->
       find_region (Z.land addr PAGE_FRAME) (regions a') = Some reg) /\
    (forall fa,
       (fa <? wrap32 (as_vbase reg + size reg)) && (as_vbase reg <=? fa) = false ->
       find_region fa (regions a') = find_region fa (regions a)).
Proof.
  destruct (define_region_covers a a' vaddr memsize r w x k k' Hv0 ltac:(lia) Hend Hok)
    as (reg & Hregs & Hpt & _ & Hfl & Hog & Hbm & _ & Hb & He).
  exists reg. split; [exact Hregs|]. split; [exact Hpt|].
  split; [exact Hfl|]. split; [exact Hog|]. rewrite Hregs. split.
  - intros addr Haddr. cbn [find_region].
    rewrite (define_region_range_test reg vaddr memsize addr Hbm Hb He Haddr).
    reflexivity.
  - intros fa Hfa. cbn [find_region]. rewrite Hfa. reflexivity.
Qed.

Lemma X12_newest_region_wins_witness :
  exists reg,
    regions (snd (fst (as_define_region
                         (mkAS None [mkRegion 0x00400000 0x3000 5 5] USERSTACK)
                         0x00401010 0x20 PF_R PF_W 0 (boot [] 1))))
    = reg :: [mkRegion 0x00400000 0x3000 5 5] /\
    flags reg = 6 /\
    find_region (Z.land 0x00401020 PAGE_FRAME)
      (regions (snd (fst (as_define_region
                            (mkAS None [mkRegion 0x00400000 0x3000 5 5] USERSTACK)
                            0x00401010 0x20 PF_R PF_W 0 (boot [] 1)))))
    = Some reg.
Proof.
  destruct (X12_newest_region_wins
              (mkAS None [mkRegion 0x00400000 0x3000 5 5] USERSTACK)
              (snd (fst (as_define_region
                           (mkAS None [mkRegion 0x00400000 0x3000 5 5] USERSTACK)
                           0x00401010 0x20 PF_R PF_W 0 (boot [] 1))))
              0x00401010 0x20 PF_R PF_W 0 (boot [] 1)
              (snd (as_define_region
                      (mkAS None [mkRegion 0x00400000 0x3000 5 5] USERSTACK)
                      0x00401010 0x20 PF_R PF_W 0 (boot [] 1))))
    as (reg & H1 & _ & H3 & _ & H5 & _).
  - lia.
  - lia.
  - unfold USERSTACK, MIPS_KSEG0. lia.
  - reflexivity.
  - exists reg. split; [exact H1|]. split; [exact H3|]. apply H5. lia.
Defined.

(** ** as_define_stack *)

(** X16. For a stack size with [0 < USERSTACK_SIZE <= USERSTACK],
    [as_define_stack] returns 0 or ENOMEM. On ENOMEM nothing is stored
    in [*stackptr] and the address space is as before. On 0 the stack
    pointer is USERSTACK, and the address space has one more region, in
    front, with flags [PF_R|PF_W|PF_X]: it ends exactly at USERSTACK, is at
    least USERSTACK_SIZE long, and the fault handler finds it for every
    address of the USERSTACK_SIZE bytes below USERSTACK. *)
Theorem X16_define_stack (SZ : Z) (a a' : addrspace) (k k' : kernel)
    (res : Z) (sp : option Z)
    (Hsz : 0 < SZ <= USERSTACK)
    (Hcall : as_define_stack SZ a k = (res, a', sp, k')) :
  (res = ENOMEM /\ sp = None /\ a' = a) \/
  (res = 0 /\ sp = Some USERSTACK /\
   exists reg,
     regions a' = reg :: regions a /\ pagetable a' = pagetable a /\
     flags reg = 7 /\ og_flags reg = 7 /\
     as_vbase reg + size reg = USERSTACK /\ SZ <= size reg /\
     forall addr, USERSTACK - SZ <= addr < USERSTACK ->
       find_region (Z.land addr PAGE_FRAME) (regions a') = Some reg).
Proof.
  revert Hcall. unfold as_define_stack.
  assert (Hw : wrap32 (USERSTACK - SZ) = USERSTACK - SZ).
  { apply wrap32_small. unfold is_u32, USERSTACK, MIPS_KSEG0 in *. lia. }
  rewrite Hw.
  destruct (as_define_region a (USERSTACK - SZ) SZ PF_R PF_W PF_X k)
    as [[result a1] k1] eqn:Hdef.
  assert (Hres : result = ENOMEM /\ a1 = a \/ result = 0).
  { revert Hdef. unfold as_define_region.
    destruct (kmalloc k) as [[j|] k2]; intros [= <- <- <-];
      [right; reflexivity | left; split; reflexivity]. }
  destruct Hres as [[-> ->] | ->].
  - change (negb (ENOMEM =? 0)) with true. cbv iota.
    intros [= <- <- <- <-]. left. repeat split; reflexivity.
  - change (negb (0 =? 0)) with false. cbv iota.
    intros [= <- <- <- <-]. right. split; [reflexivity|]. split; [reflexivity|].
    destruct (define_region_covers a a1 (USERSTACK - SZ) SZ PF_R PF_W PF_X k k1
                ltac:(lia) ltac:(lia) ltac:(lia) Hdef)
      as (reg & Hregs & Hpt & _ & Hfl & Hog & Hbm & _ & Hb & He).
    exists reg. split; [exact Hregs|]. split; [exact Hpt|].
    split; [rewrite Hfl; reflexivity|].
    split; [rewrite Hog, Hfl; reflexivity|].
    split; [lia|]. split; [lia|].
    intros addr Haddr. rewrite Hregs. cbn [find_region].
    rewrite (define_region_range_test reg (USERSTACK - SZ) SZ addr Hbm Hb He
               ltac:(lia)).
    reflexivity.
Qed.

Lemma X16_define_stack_witness :
  exists reg,
    regions (snd (fst (fst (as_define_stack 0x12000
                              (mkAS None [mkRegion 0x00400000 0x1000 5 5] USERSTACK)
                              (boot [] 1)))))
    = [reg; mkRegion 0x00400000 0x1000 5 5] /\
    flags reg = 7 /\
    find_region (Z.land 0x7fffeffc PAGE_FRAME)
      (regions (snd (fst (fst (as_define_stack 0x12000
                                 (mkAS None [mkRegion 0x00400000 0x1000 5 5] USERSTACK)
                                 (boot [] 1))))))
    = Some reg.
Proof.
  destruct (X16_define_stack 0x12000
              (mkAS None [mkRegion 0x00400000 0x1000 5 5] USERSTACK)
              (snd (fst (fst (as_define_stack 0x12000
                                (mkAS None [mkRegion 0x00400000 0x1000 5 5] USERSTACK)
                                (boot [] 1)))))
              (boot [] 1)
              (snd (as_define_stack 0x12000
                      (mkAS None [mkRegion 0x00400000 0x1000 5 5] USERSTACK)
                      (boot [] 1)))
              0 (Some USERSTACK))
    as [(Hres & _) | (_ & _ & reg & H1 & _ & H3 & _ & _ & _ & H7)].
  - unfold USERSTACK, MIPS_KSEG0. lia.
  - reflexivity.
  - discriminate Hres.
  - exists reg. split; [exact H1|]. split; [exact H3|]. apply H7.
    unfold USERSTACK, MIPS_KSEG0. lia.
Defined.

(** ** Loading a program: prepare, fault, complete *)

Lemma find_region_prepare (fa : Z) (l : list region) :
  find_region fa (prepare_regions l)
  = option_map (fun r => mkRegion (as_vbase r) (size r) (Z.lor PF_W PF_R) (flags r))
      (find_region fa l).
Proof.
  induction l as [|r l IH]; [reflexivity|].
  cbn [prepare_regions find_region as_vbase size].
  destruct ((fa <? wrap32 (as_vbase r + size r)) && (as_vbase r <=? fa));
    [reflexivity | exact IH].
Qed.

Lemma find_region_complete (fa : Z) (l : list region) :
  find_region fa (complete_regions l)
  = option_map (fun r => mkRegion (as_vbase r) (size r) (og_flags r) (og_flags r))
      (find_region fa l).
Proof.
  induction l as [|r l IH]; [reflexivity|].
  cbn [complete_regions find_region as_vbase size].
  destruct ((fa <? wrap32 (as_vbase r + size r)) && (as_vbase r <=? fa));
    [reflexivity | exact IH].
Qed.

Lemma as_activate_frame (k : kernel) :
  k_curproc (as_activate k) = k_curproc k /\
  k_mem (as_activate k) = k_mem k /\ k_used (as_activate k) = k_used k /\
  k_free (as_activate k) = k_free k /\ k_heap (as_activate k) = k_heap k /\
  k_spl (as_activate k) = k_spl k.
Proof.
  unfold as_activate. destruct (proc_getas k) as [a|];
    [|repeat split; reflexivity].
  unfold splhigh, splx.
  destruct (tlb_flush_log NUM_TLB 0 (set_spl IPL_HIGH k))
    as (_ & Hm & Hu & Hf & _ & Hc & Hh & _).
  set (k1 := tlb_flush NUM_TLB 0 (set_spl IPL_HIGH k)) in *.
  cbn [set_spl k_tlb k_spl k_mem k_used k_free k_curproc k_heap] in *.
  repeat split; assumption.
Qed.

(** X17. A page that is faulted in while a program is being loaded stays
    writable. Take a non-null address on a page with no entry in the
    well-sized page table of the current address space, inside some region
    (read-only ones included), with a non-null page at the head of the free
    list and the L2 array present or the next [kmalloc] succeeding. Between
    [as_prepare_load] and [as_complete_load] a WRITE fault at this address
    returns 0 and installs an entry with the DIRTY bit. [as_complete_load]
    gives the region its flags back but leaves the entry as it is, so every
    later READ or WRITE fault at a non-null address of the page returns 0
    and loads that entry, DIRTY bit set, into the TLB. *)
Theorem X17_loaded_page_stays_writable (ft addr addr' : Z) (k : kernel)
    (a : addrspace) (pt : l1_table) (r : region) (v : Z) (rest : list Z)
    (Hnz : addr <> 0)
    (Hproc : proc_getas k = Some a)
    (Hpt : pagetable a = Some pt)
    (Hwf : pt_wf pt)
    (Hpte : pte_exists (Some pt) (pt_msb (Z.land addr PAGE_FRAME))
              (pt_lsb (Z.land addr PAGE_FRAME)) = false)
    (Hreg : find_region (Z.land addr PAGE_FRAME) (regions a) = Some r)
    (Hfree : k_free k = v :: rest) (Hv : v <> 0)
    (Hl2 : l1_get pt (Z.to_nat (pt_msb (Z.land addr PAGE_FRAME))) <> None \/
           exists junk h, k_heap k = Some junk :: h)
    (Hft : ft = VM_FAULT_READ \/ ft = VM_FAULT_WRITE)
    (Hnz' : addr' <> 0)
    (Hsame : Z.land addr' PAGE_FRAME = Z.land addr PAGE_FRAME) :
  let fa := Z.land addr PAGE_FRAME in
  let e := Z.lor (Z.lor (Z.land (KVADDR_TO_PADDR v) PAGE_FRAME) TLBLO_DIRTY)
             TLBLO_VALID in
  let k1 := run_prepare k in
  let k2 := run_complete (run_fault VM_FAULT_WRITE addr k1) in
  fst (vm_fault VM_FAULT_WRITE addr k1) = 0 /\
  (exists a2,
     proc_getas k2 = Some a2 /\
     find_region fa (regions a2)
     = Some (mkRegion (as_vbase r) (size r) (flags r) (flags r)) /\
     map flags (regions a2) = map flags (regions a)) /\
  vm_fault ft addr' k2 = (0, set_tlb (TlbRandom fa e :: k_tlb k2) k2) /\
  Z.land e TLBLO_DIRTY = TLBLO_DIRTY.
Proof.
  cbv zeta.
  destruct (proc_getas_curproc k a Hproc) as [p Hp].
  assert (Hcur : k_curproc k <> None) by congruence.
  set (fa := Z.land addr PAGE_FRAME) in *.
  set (a1 := mkAS (pagetable a) (prepare_regions (regions a)) (stackbase a)).
  assert (Hk1 : run_prepare k = set_curas a1 k).
  { unfold run_prepare. rewrite Hproc. reflexivity. }
  rewrite Hk1.
  destruct (set_curas_frame a1 k) as (_ & _ & _ & Hfr1).
  destruct (set_curas_other a1 k) as (_ & Hh1 & _ & Hpr1).
  specialize (Hpr1 Hcur).
  set (r1 := mkRegion (as_vbase r) (size r) (Z.lor PF_W PF_R) (flags r)).
  assert (Hreg1 : find_region fa (regions a1) = Some r1).
  { unfold a1. cbn [regions]. rewrite find_region_prepare, Hreg. reflexivity. }
  assert (Hl2' : l1_get pt (Z.to_nat (pt_msb fa)) <> None \/
                 exists junk h, k_heap (set_curas a1 k) = Some junk :: h).
  { rewrite Hh1. exact Hl2. }
  destruct (vm_fault_install VM_FAULT_WRITE addr (set_curas a1 k) a1 pt r1 v rest
              ltac:(right; reflexivity) Hnz Hpr1 Hpt Hwf Hpte Hreg1
              ltac:(intros _; reflexivity) ltac:(rewrite Hfr1; exact Hfree) Hv Hl2')
    as (k' & pt' & Hf & Hproc' & Hwf' & Hget & _ & _ & _ & _).
  fold fa in Hget, Hf. unfold r1 in Hget. cbn [flags] in Hget.
  change (Z.land (Z.lor PF_W PF_R) PF_W =? PF_W) with true in Hget. cbv iota in Hget.
  set (e := Z.lor (Z.lor (Z.land (KVADDR_TO_PADDR v) PAGE_FRAME) TLBLO_DIRTY)
              TLBLO_VALID) in *.
  unfold run_fault. rewrite Hf. cbn [fst snd].
  split; [reflexivity|].
  set (a2 := mkAS (Some pt') (complete_regions (regions a1)) (stackbase a1)).
  assert (Hk2 : run_complete k' = set_curas a2 (as_activate k')).
  { unfold run_complete. rewrite Hproc'. reflexivity. }
  rewrite Hk2.
  destruct (as_activate_frame k') as (Hc & _).
  destruct (proc_getas_curproc k' _ Hproc') as [p' Hp'].
  assert (Hpr2 : proc_getas (set_curas a2 (as_activate k')) = Some a2).
  { apply set_curas_regions. rewrite Hc. congruence. }
  assert (Hreg2 : find_region fa (regions a2)
                  = Some (mkRegion (as_vbase r) (size r) (flags r) (flags r))).
  { unfold a2. cbn [regions]. rewrite find_region_complete, Hreg1. reflexivity. }
  split.
  { exists a2. split; [exact Hpr2|]. split; [exact Hreg2|].
    unfold a2, a1. cbn [regions]. apply complete_prepare_flags. }
  split.
  - rewrite (vm_fault_hit_eq ft addr' _ a2 pt' Hft Hnz' Hpr2 eq_refl
               (find_region_nonempty _ _ _ Hreg2)).
    + rewrite Hsame. fold fa. rewrite Hget. reflexivity.
    + rewrite Hsame. fold fa. rewrite pte_exists_get, Hget.
      destruct (Z.eqb_spec e 0) as [He|He]; [|reflexivity].
      exfalso. exact (lor_valid_nonzero _ He).
  - unfold e. apply entry_dirty_of. left. reflexivity.
Qed.

Lemma X17_loaded_page_stays_writable_witness :
  Z.land (flags (mkRegion 0x00400000 0x1000 5 5)) PF_W = 0 /\
  fst (vm_fault VM_FAULT_WRITE 0x00400abc
         (run_complete (run_fault VM_FAULT_WRITE 0x00400010 (run_prepare kernel_S1))))
  = 0.
Proof.
  split; [reflexivity|].
  destruct (X17_loaded_page_stays_writable VM_FAULT_WRITE 0x00400010 0x00400abc
              kernel_S1
              (mkAS (Some (replicate L1_PT_SIZE None))
                 [mkRegion 0x00400000 0x1000 5 5] USERSTACK)
              (replicate L1_PT_SIZE None)
              (mkRegion 0x00400000 0x1000 5 5) 0x80100000 [])
    as (_ & _ & H & _).
  - lia.
  - reflexivity.
  - reflexivity.
  - apply pt_wf_empty.
  - rewrite pte_exists_get, pt_get_replicate_None. reflexivity.
  - reflexivity.
  - reflexivity.
  - lia.
  - right. vm_compute. eauto.
  - right. reflexivity.
  - lia.
  - reflexivity.
  - rewrite H. reflexivity.
Defined.
